(** * Personal-AI-Agent: a shallow embedding of [main.py]

    The development follows the Python source: the dataclasses become
    records, [PersonalAIAgent]'s methods become computations in a small
    state-and-exception monad (a raised exception keeps whatever the
    method had already appended, exactly as in Python), and the two
    library calls the scheduling logic rests on,
    [datetime.datetime.strptime] and [strftime], are modelled after
    CPython's [_strptime.py] and [_datetimemodule.c]; [strftime] hands
    the directives to the C library, and is modelled as glibc prints
    them: the year of [%Y] in plain decimal, without padding.

    Text is modelled by [string], and the model covers ASCII text:
    Python's [str.upper] and the regular-expression classes [\d], [\s]
    are modelled on that range.  What Python does with other characters
    (the upper case of letters beyond a to z, the digits and blanks of
    other scripts) is outside the model. *)

From Stdlib Require Import ZArith List String Ascii Bool Lia.
From Stdlib Require Import Sorting.Sorted Sorting.Permutation.
From Stdlib Require Import DecimalString DecimalNat DecimalFacts DecimalZ.
From stdpp Require Import base gmap strings list.

Local Open Scope string_scope.
Local Open Scope list_scope.
Local Open Scope Z_scope.

(** ** Exceptions and results *)

(** The exceptions the modelled code can raise.  [ValueError] is what
    [strptime] and the [datetime] constructor raise (the specification's
    FormatError); [KeyError] is raised by [TaskPriority[...]] (the
    specification's InvalidPriorityError) and by a dictionary subscript
    (MissingFieldError), and carries the missing key; [OverflowError] is
    raised by [datetime + timedelta]; [IndexError] by [del l[i]]. *)
Inductive exn : Type :=
| ValueError
| KeyError (key : string)
| OverflowError
| IndexError.

(** The outcome of running a piece of code: a value, an exception, or
    the step budget of a [while] loop used up. *)
Inductive res (A : Type) : Type :=
| Return (a : A)
| Raise (e : exn)
| OutOfFuel.

Arguments Return {A} a.
Arguments Raise {A} e.
Arguments OutOfFuel {A}.

Definition res_bind {A B : Type} (r : res A) (k : A -> res B) : res B :=
  match r with
  | Return a => k a
  | Raise e => Raise e
  | OutOfFuel => OutOfFuel
  end.

(** ** Text *)

Definition code (c : ascii) : Z := Z.of_N (N_of_ascii c).

Definition in_range (lo hi : ascii) (c : ascii) : bool :=
  (code lo <=? code c) && (code c <=? code hi).

Definition is_char (x : ascii) (c : ascii) : bool := code c =? code x.

(** [\d] on ASCII text. *)
Definition is_digit (c : ascii) : bool := in_range "0"%char "9"%char c.

(** [\s] on ASCII text: [str.isspace] holds of tab, line feed, vertical
    tab, form feed, carriage return, the four separators 0x1c-0x1f and
    the space. *)
Definition is_space (c : ascii) : bool :=
  ((9 <=? code c) && (code c <=? 13))
  || ((28 <=? code c) && (code c <=? 31))
  || (code c =? 32).

Definition upper_char (c : ascii) : ascii :=
  if in_range "a"%char "z"%char c then ascii_of_N (N_of_ascii c - 32) else c.

(** [str.upper], on ASCII text: the letters a to z are raised, every
    other character is kept. *)
Fixpoint upper (s : string) : string :=
  match s with
  | EmptyString => EmptyString
  | String c s' => String (upper_char c) (upper s')
  end.

(** [str(n)] for a natural number, as used by an f-string. *)
Definition str_of_nat (n : nat) : string :=
  NilZero.string_of_uint (Nat.to_uint n).

Definition digit_val (c : ascii) : Z := code c - 48.

Definition digit_of (n : Z) : ascii := ascii_of_N (Z.to_N (48 + n)).

(** [int(text)] on the text a directive captured: decimal digits, with
    the blanks [int] strips skipped. *)
Fixpoint int_of_text_from (acc : Z) (s : string) : Z :=
  match s with
  | EmptyString => acc
  | String c s' =>
      int_of_text_from (if is_digit c then acc * 10 + digit_val c else acc) s'
  end.

Definition int_of_text (s : string) : Z := int_of_text_from 0 s.

(** Zero-padded decimal printing, two and four digits wide. *)
Definition pad2 (n : Z) : string :=
  String (digit_of (n / 10 mod 10)) (String (digit_of (n mod 10)) "").

Definition pad4 (n : Z) : string :=
  String (digit_of (n / 1000 mod 10))
    (String (digit_of (n / 100 mod 10)) (pad2 n)).

(** The year as the C library's [strftime] prints it for [%Y]: plain
    decimal, as many digits as the year has (["2025"], ["999"], ["5"]). *)
Definition year_text (y : Z) : string :=
  NilZero.string_of_uint (N.to_uint (Z.to_N y)).

(** ** [datetime.datetime] *)

Record datetime : Type := mk_datetime {
  year : Z;
  month : Z;
  day : Z;
  hour : Z;
  minute : Z;
  second : Z;
  microsecond : Z
}.

Definition MINYEAR : Z := 1.
Definition MAXYEAR : Z := 9999.

Definition is_leap (y : Z) : bool :=
  (y mod 4 =? 0) && (negb (y mod 100 =? 0) || (y mod 400 =? 0)).

Definition days_in_month (y m : Z) : Z :=
  if m =? 2 then (if is_leap y then 29 else 28)
  else if (m =? 4) || (m =? 6) || (m =? 9) || (m =? 11) then 30
  else 31.

(** Days before January 1st of year [y]. *)
Definition days_before_year (y : Z) : Z :=
  let y := y - 1 in y * 365 + y / 4 - y / 100 + y / 400.

(** Days of year [y] before the first of month [m]. *)
Fixpoint days_before_month_from (y : Z) (k : nat) : Z :=
  match k with
  | O => 0
  | S k' => days_before_month_from y k' + days_in_month y (Z.of_nat k)
  end.

Definition days_before_month (y m : Z) : Z :=
  days_before_month_from y (Z.to_nat (m - 1)).

(** [d.toordinal()]: January 1st of year 1 is day 1. *)
Definition toordinal (d : datetime) : Z :=
  days_before_year (year d) + days_before_month (year d) (month d) + day d.

Definition MAXORDINAL : Z := 3652059.

(** The range checks of the [datetime] constructor. *)
Definition check_date_fields (y m d : Z) : bool :=
  (MINYEAR <=? y) && (y <=? MAXYEAR)
  && (1 <=? m) && (m <=? 12)
  && (1 <=? d) && (d <=? days_in_month y m).

Definition check_time_fields (h mi s us : Z) : bool :=
  (0 <=? h) && (h <=? 23) && (0 <=? mi) && (mi <=? 59)
  && (0 <=? s) && (s <=? 59) && (0 <=? us) && (us <=? 999999).

(** [datetime.datetime(y, m, d, h, mi, s, us)] *)
Definition new_datetime (y m d h mi s us : Z) : res datetime :=
  if check_date_fields y m d && check_time_fields h mi s us
  then Return (mk_datetime y m d h mi s us)
  else Raise ValueError.

(** The objects Python can hold are the ones the constructor accepts. *)
Definition valid_datetime (d : datetime) : bool :=
  check_date_fields (year d) (month d) (day d)
  && check_time_fields (hour d) (minute d) (second d) (microsecond d).

Definition is_midnight (d : datetime) : bool :=
  (hour d =? 0) && (minute d =? 0) && (second d =? 0) && (microsecond d =? 0).

(** Comparison of two datetimes is the comparison of their field
    tuples, most significant field first. *)
Fixpoint lex_compare (a b : list Z) : comparison :=
  match a, b with
  | [], [] => Eq
  | [], _ :: _ => Lt
  | _ :: _, [] => Gt
  | x :: a', y :: b' =>
      match x ?= y with
      | Eq => lex_compare a' b'
      | c => c
      end
  end.

Definition datetime_key (d : datetime) : list Z :=
  [year d; month d; day d; hour d; minute d; second d; microsecond d].

Definition datetime_compare (a b : datetime) : comparison :=
  lex_compare (datetime_key a) (datetime_key b).

(** [a < b], [a <= b], [a > b] *)
Definition datetime_lt (a b : datetime) : bool :=
  match datetime_compare a b with Lt => true | _ => false end.

Definition datetime_le (a b : datetime) : bool :=
  match datetime_compare a b with Gt => false | _ => true end.

Definition datetime_gt (a b : datetime) : bool :=
  match datetime_compare a b with Gt => true | _ => false end.

(** [d + datetime.timedelta(days=1)]: the day is incremented and then
    normalised ([normalize_y_m_d]): one past the end of the month moves
    to the first of the next month, one past December to the next year;
    a year outside [MINYEAR..MAXYEAR] raises [OverflowError]. *)
Definition add_one_day (d : datetime) : res datetime :=
  let y := year d in
  let m := month d in
  let dd := day d + 1 in
  let '(y, m, dd) :=
    if dd =? days_in_month y m + 1
    then (if 12 <? m + 1 then (y + 1, 1, 1) else (y, m + 1, 1))
    else (y, m, dd) in
  if (MINYEAR <=? y) && (y <=? MAXYEAR)
  then Return (mk_datetime y m dd (hour d) (minute d) (second d) (microsecond d))
  else Raise OverflowError.

(** [(a - b).days]: the difference is normalised so that the seconds
    and microseconds of the [timedelta] are non-negative. *)
Definition seconds_of_day (d : datetime) : Z :=
  hour d * 3600 + minute d * 60 + second d.

Definition sub_days (a b : datetime) : Z :=
  (toordinal a - toordinal b)
  + (seconds_of_day a - seconds_of_day b
     + (microsecond a - microsecond b) / 1000000) / 86400.

(** ** [strptime] and [strftime]

    [_strptime.py] turns the format into a regular expression, one
    group per directive, matches it at the head of the text with a
    backtracking engine, and rejects the text when the match does not
    reach its end.  The matcher below enumerates the matches in the
    order the engine tries them. *)

Module re.

(** A sequence of character classes matched at the head of the text:
    the captured text and what follows it. *)
Fixpoint seq (cs : list (ascii -> bool)) (s : string) : option (string * string) :=
  match cs with
  | [] => Some ("", s)
  | c :: cs' =>
      match s with
      | EmptyString => None
      | String a s' =>
          if c a
          then match seq cs' s' with
               | Some (m, r) => Some (String a m, r)
               | None => None
               end
          else None
      end
  end.

(** [a|b|c]: the alternatives that match, leftmost first. *)
Definition alt (alts : list (list (ascii -> bool))) (s : string)
  : list (string * string) :=
  omap (fun cs => seq cs s) alts.

(** [\s+], greedy: the texts left after the longest run of blanks,
    then after each shorter one. *)
Fixpoint spaces (s : string) : list string :=
  match s with
  | EmptyString => []
  | String a s' => if is_space a then spaces s' ++ [s'] else []
  end.

End re.

Inductive directive : Type := dir_Y | dir_m | dir_d | dir_H | dir_M.

Inductive fmt_item : Type :=
| Directive (d : directive)
| Literal (c : ascii)
| Whitespace.

(** The regular expression of each directive ([TimeRE.__init__]). *)
Definition directive_regex (d : directive) : list (list (ascii -> bool)) :=
  let ch := is_char in
  let rg := in_range in
  match d with
  | dir_Y => (* \d\d\d\d *)
      [[is_digit; is_digit; is_digit; is_digit]]
  | dir_m => (* 1[0-2]|0[1-9]|[1-9] *)
      [[ch "1"; rg "0" "2"]; [ch "0"; rg "1" "9"]; [rg "1" "9"]]
  | dir_d => (* 3[0-1]|[1-2]\d|0[1-9]|[1-9]| [1-9] *)
      [[ch "3"; rg "0" "1"]; [rg "1" "2"; is_digit]; [ch "0"; rg "1" "9"];
       [rg "1" "9"]; [ch " "; rg "1" "9"]]
  | dir_H => (* 2[0-3]|[0-1]\d|\d *)
      [[ch "2"; rg "0" "3"]; [rg "0" "1"; is_digit]; [is_digit]]
  | dir_M => (* [0-5]\d|\d *)
      [[rg "0" "5"; is_digit]; [is_digit]]
  end%char.

Definition directive_of_char (c : ascii) : option directive :=
  if is_char "Y" c then Some dir_Y
  else if is_char "m" c then Some dir_m
  else if is_char "d" c then Some dir_d
  else if is_char "H" c then Some dir_H
  else if is_char "M" c then Some dir_M
  else None.

(** [TimeRE.pattern]: a run of blanks in the format becomes [\s+], a
    [%x] becomes the group of directive [x], any other character stands
    for itself.  Only the directives [main.py] uses are modelled. *)
Fixpoint compile_format (after_space : bool) (format : string) : option (list fmt_item) :=
  match format with
  | EmptyString => Some []
  | String c rest =>
      if is_space c then
        if after_space then compile_format true rest
        else cons Whitespace <$> compile_format true rest
      else if is_char "%" c then
        match rest with
        | String x rest' =>
            match directive_of_char x with
            | Some d => cons (Directive d) <$> compile_format false rest'
            | None => None
            end
        | EmptyString => None
        end
      else cons (Literal c) <$> compile_format false rest
  end.

(** The matches of one item at the head of the text: the directive
    values captured and the text left. The expression is compiled with
    [re.IGNORECASE]. *)
Definition match_item (it : fmt_item) (s : string)
  : list (list (directive * Z) * string) :=
  match it with
  | Directive d =>
      map (fun '(m, r) => ([(d, int_of_text m)], r)) (re.alt (directive_regex d) s)
  | Literal c =>
      match s with
      | String a s' =>
          if is_char (upper_char c) (upper_char a) then [([], s')] else []
      | EmptyString => []
      end
  | Whitespace => map (fun r => ([], r)) (re.spaces s)
  end.

Fixpoint match_items (its : list fmt_item) (s : string)
  : list (list (directive * Z) * string) :=
  match its with
  | [] => [([], s)]
  | it :: its' =>
      flat_map (fun '(v, r) =>
                  map (fun '(vs, r') => (v ++ vs, r')) (match_items its' r))
               (match_item it s)
  end.

Definition directive_eqb (a b : directive) : bool :=
  match a, b with
  | dir_Y, dir_Y | dir_m, dir_m | dir_d, dir_d | dir_H, dir_H | dir_M, dir_M => true
  | _, _ => false
  end.

(** The value a directive captured, or the default of [_strptime]. *)
Fixpoint group (d : directive) (default : Z) (groups : list (directive * Z)) : Z :=
  match groups with
  | [] => default
  | (d', v) :: groups' => if directive_eqb d d' then v else group d default groups'
  end.

(** [datetime.datetime.strptime(data_string, format)] *)
Definition strptime (data_string format : string) : res datetime :=
  match compile_format false format with
  | None => Raise ValueError
  | Some its =>
      match match_items its data_string with
      | [] => Raise ValueError (* does not match format *)
      | (groups, rest) :: _ =>
          match rest with
          | EmptyString =>
              new_datetime (group dir_Y 1900 groups) (group dir_m 1 groups)
                (group dir_d 1 groups) (group dir_H 0 groups)
                (group dir_M 0 groups) 0 0
          | String _ _ => Raise ValueError (* unconverted data remains *)
          end
      end
  end.

(** [d.strftime(format)], for the directives above.  The fields of
    [%m], [%d], [%H] and [%M] are printed two digits wide; the year of
    [%Y] is printed by the C library without padding, so that a year
    below 1000 has fewer than the four digits [strptime] asks for. *)
Fixpoint strftime (d : datetime) (format : string) : string :=
  match format with
  | EmptyString => EmptyString
  | String c rest =>
      if is_char "%" c then
        match rest with
        | String x rest' =>
            match directive_of_char x with
            | Some dir_Y => year_text (year d) +:+ strftime d rest'
            | Some dir_m => pad2 (month d) +:+ strftime d rest'
            | Some dir_d => pad2 (day d) +:+ strftime d rest'
            | Some dir_H => pad2 (hour d) +:+ strftime d rest'
            | Some dir_M => pad2 (minute d) +:+ strftime d rest'
            | None => String c (strftime d rest)
            end
        | EmptyString => String c EmptyString
        end
      else String c (strftime d rest)
  end.

(** ** The data model of [main.py] *)

Inductive TaskPriority : Type := HIGH | MEDIUM | LOW.

Inductive TaskStatus : Type := TODO | IN_PROGRESS | COMPLETED.

(** The member names and values of the [TaskPriority] enumeration. *)
Definition TaskPriority_name (p : TaskPriority) : string :=
  match p with HIGH => "HIGH" | MEDIUM => "MEDIUM" | LOW => "LOW" end.

Definition TaskPriority_value (p : TaskPriority) : string :=
  match p with HIGH => "High" | MEDIUM => "Medium" | LOW => "Low" end.

Definition TaskPriority_members : list TaskPriority := [HIGH; MEDIUM; LOW].

(** [TaskPriority[name]]: the member of that name, [KeyError] if there
    is none. *)
Definition TaskPriority_getitem (name : string) : res TaskPriority :=
  match filter (fun p => TaskPriority_name p = name) TaskPriority_members with
  | p :: _ => Return p
  | [] => Raise (KeyError name)
  end.

Module Reminder.
Record t : Type := mk {
  task_id : string;
  reminder_time : datetime;
  notification_sent : bool;
  message : string
}.
End Reminder.

Module Task.
Record t : Type := mk {
  id : string;
  title : string;
  description : string;
  due_date : datetime;
  priority : TaskPriority;
  status : TaskStatus;
  reminders : list Reminder.t
}.
End Task.

Module TravelDay.
Record t : Type := mk {
  date : datetime;
  morning : string;
  afternoon : string;
  evening : string;
  notes : option string
}.
End TravelDay.

Module TravelItinerary.
Record t : Type := mk {
  destination : string;
  start_date : datetime;
  end_date : datetime;
  days : list TravelDay.t;
  hotel_info : gmap string string;
  flight_info : gmap string string
}.
End TravelItinerary.

(** The dictionaries [get_upcoming_reminders] returns have the three
    keys ['time'], ['task_title'] and ['message']. *)
Module Upcoming.
Record t : Type := mk {
  time : datetime;
  task_title : string;
  message : string
}.
End Upcoming.

(** The state of a [PersonalAIAgent] object. *)
Record PersonalAIAgent : Type := mk_agent {
  user_name : string;
  tasks : list Task.t;
  reminders : list Reminder.t;
  travel_itineraries : list TravelItinerary.t
}.

(** [PersonalAIAgent(user_name)] *)
Definition init (user_name : string) : PersonalAIAgent :=
  mk_agent user_name [] [] [].

(** ** Methods run on the agent and may raise

    A method is a function from the agent's state to an outcome and the
    state it leaves behind; the state survives an exception. *)

Definition M (A : Type) : Type := PersonalAIAgent -> res A * PersonalAIAgent.

Definition ret {A : Type} (a : A) : M A := fun s => (Return a, s).

Definition bind {A B : Type} (m : M A) (k : A -> M B) : M B :=
  fun s =>
    match m s with
    | (Return a, s') => k a s'
    | (Raise e, s') => (Raise e, s')
    | (OutOfFuel, s') => (OutOfFuel, s')
    end.

Definition lift {A : Type} (r : res A) : M A := fun s => (r, s).

Definition get : M PersonalAIAgent := fun s => (Return s, s).

Definition put (s : PersonalAIAgent) : M unit := fun _ => (Return tt, s).

Notation "x <- c ;; k" := (bind c (fun x => k))
  (at level 100, c at next level, right associativity).

(** [self.reminders.append(r)], [self.tasks.append(t)],
    [self.travel_itineraries.append(i)] *)
Definition reminders_append (r : Reminder.t) : M unit :=
  s <- get ;;
  put (mk_agent (user_name s) (tasks s) (reminders s ++ [r]) (travel_itineraries s)).

Definition tasks_append (t : Task.t) : M unit :=
  s <- get ;;
  put (mk_agent (user_name s) (tasks s ++ [t]) (reminders s) (travel_itineraries s)).

Definition travel_itineraries_append (i : TravelItinerary.t) : M unit :=
  s <- get ;;
  put (mk_agent (user_name s) (tasks s) (reminders s) (travel_itineraries s ++ [i])).

(** *** [add_reminder] *)

Definition add_reminder (task_id reminder_time message : string) : M Reminder.t :=
  reminder_datetime <- lift (strptime reminder_time "%Y-%m-%d %H:%M") ;;
  let reminder := Reminder.mk task_id reminder_datetime false message in
  _ <- reminders_append reminder ;;
  ret reminder.

(** *** [create_task_with_reminders] *)

(** The [for reminder_time in reminder_times] loop; [acc] is the local
    list [reminders]. *)
Fixpoint add_reminders (task_id message : string) (reminder_times : list string)
    (acc : list Reminder.t) : M (list Reminder.t) :=
  match reminder_times with
  | [] => ret acc
  | reminder_time :: rest =>
      reminder <- add_reminder task_id reminder_time message ;;
      add_reminders task_id message rest (acc ++ [reminder])
  end.

(** [reminder_times] defaults to [None]; [None] and the empty list are
    both false in [if reminder_times:]. *)
Definition create_task_with_reminders (title description due_date priority : string)
    (reminder_times : option (list string)) : M Task.t :=
  s <- get ;;
  let task_id := "task_" +:+ str_of_nat (length (tasks s) + 1) in
  due_date_obj <- lift (strptime due_date "%Y-%m-%d %H:%M") ;;
  reminders <-
    match reminder_times with
    | Some ((_ :: _) as times) =>
        add_reminders task_id ("Reminder: " +:+ title +:+ " is due " +:+ due_date)
          times []
    | _ => ret []
    end ;;
  priority_member <- lift (TaskPriority_getitem (upper priority)) ;;
  let task :=
    Task.mk task_id title description due_date_obj priority_member TODO reminders in
  _ <- tasks_append task ;;
  ret task.

(** *** [create_travel_itinerary] *)

Definition free_time : gmap string string :=
  {[ "morning" := "Free time"; "afternoon" := "Free time"; "evening" := "Free time" ]}.

(** [d[key]] *)
Definition getitem (d : gmap string string) (key : string) : res string :=
  match d !! key with
  | Some v => Return v
  | None => Raise (KeyError key)
  end.

(** [d.get(key, default)] *)
Definition dict_get {V : Type} (d : gmap string V) (key : string) (default : V) : V :=
  match d !! key with
  | Some v => v
  | None => default
  end.

(** One pass through the body of the [while] loop, up to the append. *)
Definition travel_day (activities : gmap string (gmap string string))
    (current_date : datetime) : res TravelDay.t :=
  let date_str := strftime current_date "%Y-%m-%d" in
  let day_activities := dict_get activities date_str free_time in
  res_bind (getitem day_activities "morning") (fun morning =>
  res_bind (getitem day_activities "afternoon") (fun afternoon =>
  res_bind (getitem day_activities "evening") (fun evening =>
  Return (TravelDay.mk current_date morning afternoon evening
            (day_activities !! "notes"))))).

(** [while current_date <= end_date_obj: ...]; [fuel] bounds the number
    of passes through the body. *)
Fixpoint build_days (fuel : nat) (activities : gmap string (gmap string string))
    (end_date_obj current_date : datetime) (days : list TravelDay.t)
  : res (list TravelDay.t) :=
  if datetime_le current_date end_date_obj then
    match fuel with
    | O => OutOfFuel
    | S fuel' =>
        res_bind (travel_day activities current_date) (fun d =>
        res_bind (add_one_day current_date) (fun next =>
        build_days fuel' activities end_date_obj next (days ++ [d])))
    end
  else Return days.

Definition create_travel_itinerary (fuel : nat) (destination start_date end_date : string)
    (activities : gmap string (gmap string string))
    (hotel_info flight_info : gmap string string) : M TravelItinerary.t :=
  start_date_obj <- lift (strptime start_date "%Y-%m-%d") ;;
  end_date_obj <- lift (strptime end_date "%Y-%m-%d") ;;
  days <- lift (build_days fuel activities end_date_obj start_date_obj []) ;;
  let itinerary :=
    TravelItinerary.mk destination start_date_obj end_date_obj days
      hotel_info flight_info in
  _ <- travel_itineraries_append itinerary ;;
  ret itinerary.

(** *** [get_upcoming_reminders] *)

(** [next((t for t in tasks if t.id == task_id), None)] *)
Definition find_task (tasks : list Task.t) (task_id : string) : option Task.t :=
  head (filter (fun t => Task.id t = task_id) tasks).

(** [sorted(l, key=...)] is stable: an element goes in front of the
    first one whose key is strictly greater than or equal to its own
    among the elements that followed it. *)
Fixpoint insert_by {A : Type} (key : A -> datetime) (x : A) (l : list A) : list A :=
  match l with
  | [] => [x]
  | y :: l' =>
      if datetime_lt (key y) (key x) then y :: insert_by key x l'
      else x :: y :: l'
  end.

Fixpoint sorted {A : Type} (key : A -> datetime) (l : list A) : list A :=
  match l with
  | [] => []
  | x :: l' => insert_by key x (sorted key l')
  end.

(** The [for reminder in self.reminders] loop. *)
Fixpoint collect_upcoming (now : datetime) (tasks : list Task.t)
    (rs : list Reminder.t) (upcoming : list Upcoming.t) : list Upcoming.t :=
  match rs with
  | [] => upcoming
  | reminder :: rs' =>
      if negb (Reminder.notification_sent reminder)
         && datetime_gt (Reminder.reminder_time reminder) now
      then
        match find_task tasks (Reminder.task_id reminder) with
        | Some task =>
            collect_upcoming now tasks rs'
              (upcoming ++ [Upcoming.mk (Reminder.reminder_time reminder)
                              (Task.title task) (Reminder.message reminder)])
        | None => collect_upcoming now tasks rs' upcoming
        end
      else collect_upcoming now tasks rs' upcoming
  end.

(** [now] is the value [datetime.datetime.now()] returns. *)
Definition get_upcoming_reminders (now : datetime) : M (list Upcoming.t) :=
  s <- get ;;
  let upcoming := collect_upcoming now (tasks s) (reminders s) [] in
  ret (sorted Upcoming.time upcoming).

(** ** What a caller can do to the public attributes *)

(** [del agent.tasks[i]]: the class has no method that removes a task,
    but [tasks] is an ordinary public list. *)
Definition del_task (i : nat) : M unit :=
  s <- get ;;
  if (i <? length (tasks s))%nat
  then put (mk_agent (user_name s) (delete i (tasks s)) (reminders s)
              (travel_itineraries s))
  else lift (Raise IndexError).

(** ** More of the Python runtime *)

(** The line feed an escape [\n] stands for. *)
Definition nl : string := String (ascii_of_N 10) "".

(** [sep.join(l)] *)
Fixpoint str_join (sep : string) (l : list string) : string :=
  match l with
  | [] => ""
  | [x] => x
  | x :: l' => x +:+ sep +:+ str_join sep l'
  end.

(** [str(n)] for an integer. *)
Definition str_of_Z (n : Z) : string := NilZero.string_of_int (Z.to_int n).

(** [d.weekday()]: Monday is 0. *)
Definition weekday (d : datetime) : Z := (toordinal d + 6) mod 7.

(** The names [strftime] prints for [%A], [%B] and [%b] in the C
    locale, which is the locale of a program that never calls
    [setlocale]. *)
Definition day_names : list string :=
  ["Monday"; "Tuesday"; "Wednesday"; "Thursday"; "Friday"; "Saturday"; "Sunday"].

Definition month_names : list string :=
  ["January"; "February"; "March"; "April"; "May"; "June"; "July"; "August";
   "September"; "October"; "November"; "December"].

Definition month_abbrs : list string :=
  ["Jan"; "Feb"; "Mar"; "Apr"; "May"; "Jun"; "Jul"; "Aug"; "Sep"; "Oct"; "Nov"; "Dec"].

Definition name_at (names : list string) (i : Z) : string :=
  nth (Z.to_nat i) names "".

(** [d.strftime(format)] with the name directives [%A], [%B], [%b]
    beside the numeric ones. *)
Fixpoint strftime_names (d : datetime) (format : string) : string :=
  match format with
  | EmptyString => EmptyString
  | String c rest =>
      if is_char "%" c then
        match rest with
        | String x rest' =>
            if is_char "A" x then name_at day_names (weekday d) +:+ strftime_names d rest'
            else if is_char "B" x then
              name_at month_names (month d - 1) +:+ strftime_names d rest'
            else if is_char "b" x then
              name_at month_abbrs (month d - 1) +:+ strftime_names d rest'
            else
              match directive_of_char x with
              | Some dir_Y => year_text (year d) +:+ strftime_names d rest'
              | Some dir_m => pad2 (month d) +:+ strftime_names d rest'
              | Some dir_d => pad2 (day d) +:+ strftime_names d rest'
              | Some dir_H => pad2 (hour d) +:+ strftime_names d rest'
              | Some dir_M => pad2 (minute d) +:+ strftime_names d rest'
              | None => String c (strftime_names d rest)
              end
        | EmptyString => String c EmptyString
        end
      else String c (strftime_names d rest)
  end.

(** Characters of a field name that is a plain keyword. *)
Definition is_name_char (c : ascii) : bool :=
  in_range "a"%char "z"%char c || in_range "A"%char "Z"%char c
  || is_digit c || is_char "_"%char c.

Fixpoint all_digits (s : string) : bool :=
  match s with
  | EmptyString => true
  | String c s' => is_digit c && all_digits s'
  end.

(** Where the scan of a format string stands: in literal text, after an
    opening brace, inside the name of a field, after a closing brace. *)
Inductive format_state : Type :=
| InText
| AfterOpen
| InField (name : string)
| AfterClose.

(** [format_string.format] called with keyword arguments only, scanned
    left to right as [str.format] does, for string values: doubled braces are literal
    braces, [{name}] is replaced by [kwargs[name]] ([KeyError] when
    absent), an empty or numeric field asks for a positional argument
    and raises [IndexError], an unmatched brace raises [ValueError].
    Fields with a conversion, a format specification, an attribute or
    an index are outside the model: the result is [None]. *)
Fixpoint format_scan (kwargs : gmap string string) (st : format_state)
    (out : string) (s : string) : option (res string) :=
  match s with
  | EmptyString =>
      match st with
      | InText => Some (Return out)
      | _ => Some (Raise ValueError)
      end
  | String c rest =>
      match st with
      | InText =>
          if is_char "{" c then format_scan kwargs AfterOpen out rest
          else if is_char "}" c then format_scan kwargs AfterClose out rest
          else format_scan kwargs InText (out +:+ String c "") rest
      | AfterOpen =>
          if is_char "{" c then format_scan kwargs InText (out +:+ "{") rest
          else if is_char "}" c then Some (Raise IndexError)
          else if is_name_char c then format_scan kwargs (InField (String c "")) out rest
          else None
      | InField name =>
          if is_char "}" c then
            if all_digits name then Some (Raise IndexError)
            else
              match kwargs !! name with
              | Some v => format_scan kwargs InText (out +:+ v) rest
              | None => Some (Raise (KeyError name))
              end
          else if is_name_char c then
            format_scan kwargs (InField (name +:+ String c "")) out rest
          else None
      | AfterClose =>
          if is_char "}" c then format_scan kwargs InText (out +:+ "}") rest
          else Some (Raise ValueError)
      end
  end.

Definition str_format (format_string : string) (kwargs : gmap string string)
  : option (res string) :=
  format_scan kwargs InText "" format_string.

(** ** The rest of [main.py] *)

Module EmailTemplate.
Record t : Type := mk {
  subject : string;
  content : string;
  placeholders : list string
}.
End EmailTemplate.

(** The two triple-quoted contents, line by line; each ends with the
    sixteen blanks that precede the closing quotes. *)
Definition meeting_followup_content : string :=
  nl +:+ "Hi {recipient_name}," +:+ nl
  +:+ nl
  +:+ "Thank you for the productive meeting {meeting_time}. It was great to discuss {topics_discussed}. I appreciate your insights and suggestions." +:+ nl
  +:+ nl
  +:+ "As we agreed, I will {action_items}, and I look forward to {next_steps}." +:+ nl
  +:+ nl
  +:+ "Please let me know if you have any questions or need further information." +:+ nl
  +:+ nl
  +:+ "Best regards," +:+ nl
  +:+ "{sender_name}" +:+ nl
  +:+ "                ".

Definition project_update_content : string :=
  nl +:+ "Dear {recipient_name}," +:+ nl
  +:+ nl
  +:+ "I hope this email finds you well. I wanted to provide an update on {project_name}." +:+ nl
  +:+ nl
  +:+ "Current Status:" +:+ nl
  +:+ "{project_status}" +:+ nl
  +:+ nl
  +:+ "Key Achievements:" +:+ nl
  +:+ "{achievements}" +:+ nl
  +:+ nl
  +:+ "Next Steps:" +:+ nl
  +:+ "{next_steps}" +:+ nl
  +:+ nl
  +:+ "Timeline:" +:+ nl
  +:+ "{timeline}" +:+ nl
  +:+ nl
  +:+ "Please let me know if you need any clarification or have questions." +:+ nl
  +:+ nl
  +:+ "Best regards," +:+ nl
  +:+ "{sender_name}" +:+ nl
  +:+ "                ".

(** *** [get_email_templates] *)

Definition get_email_templates : gmap string EmailTemplate.t :=
  {[ "meeting_followup" :=
       EmailTemplate.mk "Follow-up on Our {meeting_type} Meeting"
         meeting_followup_content
         ["meeting_type"; "recipient_name"; "meeting_time"; "topics_discussed";
          "action_items"; "next_steps"; "sender_name"];
     "project_update" :=
       EmailTemplate.mk "Project Update: {project_name}"
         project_update_content
         ["project_name"; "recipient_name"; "project_status"; "achievements";
          "next_steps"; "timeline"; "sender_name"] ]}.

(** *** [format_travel_itinerary] *)

(** [if day.notes:] holds of a text that is not empty. *)
Definition notes_lines (notes : option string) : list string :=
  match notes with
  | Some (String _ _ as text) => ["Notes: " +:+ text]
  | _ => []
  end.

(** The lines one pass of the [for day in itinerary.days] loop appends. *)
Definition day_lines (start_date : datetime) (day : TravelDay.t) : list string :=
  [nl +:+ "Day " +:+ str_of_Z (sub_days (TravelDay.date day) start_date + 1)
      +:+ ": " +:+ strftime_names (TravelDay.date day) "%A, %B %d";
   "Morning: " +:+ TravelDay.morning day;
   "Afternoon: " +:+ TravelDay.afternoon day;
   "Evening: " +:+ TravelDay.evening day]
  ++ notes_lines (TravelDay.notes day).

(** The list [output] when the method reaches its [return]. *)
Definition itinerary_lines (itinerary : TravelItinerary.t) : res (list string) :=
  let flight_info := TravelItinerary.flight_info itinerary in
  let hotel_info := TravelItinerary.hotel_info itinerary in
  let output :=
    ["Travel Itinerary: " +:+ TravelItinerary.destination itinerary;
     "Date: " +:+ strftime_names (TravelItinerary.start_date itinerary) "%b %d"
       +:+ " - " +:+ strftime_names (TravelItinerary.end_date itinerary) "%b %d" +:+ nl;
     "Flight Information:"] in
  res_bind (getitem flight_info "departure_time") (fun departure_time =>
  let output := output ++ ["Departure: " +:+ departure_time] in
  res_bind (getitem flight_info "arrival_time") (fun arrival_time =>
  let output := output ++ ["Arrival: " +:+ arrival_time] in
  res_bind (getitem flight_info "flight_number") (fun flight_number =>
  let output := output ++ ["Flight Number: " +:+ flight_number +:+ nl;
                           "Hotel Information:"] in
  res_bind (getitem hotel_info "name") (fun name =>
  let output := output ++ ["Name: " +:+ name] in
  res_bind (getitem hotel_info "address") (fun address =>
  let output := output ++ ["Address: " +:+ address] in
  res_bind (getitem hotel_info "confirmation") (fun confirmation =>
  let output := output ++ ["Confirmation: " +:+ confirmation +:+ nl;
                           "Daily Schedule:"] in
  Return (output
          ++ flat_map (day_lines (TravelItinerary.start_date itinerary))
               (TravelItinerary.days itinerary)))))))).

Definition format_travel_itinerary (itinerary : TravelItinerary.t) : M string :=
  lift (res_bind (itinerary_lines itinerary) (fun output =>
        Return (str_join nl output))).

(** *** [print_daily_schedule] *)

(** [a.date() == b.date()] *)
Definition same_date (a b : datetime) : bool :=
  (year a =? year b) && (month a =? month b) && (day a =? day b).

(** The list comprehension [today_tasks]. *)
Definition today_tasks (today : datetime) (tasks : list Task.t) : list Task.t :=
  List.filter (fun task => same_date (Task.due_date task) today) tasks.

(** The value is what the method prints, one text per call of [print];
    [today] is the clock reading of the method and [now] the later one
    of [get_upcoming_reminders]. *)
Definition print_daily_schedule (today now : datetime) : M (list string) :=
  s <- get ;;
  let header := [nl +:+ "Today's Schedule (" +:+ strftime today "%Y-%m-%d" +:+ "):"] in
  let task_lines :=
    match today_tasks today (tasks s) with
    | [] => ["No tasks scheduled for today"]
    | due =>
        map (fun task =>
               "- " +:+ strftime (Task.due_date task) "%H:%M" +:+ " - "
               +:+ Task.title task +:+ " ("
               +:+ TaskPriority_value (Task.priority task) +:+ ")") due
    end in
  upcoming <- get_upcoming_reminders now ;;
  let reminder_lines :=
    match upcoming with
    | [] => ["No upcoming reminders"]
    | _ =>
        map (fun reminder =>
               "- " +:+ strftime (Upcoming.time reminder) "%Y-%m-%d %H:%M" +:+ " - "
               +:+ Upcoming.task_title reminder) upcoming
    end in
  ret (header ++ task_lines ++ [nl +:+ "Upcoming Reminders:"] ++ reminder_lines).

(** ** Notions used in the statements *)

(** The number of days of year [y]. *)
Definition year_length (y : Z) : Z := if is_leap y then 366 else 365.

(** The compiled form of the format "%Y-%m-%d". *)
Definition date_items : list fmt_item :=
  [Directive dir_Y; Literal "-"; Directive dir_m; Literal "-"; Directive dir_d].

(** The directive an item of a format captures, if any. *)
Definition item_directives (it : fmt_item) : list directive :=
  match it with Directive d => [d] | _ => [] end.

(** The decimal digits of a year from 1 to 9999, most significant
    first and without padding. *)
Definition year_digits (y : Z) : string :=
  if y <? 10 then String (digit_of y) ""
  else if y <? 100 then pad2 y
  else if y <? 1000 then String (digit_of (y / 100 mod 10)) (pad2 y)
  else pad4 y.


(** A check of [n] consecutive numbers, from [y] up. *)
Fixpoint all_from (P : Z -> bool) (n : nat) (y : Z) : bool :=
  match n with
  | O => true
  | S n' => P y && all_from P n' (y + 1)
  end.

(** Two characters that are equal or the two cases of one letter. *)
Definition same_letter (c d : ascii) : bool :=
  let letter x := in_range "A"%char "Z"%char x || in_range "a"%char "z"%char x in
  (code c =? code d)
  || (letter c && letter d && (Z.abs (code c - code d) =? 32)).

(** Equality of two texts up to the case of their letters. *)
Fixpoint eq_ignore_case (a b : string) : bool :=
  match a, b with
  | EmptyString, EmptyString => true
  | String c a', String d b' => same_letter c d && eq_ignore_case a' b'
  | _, _ => false
  end.

(** A text made of ASCII characters only. *)
Fixpoint is_ascii (s : string) : bool :=
  match s with
  | EmptyString => true
  | String c s' => (code c <? 128) && is_ascii s'
  end.

(** The agent with [rs] appended to its reminders. *)
Definition with_reminders (s : PersonalAIAgent) (rs : list Reminder.t) : PersonalAIAgent :=
  mk_agent (user_name s) (tasks s) (reminders s ++ rs) (travel_itineraries s).

(** The agent with [t] appended to its tasks. *)
Definition with_task (s : PersonalAIAgent) (t : Task.t) : PersonalAIAgent :=
  mk_agent (user_name s) (tasks s ++ [t]) (reminders s) (travel_itineraries s).

(** The message of the reminders created with a task. *)
Definition reminder_message (title due_date : string) : string :=
  "Reminder: " +:+ title +:+ " is due " +:+ due_date.

(** The keys an override entry must have. *)
Definition required_slots : list string := ["morning"; "afternoon"; "evening"].

(** An override entry with its three required slots. *)
Definition complete_entry (entry : gmap string string) : Prop :=
  Forall (fun slot => is_Some (entry !! slot)) required_slots.

(** An override map all of whose entries are complete. *)
Definition complete_activities (activities : gmap string (gmap string string)) : Prop :=
  forall key entry, activities !! key = Some entry -> complete_entry entry.

(** The day built for a date that has no override entry. *)
Definition free_day (date : datetime) : TravelDay.t :=
  TravelDay.mk date "Free time" "Free time" "Free time" None.

(** The first override entry of [main]. *)
Definition demo_activities : gmap string (gmap string string) :=
  {[ "2025-03-15" :=
       {[ "morning" := "Arrive in New York and check into hotel";
          "afternoon" := "Explore Times Square and surrounding area";
          "evening" := "Broadway show: The Lion King";
          "notes" := "Hotel check-in after 3 PM" ]} ]}.

(** An override entry without its afternoon slot. *)
Definition broken_activities : gmap string (gmap string string) :=
  {[ "2025-03-16" := {[ "morning" := "Visit Statue of Liberty"; "evening" := "Dinner in DUMBO" ]} ]}.




(** A call a client makes on the agent. *)
Inductive call : Type :=
| CreateTask (title description due_date priority : string)
    (reminder_times : option (list string))
| AddReminder (task_id reminder_time message : string)
| CreateItinerary (fuel : nat) (destination start_date end_date : string)
    (activities : gmap string (gmap string string))
    (hotel_info flight_info : gmap string string)
| UpcomingReminders (now : datetime)
| DelTask (i : nat).

Definition is_removal (c : call) : bool :=
  match c with DelTask _ => true | _ => false end.

(** Runs one call; the task it created, if it is a [CreateTask] that
    returned. *)
Definition run_call (c : call) (s : PersonalAIAgent) : option Task.t * PersonalAIAgent :=
  match c with
  | CreateTask title description due_date priority reminder_times =>
      match create_task_with_reminders title description due_date priority
              reminder_times s with
      | (Return t, s') => (Some t, s')
      | (_, s') => (None, s')
      end
  | AddReminder task_id reminder_time message =>
      (None, snd (add_reminder task_id reminder_time message s))
  | CreateItinerary fuel destination start_date end_date activities hotel_info flight_info =>
      (None, snd (create_travel_itinerary fuel destination start_date end_date
                    activities hotel_info flight_info s))
  | UpcomingReminders now => (None, snd (get_upcoming_reminders now s))
  | DelTask i => (None, snd (del_task i s))
  end.

(** Runs a sequence of calls; the tasks created, in creation order. *)
Fixpoint run (cs : list call) (s : PersonalAIAgent) : list Task.t * PersonalAIAgent :=
  match cs with
  | [] => ([], s)
  | c :: cs' =>
      let '(created, s') := run_call c s in
      let '(rest, s'') := run cs' s' in
      (match created with Some t => t :: rest | None => rest end, s'')
  end.

(** The identifier built from the number [n]. *)
Definition task_name (n : nat) : string := "task_" +:+ str_of_nat n.

(** The record [get_upcoming_reminders] builds from a reminder and its
    task. *)
Definition upcoming_record (p : Reminder.t * Task.t) : Upcoming.t :=
  Upcoming.mk (Reminder.reminder_time (fst p)) (Task.title (snd p))
    (Reminder.message (fst p)).

(** [t] is the first task of the list with identifier [task_id]. *)
Definition first_with_id (tasks : list Task.t) (task_id : string) (t : Task.t) : Prop :=
  exists before after,
    tasks = before ++ t :: after
    /\ Task.id t = task_id
    /\ Forall (fun u => Task.id u <> task_id) before.

(** [a == b] on datetimes: a tie for the sort. *)
Definition datetime_eqb (a b : datetime) : bool :=
  match datetime_compare a b with Eq => true | _ => false end.

(** The reminders the loop of [get_upcoming_reminders] keeps, each with
    the task found for it. *)
Fixpoint selection (now : datetime) (tasks : list Task.t) (rs : list Reminder.t)
  : list (Reminder.t * Task.t) :=
  match rs with
  | [] => []
  | r :: rs' =>
      if negb (Reminder.notification_sent r) && datetime_gt (Reminder.reminder_time r) now
      then match find_task tasks (Reminder.task_id r) with
           | Some t => (r, t) :: selection now tasks rs'
           | None => selection now tasks rs'
           end
      else selection now tasks rs'
  end.

(** Midnight of a day of March 2025. *)
Definition march (d : Z) : datetime := mk_datetime 2025 3 d 0 0 0 0.

(** The itinerary for 2025-03-15 and 2025-03-16 under
    [demo_activities]. *)
Definition demo_itinerary : TravelItinerary.t :=
  TravelItinerary.mk "New York" (march 15) (march 16)
    [TravelDay.mk (march 15) "Arrive in New York and check into hotel"
       "Explore Times Square and surrounding area" "Broadway show: The Lion King"
       (Some "Hotel check-in after 3 PM");
     TravelDay.mk (march 16) "Free time" "Free time" "Free time" None]
    ∅ ∅.

(** The reminder [add_reminder] builds. *)
Definition new_reminder (task_id message : string) (d : datetime) : Reminder.t :=
  Reminder.mk task_id d false message.

(** The keys [format_travel_itinerary] subscripts, each with the
    dictionary it is looked up in, in the order of the lookups. *)
Definition required_info (itinerary : TravelItinerary.t)
  : list (string * gmap string string) :=
  let flight_info := TravelItinerary.flight_info itinerary in
  let hotel_info := TravelItinerary.hotel_info itinerary in
  [("departure_time", flight_info); ("arrival_time", flight_info);
   ("flight_number", flight_info); ("name", hotel_info); ("address", hotel_info);
   ("confirmation", hotel_info)].

(** The first key of the list that its dictionary lacks. *)
Fixpoint first_missing (l : list (string * gmap string string)) : option string :=
  match l with
  | [] => None
  | (key, d) :: l' =>
      match d !! key with
      | Some _ => first_missing l'
      | None => Some key
      end
  end.

(** A day whose notes are a text that is not empty. *)
Definition has_notes (day : TravelDay.t) : bool :=
  match TravelDay.notes day with
  | Some (String _ _) => true
  | _ => false
  end.

(** What the scan of a format string meets, in order: a character of
    literal text, a field, an error, or a field outside the model. *)
Inductive format_token : Type :=
| TChar (c : string)
| TField (name : string)
| TRaise (e : exn)
| TUnmodelled.

(** The tokens of a format string; the scan stops at the first error. *)
Fixpoint format_tokens (st : format_state) (s : string) : list format_token :=
  match s with
  | EmptyString =>
      match st with
      | InText => []
      | _ => [TRaise ValueError]
      end
  | String c rest =>
      match st with
      | InText =>
          if is_char "{" c then format_tokens AfterOpen rest
          else if is_char "}" c then format_tokens AfterClose rest
          else TChar (String c "") :: format_tokens InText rest
      | AfterOpen =>
          if is_char "{" c then TChar "{" :: format_tokens InText rest
          else if is_char "}" c then [TRaise IndexError]
          else if is_name_char c then format_tokens (InField (String c "")) rest
          else [TUnmodelled]
      | InField name =>
          if is_char "}" c then
            if all_digits name then [TRaise IndexError]
            else TField name :: format_tokens InText rest
          else if is_name_char c then format_tokens (InField (name +:+ String c "")) rest
          else [TUnmodelled]
      | AfterClose =>
          if is_char "}" c then TChar "}" :: format_tokens InText rest
          else [TRaise ValueError]
      end
  end.

(** The text the tokens give under the keyword arguments. *)
Fixpoint render_tokens (kwargs : gmap string string) (out : string)
    (tokens : list format_token) : option (res string) :=
  match tokens with
  | [] => Some (Return out)
  | TChar c :: tokens' => render_tokens kwargs (out +:+ c) tokens'
  | TField name :: tokens' =>
      match kwargs !! name with
      | Some v => render_tokens kwargs (out +:+ v) tokens'
      | None => Some (Raise (KeyError name))
      end
  | TRaise e :: _ => Some (Raise e)
  | TUnmodelled :: _ => None
  end.

(** The field names among the tokens. *)
Fixpoint token_fields (tokens : list format_token) : list string :=
  match tokens with
  | [] => []
  | TField name :: tokens' => name :: token_fields tokens'
  | _ :: tokens' => token_fields tokens'
  end.

(** Tokens that are all characters and fields. *)
Fixpoint plain_tokens (tokens : list format_token) : bool :=
  match tokens with
  | [] => true
  | (TChar _ | TField _) :: tokens' => plain_tokens tokens'
  | _ => false
  end.

(** The line [print_daily_schedule] prints for a task due today. *)
Definition task_line (task : Task.t) : string :=
  "- " +:+ strftime (Task.due_date task) "%H:%M" +:+ " - " +:+ Task.title task
  +:+ " (" +:+ TaskPriority_value (Task.priority task) +:+ ")".

(** A task due on 15 February 2025 at 14:00, with a reminder at 10:00. *)
Definition review_agent : PersonalAIAgent :=
  snd (create_task_with_reminders "Quarterly Review" "Prepare the review"
         "2025-02-15 14:00" "high" (Some ["2025-02-15 10:00"]) (init "John Doe")).

(** The reminders and the task of the first call of [main]. *)
Definition demo_reminder (d : datetime) : Reminder.t :=
  Reminder.mk "task_1" d false
    "Reminder: Quarterly Review Presentation is due 2025-02-15 14:00".

Definition demo_task : Task.t :=
  Task.mk "task_1" "Quarterly Review Presentation"
    "Prepare and deliver Q1 review presentation" (mk_datetime 2025 2 15 14 0 0 0)
    HIGH TODO
    [demo_reminder (mk_datetime 2025 2 14 10 0 0 0);
     demo_reminder (mk_datetime 2025 2 15 9 0 0 0)].

(** The agent after that call. *)
Definition demo_agent : PersonalAIAgent :=
  mk_agent "John Doe" [demo_task] (Task.reminders demo_task) [].

(** The hotel and flight information of [main]. *)
Definition demo_hotel_info : gmap string string :=
  {[ "name" := "Grand Hyatt New York";
     "address" := "109 E 42nd St, New York, NY 10017";
     "confirmation" := "HY123456";
     "check_in" := "2025-03-15";
     "check_out" := "2025-03-19" ]}.

Definition demo_flight_info : gmap string string :=
  {[ "airline" := "Delta Airlines";
     "flight_number" := "DL123";
     "departure_time" := "2025-03-15 08:00";
     "arrival_time" := "2025-03-15 11:00";
     "confirmation" := "DL789012" ]}.

(** * Properties *)

(** ** The calendar *)

Lemma days_before_month_succ (y m : Z) :
  1 <= m -> days_before_month y (m + 1) = days_before_month y m + days_in_month y m.
Proof.
  intros Hm. unfold days_before_month.
  replace (Z.to_nat (m + 1 - 1)) with (S (Z.to_nat (m - 1))) by lia.
  cbn [days_before_month_from]. f_equal. f_equal. lia.
Qed.

Lemma days_in_month_bounds (y m : Z) : 28 <= days_in_month y m <= 31.
Proof.
  unfold days_in_month.
  destruct (m =? 2); [destruct (is_leap y); lia|].
  destruct ((m =? 4) || (m =? 6) || (m =? 9) || (m =? 11)); lia.
Qed.

Lemma days_before_month_first (y : Z) : days_before_month y 1 = 0.
Proof. reflexivity. Qed.

Lemma days_before_month_mono (y m m' : Z) :
  1 <= m <= m' -> days_before_month y m <= days_before_month y m'.
Proof.
  intros [Hm Hle]. pattern m'. apply (Zlt_lower_bound_ind _ m); [|exact Hle].
  intros k IH Hk.
  destruct (Z.eq_dec k m) as [-> | Hne]; [lia|].
  replace k with (k - 1 + 1) by lia.
  rewrite days_before_month_succ by lia.
  pose proof (days_in_month_bounds y (k - 1)).
  specialize (IH (k - 1)). lia.
Qed.

Lemma days_before_month_end (y : Z) : days_before_month y 13 = year_length y.
Proof.
  unfold days_before_month, year_length.
  change (Z.to_nat (13 - 1)) with 12%nat.
  cbn [days_before_month_from].
  unfold days_in_month.
  change (Z.of_nat 1) with 1. change (Z.of_nat 2) with 2. change (Z.of_nat 3) with 3.
  change (Z.of_nat 4) with 4. change (Z.of_nat 5) with 5. change (Z.of_nat 6) with 6.
  change (Z.of_nat 7) with 7. change (Z.of_nat 8) with 8. change (Z.of_nat 9) with 9.
  change (Z.of_nat 10) with 10. change (Z.of_nat 11) with 11. change (Z.of_nat 12) with 12.
  cbn [Z.eqb Pos.eqb orb].
  destruct (is_leap y); reflexivity.
Qed.

Lemma is_leap_spec (y : Z) :
  is_leap y = true <-> y mod 4 = 0 /\ (y mod 100 <> 0 \/ y mod 400 = 0).
Proof.
  unfold is_leap.
  rewrite andb_true_iff, orb_true_iff, negb_true_iff, !Z.eqb_eq, Z.eqb_neq. tauto.
Qed.

Lemma days_before_year_succ (y : Z) :
  days_before_year (y + 1) = days_before_year y + year_length y.
Proof.
  unfold days_before_year, year_length. cbv zeta.
  replace (y + 1 - 1) with y by lia.
  destruct (is_leap y) eqn:Hl.
  - apply is_leap_spec in Hl. Z.div_mod_to_equations. lia.
  - assert (Hn : ~ (y mod 4 = 0 /\ (y mod 100 <> 0 \/ y mod 400 = 0))).
    { rewrite <- is_leap_spec. congruence. }
    Z.div_mod_to_equations. lia.
Qed.

Lemma year_length_bounds (y : Z) : 365 <= year_length y <= 366.
Proof. unfold year_length. destruct (is_leap y); lia. Qed.

Lemma days_before_year_mono (y y' : Z) :
  y <= y' -> days_before_year y <= days_before_year y'.
Proof.
  intros Hle. pattern y'. apply (Zlt_lower_bound_ind _ y); [|exact Hle].
  intros k IH Hk.
  destruct (Z.eq_dec k y) as [-> | Hne]; [lia|].
  replace k with (k - 1 + 1) by lia.
  rewrite days_before_year_succ.
  pose proof (year_length_bounds (k - 1)).
  specialize (IH (k - 1)). lia.
Qed.

Lemma check_date_fields_spec (y m d : Z) :
  check_date_fields y m d = true <->
  1 <= y <= 9999 /\ 1 <= m <= 12 /\ 1 <= d <= days_in_month y m.
Proof.
  unfold check_date_fields, MINYEAR, MAXYEAR.
  rewrite !andb_true_iff, !Z.leb_le. tauto.
Qed.

Lemma check_time_fields_spec (h mi s us : Z) :
  check_time_fields h mi s us = true <->
  0 <= h <= 23 /\ 0 <= mi <= 59 /\ 0 <= s <= 59 /\ 0 <= us <= 999999.
Proof.
  unfold check_time_fields.
  rewrite !andb_true_iff, !Z.leb_le. tauto.
Qed.

Lemma valid_datetime_date (d : datetime) :
  valid_datetime d = true ->
  1 <= year d <= 9999 /\ 1 <= month d <= 12 /\ 1 <= day d <= days_in_month (year d) (month d).
Proof.
  unfold valid_datetime. rewrite andb_true_iff, check_date_fields_spec. tauto.
Qed.

Lemma is_midnight_spec (d : datetime) :
  is_midnight d = true <-> hour d = 0 /\ minute d = 0 /\ second d = 0 /\ microsecond d = 0.
Proof.
  unfold is_midnight. rewrite !andb_true_iff, !Z.eqb_eq. tauto.
Qed.

(** The day of the year lies within the year. *)
Lemma day_of_year_bounds (y m d : Z) :
  1 <= m <= 12 -> 1 <= d <= days_in_month y m ->
  1 <= days_before_month y m + d <= year_length y.
Proof.
  intros Hm Hd.
  pose proof (days_before_month_mono y 1 m ltac:(lia)) as H1.
  rewrite days_before_month_first in H1.
  pose proof (days_before_month_mono y (m + 1) 13 ltac:(lia)) as H2.
  rewrite days_before_month_succ, days_before_month_end in H2 by lia.
  lia.
Qed.

Lemma toordinal_bounds (d : datetime) :
  valid_datetime d = true ->
  days_before_year (year d) < toordinal d <= days_before_year (year d + 1).
Proof.
  intros Hv. apply valid_datetime_date in Hv as (Hy & Hm & Hd).
  unfold toordinal. rewrite days_before_year_succ.
  pose proof (day_of_year_bounds _ _ _ Hm Hd). lia.
Qed.

Lemma toordinal_range (d : datetime) :
  valid_datetime d = true -> 1 <= toordinal d <= MAXORDINAL.
Proof.
  intros Hv. pose proof (toordinal_bounds d Hv) as Hb.
  apply valid_datetime_date in Hv as (Hy & _).
  pose proof (days_before_year_mono 1 (year d) ltac:(lia)) as H1.
  pose proof (days_before_year_mono (year d + 1) 10000 ltac:(lia)) as H2.
  change (days_before_year 1) with 0 in H1.
  change (days_before_year 10000) with MAXORDINAL in H2.
  lia.
Qed.

(** Dates are ordered as their ordinals are. *)
Lemma toordinal_lt (a b : datetime) :
  valid_datetime a = true -> valid_datetime b = true ->
  lex_compare [year a; month a; day a] [year b; month b; day b] = Lt ->
  toordinal a < toordinal b.
Proof.
  intros Ha Hb. cbn [lex_compare].
  pose proof (toordinal_bounds a Ha) as Hba.
  pose proof (toordinal_bounds b Hb) as Hbb.
  apply valid_datetime_date in Ha as (Hya & Hma & Hda).
  apply valid_datetime_date in Hb as (Hyb & Hmb & Hdb).
  destruct (Z.compare_spec (year a) (year b)) as [Hy | Hy | Hy]; [| intros _ | discriminate].
  - destruct (Z.compare_spec (month a) (month b)) as [Hm | Hm | Hm]; [| intros _ | discriminate].
    + destruct (Z.compare_spec (day a) (day b)) as [Hd | Hd | Hd]; try discriminate.
      intros _. unfold toordinal. rewrite Hy, Hm. lia.
    + unfold toordinal. rewrite Hy in *.
      pose proof (days_before_month_mono (year b) (month a + 1) (month b) ltac:(lia)) as Hmono.
      rewrite days_before_month_succ in Hmono by lia. lia.
  - pose proof (days_before_year_mono (year a + 1) (year b) ltac:(lia)). lia.
Qed.

Lemma lex_compare_antisym (a b : list Z) :
  lex_compare b a = CompOpp (lex_compare a b).
Proof.
  revert b. induction a as [|x a IH]; intros [|y b]; cbn [lex_compare]; try reflexivity.
  rewrite (Z.compare_antisym x y).
  destruct (x ?= y); cbn [CompOpp]; auto.
Qed.

Lemma lex_compare_eq (a b : list Z) :
  length a = length b -> lex_compare a b = Eq -> a = b.
Proof.
  revert b. induction a as [|x a IH]; intros [|y b] Hlen; cbn [lex_compare]; try discriminate; auto.
  destruct (Z.compare_spec x y) as [-> | |]; try discriminate.
  intros H. f_equal. apply IH; [cbn in Hlen; lia | exact H].
Qed.

Lemma datetime_compare_midnight (a b : datetime) :
  is_midnight a = true -> is_midnight b = true ->
  datetime_compare a b = lex_compare [year a; month a; day a] [year b; month b; day b].
Proof.
  rewrite !is_midnight_spec. intros (Ha1 & Ha2 & Ha3 & Ha4) (Hb1 & Hb2 & Hb3 & Hb4).
  unfold datetime_compare, datetime_key. cbn [lex_compare].
  rewrite Ha1, Ha2, Ha3, Ha4, Hb1, Hb2, Hb3, Hb4.
  destruct (year a ?= year b), (month a ?= month b), (day a ?= day b); reflexivity.
Qed.

Lemma datetime_compare_toordinal (a b : datetime) :
  valid_datetime a = true -> valid_datetime b = true ->
  is_midnight a = true -> is_midnight b = true ->
  datetime_compare a b = (toordinal a ?= toordinal b).
Proof.
  intros Ha Hb Hma Hmb.
  rewrite (datetime_compare_midnight a b Hma Hmb).
  destruct (lex_compare [year a; month a; day a] [year b; month b; day b]) eqn:Hc.
  - apply lex_compare_eq in Hc; [|reflexivity].
    injection Hc as Hy Hm Hd. unfold toordinal. rewrite Hy, Hm, Hd.
    symmetry. apply Z.compare_refl.
  - symmetry. apply Z.compare_lt_iff. now apply toordinal_lt.
  - symmetry. apply Z.compare_gt_iff. apply toordinal_lt; auto.
    rewrite lex_compare_antisym, Hc. reflexivity.
Qed.

(** Two midnights with the same ordinal are the same object. *)
Lemma toordinal_inj (a b : datetime) :
  valid_datetime a = true -> valid_datetime b = true ->
  is_midnight a = true -> is_midnight b = true ->
  toordinal a = toordinal b -> a = b.
Proof.
  intros Ha Hb Hma Hmb Ho.
  pose proof (datetime_compare_toordinal a b Ha Hb Hma Hmb) as Hc.
  rewrite Ho, Z.compare_refl in Hc.
  unfold datetime_compare, datetime_key in Hc.
  apply lex_compare_eq in Hc; [|reflexivity].
  destruct a, b. cbn in Hc. congruence.
Qed.

Lemma datetime_le_toordinal (a b : datetime) :
  valid_datetime a = true -> valid_datetime b = true ->
  is_midnight a = true -> is_midnight b = true ->
  datetime_le a b = true <-> toordinal a <= toordinal b.
Proof.
  intros Ha Hb Hma Hmb. unfold datetime_le.
  rewrite (datetime_compare_toordinal a b Ha Hb Hma Hmb).
  destruct (Z.compare_spec (toordinal a) (toordinal b)); split; intros; try lia; try reflexivity; discriminate.
Qed.

(** One day later: the ordinal grows by one and the time of day stays. *)
Lemma add_one_day_spec (d : datetime) :
  valid_datetime d = true ->
  (toordinal d < MAXORDINAL ->
   exists d', add_one_day d = Return d'
     /\ valid_datetime d' = true
     /\ toordinal d' = toordinal d + 1
     /\ is_midnight d' = is_midnight d)
  /\ (toordinal d = MAXORDINAL -> add_one_day d = Raise OverflowError).
Proof.
  intros Hv.
  pose proof (toordinal_bounds d Hv) as Hb.
  pose proof Hv as Hv'. unfold valid_datetime in Hv'.
  apply andb_true_iff in Hv' as [_ Ht].
  apply valid_datetime_date in Hv as (Hy & Hm & Hd).
  unfold add_one_day, MINYEAR, MAXYEAR.
  destruct (Z.eqb_spec (day d + 1) (days_in_month (year d) (month d) + 1)) as [Hlast | Hmid].
  - destruct (Z.ltb_spec 12 (month d + 1)) as [Hdec | Hnodec].
    + (* December 31st *)
      assert (Hmonth : month d = 12) by lia.
      assert (Hord : toordinal d = days_before_year (year d + 1)).
      { unfold toordinal. rewrite days_before_year_succ, <- days_before_month_end.
        replace 13 with (month d + 1) by lia.
        rewrite days_before_month_succ by lia. lia. }
      split.
      * intros Hlt.
        assert (Hy' : year d < 9999).
        { destruct (Z.eq_dec (year d) 9999) as [E|]; [|lia].
          rewrite E in Hord. change (days_before_year (9999 + 1)) with MAXORDINAL in Hord. lia. }
        destruct (Z.leb_spec 1 (year d + 1)); [|lia].
        destruct (Z.leb_spec (year d + 1) 9999); [|lia].
        cbn [andb]. eexists. split; [reflexivity|].
        split; [|split].
        -- unfold valid_datetime. cbn [year month day hour minute second microsecond].
           rewrite Ht, andb_true_r. apply check_date_fields_spec.
           pose proof (days_in_month_bounds (year d + 1) 1). lia.
        -- unfold toordinal at 1. cbn [year month day].
           rewrite days_before_month_first. lia.
        -- reflexivity.
      * intros Hmax.
        assert (Hy' : year d = 9999).
        { destruct (Z.eq_dec (year d) 9999) as [E|]; [exact E|].
          pose proof (days_before_year_mono (year d + 1) 9999 ltac:(lia)) as Hmono.
          change (days_before_year 9999) with 3651694 in Hmono.
          unfold MAXORDINAL in Hmax. lia. }
        rewrite Hy'. reflexivity.
    + assert (Hord : toordinal d + 1 = days_before_year (year d)
                       + days_before_month (year d) (month d + 1) + 1).
      { unfold toordinal. rewrite days_before_month_succ by lia. lia. }
      assert (Hlt : toordinal d < MAXORDINAL).
      { pose proof (day_of_year_bounds (year d) (month d + 1) 1 ltac:(lia)
                      ltac:(pose proof (days_in_month_bounds (year d) (month d + 1)); lia)) as Hdy.
        pose proof (days_before_year_mono (year d + 1) 10000 ltac:(lia)) as Hmono.
        change (days_before_year 10000) with MAXORDINAL in Hmono.
        rewrite days_before_year_succ in Hmono. lia. }
      split; [intros _ | lia].
      destruct (Z.leb_spec 1 (year d)); [|lia].
      destruct (Z.leb_spec (year d) 9999); [|lia].
      cbn [andb]. eexists. split; [reflexivity|].
      split; [|split].
      * unfold valid_datetime. cbn [year month day hour minute second microsecond].
        rewrite Ht, andb_true_r. apply check_date_fields_spec.
        pose proof (days_in_month_bounds (year d) (month d + 1)). lia.
      * unfold toordinal at 1. cbn [year month day]. lia.
      * reflexivity.
  - assert (Hlt : toordinal d < MAXORDINAL).
    { pose proof (day_of_year_bounds (year d) (month d) (day d + 1) ltac:(lia) ltac:(lia)) as Hdy.
      pose proof (days_before_year_mono (year d + 1) 10000 ltac:(lia)) as Hmono.
      change (days_before_year 10000) with MAXORDINAL in Hmono.
      rewrite days_before_year_succ in Hmono. unfold toordinal. lia. }
    split; [intros _ | lia].
    destruct (Z.leb_spec 1 (year d)); [|lia].
    destruct (Z.leb_spec (year d) 9999); [|lia].
    cbn [andb]. eexists. split; [reflexivity|].
    split; [|split].
    + unfold valid_datetime. cbn [year month day hour minute second microsecond].
      rewrite Ht, andb_true_r. apply check_date_fields_spec. lia.
    + unfold toordinal. cbn [year month day]. lia.
    + reflexivity.
Qed.

(** ** Parsing and printing dates *)

Lemma compile_date_format : compile_format false "%Y-%m-%d" = Some date_items.
Proof. reflexivity. Qed.

(** A match captures one value per directive of the format, in order. *)
Lemma match_items_groups (its : list fmt_item) :
  forall s g r, In (g, r) (match_items its s) ->
    map fst g = flat_map item_directives its.
Proof.
  induction its as [|it its IH]; intros s g r Hin; cbn [match_items flat_map] in *.
  - destruct Hin as [[= <- <-] | []]. reflexivity.
  - apply in_flat_map in Hin as ([v r1] & Hit & Hin).
    apply in_map_iff in Hin as ([vs r2] & [= <- <-] & Hin).
    rewrite map_app, (IH _ _ _ Hin). f_equal.
    destruct it as [d | c | ]; cbn [match_item item_directives] in *.
    + apply in_map_iff in Hit as ([m r3] & [= <- <-] & _). reflexivity.
    + destruct s as [|a s]; [destruct Hit|].
      destruct (is_char _ _); [|destruct Hit].
      destruct Hit as [[= <- <-] | []]. reflexivity.
    + apply in_map_iff in Hit as (r3 & [= <- <-] & _). reflexivity.
Qed.

Lemma new_datetime_valid (y m d h mi s us : Z) (dt : datetime) :
  new_datetime y m d h mi s us = Return dt ->
  dt = mk_datetime y m d h mi s us /\ valid_datetime dt = true.
Proof.
  unfold new_datetime.
  destruct (check_date_fields y m d && check_time_fields h mi s us) eqn:Hc; [|discriminate].
  intros [= <-]. split; [reflexivity | exact Hc].
Qed.

(** Whatever [strptime] returns is an object the constructor accepted. *)
Lemma strptime_valid (data_string format : string) (d : datetime) :
  strptime data_string format = Return d -> valid_datetime d = true.
Proof.
  unfold strptime.
  destruct (compile_format false format) as [its|]; [|discriminate].
  destruct (match_items its data_string) as [|[g r] l]; [discriminate|].
  destruct r; [|discriminate].
  intros H. now apply new_datetime_valid in H.
Qed.

(** The date-only format leaves the time of day at midnight. *)
Lemma strptime_date_midnight (data_string : string) (d : datetime) :
  strptime data_string "%Y-%m-%d" = Return d -> is_midnight d = true.
Proof.
  unfold strptime. rewrite compile_date_format.
  destruct (match_items date_items data_string) as [|[g r] l] eqn:Hm; [discriminate|].
  destruct r; [|discriminate].
  assert (Hg : map fst g = [dir_Y; dir_m; dir_d]).
  { apply (match_items_groups date_items data_string g ""). rewrite Hm. left. reflexivity. }
  destruct g as [|[d1 v1] [|[d2 v2] [|[d3 v3] [|]]]]; try discriminate.
  cbn in Hg. injection Hg as -> -> ->. cbn [group directive_eqb].
  intros H. apply new_datetime_valid in H as [-> _]. reflexivity.
Qed.

Lemma append_cons (a : ascii) (s r : string) : String a s +:+ r = String a (s +:+ r).
Proof. reflexivity. Qed.

Lemma append_nil (r : string) : "" +:+ r = r.
Proof. reflexivity. Qed.

Lemma digit_of_spec (k : Z) :
  0 <= k <= 9 -> is_digit (digit_of k) = true /\ digit_val (digit_of k) = k.
Proof.
  intros Hk.
  assert (Hc : In k [0; 1; 2; 3; 4; 5; 6; 7; 8; 9]) by (cbn [In]; lia).
  cbn [In] in Hc.
  repeat (destruct Hc as [<- | Hc]; [split; reflexivity|]).
  contradiction.
Qed.

Lemma strftime_date (d : datetime) :
  strftime d "%Y-%m-%d" =
  year_text (year d) +:+ String "-" (pad2 (month d) +:+ String "-" (pad2 (day d))).
Proof. reflexivity. Qed.

Lemma all_from_spec (P : Z -> bool) (n : nat) (y k : Z) :
  all_from P n y = true -> y <= k < y + Z.of_nat n -> P k = true.
Proof.
  revert y. induction n as [|n IH]; intros y H Hk; [lia|].
  cbn [all_from] in H. apply andb_prop in H as [Hy Hrest].
  destruct (Z.eq_dec k y) as [-> | Hne]; [exact Hy|].
  apply (IH (y + 1)); [exact Hrest | lia].
Qed.

Lemma year_text_digits (y : Z) :
  1 <= y <= 9999 -> year_text y = year_digits y.
Proof.
  intros Hy.
  assert (H : all_from (fun k => String.eqb (year_text k) (year_digits k))
                (Z.to_nat 9999) 1 = true) by (vm_compute; reflexivity).
  apply String.eqb_eq.
  apply (all_from_spec _ _ _ y H). lia.
Qed.

Lemma year_text_pad4 (y : Z) :
  1000 <= y <= 9999 -> year_text y = pad4 y.
Proof.
  intros Hy. rewrite year_text_digits by lia. unfold year_digits.
  destruct (Z.ltb_spec y 10); [lia|].
  destruct (Z.ltb_spec y 100); [lia|].
  destruct (Z.ltb_spec y 1000); [lia|]. reflexivity.
Qed.


(** The year group reads four digits back. *)
Lemma match_year (y : Z) (rest : string) :
  0 <= y <= 9999 ->
  match_item (Directive dir_Y) (pad4 y +:+ rest) = [([(dir_Y, y)], rest)].
Proof.
  intros Hy.
  destruct (digit_of_spec (y / 1000 mod 10)) as [Ha Ha'];
    [Z.div_mod_to_equations; lia|].
  destruct (digit_of_spec (y / 100 mod 10)) as [Hb Hb'];
    [Z.div_mod_to_equations; lia|].
  destruct (digit_of_spec (y / 10 mod 10)) as [Hc Hc'];
    [Z.div_mod_to_equations; lia|].
  destruct (digit_of_spec (y mod 10)) as [He He'];
    [Z.div_mod_to_equations; lia|].
  unfold pad4, pad2.
  unfold match_item, re.alt, directive_regex.
  rewrite !append_cons, append_nil.
  cbn [omap list_omap re.seq].
  rewrite Ha, Hb, Hc, He. cbn [map].
  unfold int_of_text. cbn [int_of_text_from].
  rewrite Ha, Hb, Hc, He, Ha', Hb', Hc', He'.
  assert (Hval : (((0 * 10 + y / 1000 mod 10) * 10 + y / 100 mod 10) * 10
                   + y / 10 mod 10) * 10 + y mod 10 = y).
  { replace (y / 1000) with (y / 10 / 10 / 10) by (rewrite !Z.div_div by lia; reflexivity).
    replace (y / 100) with (y / 10 / 10) by (rewrite !Z.div_div by lia; reflexivity).
    Z.div_mod_to_equations. lia. }
  rewrite Hval. reflexivity.
Qed.

(** The month and day groups read two digits back, first among the
    matches the engine tries. *)
Lemma match_month_day (m d : Z) :
  1 <= m <= 12 -> 1 <= d <= 31 ->
  exists others,
    match_items [Literal "-"; Directive dir_m; Literal "-"; Directive dir_d]
      (String "-" (pad2 m +:+ String "-" (pad2 d)))
    = ([(dir_m, m); (dir_d, d)], "") :: others.
Proof.
  intros Hm Hd.
  assert (Hcm : In m [1; 2; 3; 4; 5; 6; 7; 8; 9; 10; 11; 12]) by (cbn [In]; lia).
  assert (Hcd : In d [1; 2; 3; 4; 5; 6; 7; 8; 9; 10; 11; 12; 13; 14; 15; 16; 17;
                      18; 19; 20; 21; 22; 23; 24; 25; 26; 27; 28; 29; 30; 31])
    by (cbn [In]; lia).
  cbn [In] in Hcm, Hcd.
  repeat (destruct Hcm as [<- | Hcm]);
    try contradiction;
    repeat (destruct Hcd as [<- | Hcd]);
    try contradiction;
    vm_compute; eexists; reflexivity.
Qed.

(** C9, as amended: a date of the year 1000 or later, printed with the
    format "%Y-%m-%d" and parsed back with the same format, is the same
    calendar date, at midnight. *)
Theorem strptime_strftime_date (d : datetime) :
  valid_datetime d = true ->
  1000 <= year d ->
  strptime (strftime d "%Y-%m-%d") "%Y-%m-%d"
  = Return (mk_datetime (year d) (month d) (day d) 0 0 0 0).
Proof.
  intros Hv Hk. pose proof (valid_datetime_date d Hv) as (Hy & Hm & Hd).
  pose proof (days_in_month_bounds (year d) (month d)) as Hdim.
  unfold strptime. rewrite compile_date_format, strftime_date.
  rewrite year_text_pad4 by lia.
  unfold date_items. cbn [match_items].
  rewrite match_year by lia. cbn [flat_map].
  destruct (match_month_day (month d) (day d)) as [others Hmd]; [lia | lia |].
  cbn [match_items] in Hmd. rewrite Hmd. cbn [map app group directive_eqb].
  unfold new_datetime.
  assert (Hc : check_date_fields (year d) (month d) (day d) = true)
    by (apply check_date_fields_spec; lia).
  rewrite Hc. reflexivity.
Qed.

(** C9, as stated, fails before the year 1000: 15 March 999 is printed
    as "999-03-15", with a three-digit year, and [strptime] asks for
    four. *)
Lemma strptime_strftime_date_year_999 :
  let d := mk_datetime 999 3 15 0 0 0 0 in
  valid_datetime d = true
  /\ strftime d "%Y-%m-%d" = "999-03-15"
  /\ strptime (strftime d "%Y-%m-%d") "%Y-%m-%d" = Raise ValueError.
Proof. repeat split; vm_compute; reflexivity. Qed.

(** ** Text *)

Lemma code_range (c : ascii) : 0 <= code c < 256.
Proof.
  unfold code. pose proof (N_ascii_bounded c). lia.
Qed.

Lemma code_inj (c d : ascii) : code c = code d -> c = d.
Proof.
  unfold code. intros H.
  rewrite <- (ascii_N_embedding c), <- (ascii_N_embedding d).
  f_equal. lia.
Qed.

Lemma code_upper_char (c : ascii) :
  code (upper_char c) = if in_range "a"%char "z"%char c then code c - 32 else code c.
Proof.
  unfold upper_char. destruct (in_range "a"%char "z"%char c) eqn:Hr; [|reflexivity].
  unfold in_range in Hr. apply andb_true_iff in Hr as [H1 H2].
  apply Z.leb_le in H1, H2. change (code "a"%char) with 97 in H1. change (code "z"%char) with 122 in H2.
  unfold code in *. rewrite N_ascii_embedding by lia. lia.
Qed.

Lemma same_letter_upper (c d : ascii) :
  same_letter c d = true <-> upper_char c = upper_char d.
Proof.
  split.
  - intros H. apply code_inj. rewrite !code_upper_char.
    unfold same_letter, in_range in *. cbv zeta in *.
    change (code "a"%char) with 97 in *. change (code "z"%char) with 122 in *.
    change (code "A"%char) with 65 in *. change (code "Z"%char) with 90 in *.
    repeat match goal with
           | |- context [?a <=? ?b] => destruct (Z.leb_spec a b)
           | H : context [?a <=? ?b] |- _ => destruct (Z.leb_spec a b)
           | H : context [?a =? ?b] |- _ => destruct (Z.eqb_spec a b)
           end; cbn in *; try discriminate; lia.
  - intros H. apply (f_equal code) in H. rewrite !code_upper_char in H.
    unfold same_letter, in_range in *. cbv zeta in *.
    change (code "a"%char) with 97 in *. change (code "z"%char) with 122 in *.
    change (code "A"%char) with 65 in *. change (code "Z"%char) with 90 in *.
    repeat match goal with
           | |- context [?a <=? ?b] => destruct (Z.leb_spec a b)
           | H : context [?a <=? ?b] |- _ => destruct (Z.leb_spec a b)
           | |- context [?a =? ?b] => destruct (Z.eqb_spec a b)
           end; cbn in *; try reflexivity; lia.
Qed.

Lemma eq_ignore_case_upper (a b : string) :
  eq_ignore_case a b = true <-> upper a = upper b.
Proof.
  revert b. induction a as [|c a IH]; intros [|d b]; cbn [eq_ignore_case upper].
  - tauto.
  - split; discriminate.
  - split; discriminate.
  - rewrite andb_true_iff, same_letter_upper, IH.
    split; [intros [-> ->]; reflexivity | intros [= -> ->]; auto].
Qed.

Lemma str_of_nat_inj (n m : nat) : str_of_nat n = str_of_nat m -> n = m.
Proof.
  unfold str_of_nat. intros H.
  assert (Hnn : forall k, Nat.to_uint k <> Decimal.Nil).
  { intros k. rewrite <- (Unsigned.of_to k) at 1. rewrite Unsigned.to_of.
    apply unorm_nonnil. }
  apply (f_equal NilZero.uint_of_string) in H.
  rewrite !NilZero.usu in H by apply Hnn.
  injection H as H. now apply Unsigned.to_uint_inj.
Qed.

Lemma task_id_inj (n m : nat) :
  "task_" +:+ str_of_nat n = "task_" +:+ str_of_nat m -> n = m.
Proof. intros [= H]. now apply str_of_nat_inj. Qed.

(** ** The task and reminder store *)

Lemma with_reminders_nil (s : PersonalAIAgent) : with_reminders s [] = s.
Proof. destruct s. unfold with_reminders. cbn. now rewrite app_nil_r. Qed.

Lemma with_reminders_app (s : PersonalAIAgent) (a b : list Reminder.t) :
  with_reminders (with_reminders s a) b = with_reminders s (a ++ b).
Proof. unfold with_reminders. cbn. now rewrite app_assoc. Qed.

Lemma strptime_outcome (data_string format : string) :
  (exists d, strptime data_string format = Return d)
  \/ strptime data_string format = Raise ValueError.
Proof.
  unfold strptime, new_datetime.
  destruct (compile_format false format); [|auto].
  destruct (match_items _ _) as [|[g [|]] ?]; auto.
  destruct (_ && _); eauto.
Qed.

Lemma add_reminder_parsed (task_id reminder_time message : string) (d : datetime)
    (s : PersonalAIAgent) :
  strptime reminder_time "%Y-%m-%d %H:%M" = Return d ->
  add_reminder task_id reminder_time message s
  = (Return (Reminder.mk task_id d false message),
     with_reminders s [Reminder.mk task_id d false message]).
Proof. intros H. unfold add_reminder, bind, lift. rewrite H. reflexivity. Qed.

(** [add_reminder] parses before it appends: a call that fails leaves
    the agent as it was. *)
Lemma add_reminder_failed (task_id reminder_time message : string) (s : PersonalAIAgent) :
  strptime reminder_time "%Y-%m-%d %H:%M" = Raise ValueError ->
  add_reminder task_id reminder_time message s = (Raise ValueError, s).
Proof. intros H. unfold add_reminder, bind, lift. rewrite H. reflexivity. Qed.

Lemma add_reminders_cons (task_id message t : string) (times : list string)
    (acc : list Reminder.t) (s : PersonalAIAgent) :
  add_reminders task_id message (t :: times) acc s
  = match add_reminder task_id t message s with
    | (Return r, s') => add_reminders task_id message times (acc ++ [r]) s'
    | (Raise e, s') => (Raise e, s')
    | (OutOfFuel, s') => (OutOfFuel, s')
    end.
Proof. reflexivity. Qed.

(** The loop over the reminder times appends one reminder per time it
    parses, and stops at the first one it cannot parse. *)
Lemma add_reminders_outcome (task_id message : string) (reminder_times : list string) :
  forall acc s,
    exists rs,
      snd (add_reminders task_id message reminder_times acc s) = with_reminders s rs
      /\ match fst (add_reminders task_id message reminder_times acc s) with
         | Return l =>
             l = acc ++ rs
             /\ Forall2 (fun t r => strptime t "%Y-%m-%d %H:%M" = Return (Reminder.reminder_time r))
                  reminder_times rs
         | Raise e =>
             e = ValueError
             /\ Exists (fun t => strptime t "%Y-%m-%d %H:%M" = Raise ValueError) reminder_times
         | OutOfFuel => False
         end.
Proof.
  induction reminder_times as [|t times IH]; intros acc s.
  - exists []. cbn. rewrite with_reminders_nil, app_nil_r. repeat constructor.
  - rewrite add_reminders_cons.
    destruct (strptime_outcome t "%Y-%m-%d %H:%M") as [[d Hd] | Hd].
    + rewrite (add_reminder_parsed _ _ _ d s Hd).
      set (r := Reminder.mk task_id d false message).
      destruct (IH (acc ++ [r]) (with_reminders s [r])) as (rs & Hs & Hr).
      exists (r :: rs). rewrite Hs, with_reminders_app. split; [reflexivity|].
      destruct (fst (add_reminders _ _ _ _ _)) as [l | e |]; [| | exact Hr].
      * destruct Hr as [-> Hall]. rewrite <- app_assoc. split; [reflexivity|].
        constructor; [exact Hd | exact Hall].
      * destruct Hr as [-> Hex]. split; [reflexivity|]. now apply Exists_cons_tl.
    + rewrite (add_reminder_failed _ _ _ s Hd). exists []. cbn.
      rewrite with_reminders_nil. split; [reflexivity|]. split; [reflexivity|].
      now apply Exists_cons_hd.
Qed.

Lemma TaskPriority_getitem_name (p : TaskPriority) :
  TaskPriority_getitem (TaskPriority_name p) = Return p.
Proof. destruct p; reflexivity. Qed.

Lemma TaskPriority_getitem_outcome (name : string) :
  (exists p, TaskPriority_name p = name /\ TaskPriority_getitem name = Return p)
  \/ ((forall p, TaskPriority_name p <> name)
      /\ TaskPriority_getitem name = Raise (KeyError name)).
Proof.
  destruct (decide (name = "HIGH")) as [-> | H1]; [left; exists HIGH; split; reflexivity|].
  destruct (decide (name = "MEDIUM")) as [-> | H2]; [left; exists MEDIUM; split; reflexivity|].
  destruct (decide (name = "LOW")) as [-> | H3]; [left; exists LOW; split; reflexivity|].
  right. split; [intros [] H; cbn in H; congruence|].
  unfold TaskPriority_getitem, TaskPriority_members.
  rewrite !filter_cons, filter_nil.
  repeat (destruct (decide _) as [E | _]; [cbn in E; congruence|]).
  reflexivity.
Qed.

Lemma upper_TaskPriority_name (p : TaskPriority) :
  upper (TaskPriority_name p) = TaskPriority_name p.
Proof. destruct p; reflexivity. Qed.

Section CreateTask.

Variables (title description due_date priority : string).
Variable reminder_times : option (list string).
Variable s : PersonalAIAgent.

Let outcome := create_task_with_reminders title description due_date priority
              reminder_times s.

Let times : list string := default [] reminder_times.

Let task_id : string := "task_" +:+ str_of_nat (length (tasks s) + 1).

(** The shape of every outcome of [create_task_with_reminders]: which
    exception is raised when, and what has been appended by then. *)
Lemma create_task_outcome :
  match strptime due_date "%Y-%m-%d %H:%M" with
  | Return due_date_obj =>
      exists rs,
        match fst (add_reminders task_id (reminder_message title due_date) times [] s) with
        | Return reminders =>
            match TaskPriority_getitem (upper priority) with
            | Return p =>
                let task :=
                  Task.mk task_id title description due_date_obj p TODO reminders in
                outcome = (Return task, with_task (with_reminders s rs) task)
            | _ => outcome = (Raise (KeyError (upper priority)), with_reminders s rs)
            end
            /\ reminders = rs
        | _ => outcome = (Raise ValueError, with_reminders s rs)
        end
        /\ snd (add_reminders task_id (reminder_message title due_date) times [] s)
           = with_reminders s rs
  | _ => outcome = (Raise ValueError, s)
  end.
Proof.
  unfold outcome, create_task_with_reminders, bind, get, lift.
  destruct (strptime_outcome due_date "%Y-%m-%d %H:%M") as [[d Hd] | Hd]; rewrite Hd;
    [|reflexivity].
  fold task_id. fold (reminder_message title due_date).
  assert (Hloop :
    (match reminder_times with
     | Some ((_ :: _) as l) =>
         add_reminders task_id (reminder_message title due_date) l []
     | _ => ret []
     end) s
    = add_reminders task_id (reminder_message title due_date) times [] s).
  { unfold times. destruct reminder_times as [[|]|]; reflexivity. }
  rewrite Hloop.
  destruct (add_reminders_outcome task_id (reminder_message title due_date) times [] s)
    as (rs & Hs & Hr).
  exists rs. split; [|exact Hs].
  destruct (add_reminders _ _ _ _ _) as [r s'] eqn:Hrun. cbn [fst snd] in *. subst s'.
  destruct r as [l | e |]; [| destruct Hr as [-> _]; reflexivity | destruct Hr].
  destruct Hr as [-> _]. cbn [app]. split; [|reflexivity].
  destruct (TaskPriority_getitem_outcome (upper priority)) as [(p & _ & ->) | [_ ->]];
    reflexivity.
Qed.

End CreateTask.

(** ** The itinerary builder *)

Section Itinerary.

Variable activities : gmap string (gmap string string).

Lemma travel_day_default (current_date : datetime) :
  activities !! strftime current_date "%Y-%m-%d" = None ->
  travel_day activities current_date = Return (free_day current_date).
Proof. unfold travel_day, dict_get. intros ->. reflexivity. Qed.

Lemma travel_day_outcome (current_date : datetime) :
  (exists d, travel_day activities current_date = Return d
             /\ TravelDay.date d = current_date)
  \/ (exists slot, In slot required_slots
             /\ travel_day activities current_date = Raise (KeyError slot)).
Proof.
  unfold travel_day, getitem, required_slots.
  set (e := dict_get _ _ _).
  destruct (e !! "morning") eqn:H1; cbn [res_bind];
    [|right; exists "morning"; cbn [In]; auto].
  destruct (e !! "afternoon") eqn:H2; cbn [res_bind];
    [|right; exists "afternoon"; cbn [In]; auto].
  destruct (e !! "evening") eqn:H3; cbn [res_bind];
    [|right; exists "evening"; cbn [In]; auto].
  left. eexists. split; reflexivity.
Qed.

Lemma travel_day_complete (current_date : datetime) :
  complete_activities activities ->
  exists d, travel_day activities current_date = Return d
            /\ TravelDay.date d = current_date.
Proof.
  intros Hwf.
  destruct (activities !! strftime current_date "%Y-%m-%d") as [entry|] eqn:He.
  - pose proof (Hwf _ _ He) as Hc. unfold complete_entry, required_slots in Hc.
    rewrite !Forall_cons in Hc. destruct Hc as ([m H1] & [a H2] & [e H3] & _).
    unfold travel_day, getitem, dict_get. rewrite He.
    rewrite H1, H2, H3. cbn [res_bind]. eexists. split; reflexivity.
  - rewrite travel_day_default by exact He. eexists. split; reflexivity.
Qed.


(** Every day the loop appends is the day [travel_day] builds for its
    own date. *)
Lemma build_days_entries (end_date_obj : datetime) (fuel : nat) :
  forall current_date acc days,
    build_days fuel activities end_date_obj current_date acc = Return days ->
    exists new, days = acc ++ new
      /\ Forall (fun d => travel_day activities (TravelDay.date d) = Return d) new.
Proof.
  induction fuel as [|fuel IH]; intros cur acc days; cbn [build_days].
  - destruct (datetime_le cur end_date_obj); [discriminate|].
    intros [= <-]. exists []. rewrite app_nil_r. split; [reflexivity | constructor].
  - destruct (datetime_le cur end_date_obj).
    + destruct (travel_day_outcome cur) as [(d & Hd & Hdate) | (slot & _ & Hr)];
        rewrite ?Hd, ?Hr; cbn [res_bind]; [|discriminate].
      destruct (add_one_day cur) as [next| |]; cbn [res_bind]; try discriminate.
      intros Hrec. apply IH in Hrec as (new & -> & Hnew).
      exists (d :: new). rewrite <- app_assoc. split; [reflexivity|].
      constructor; [rewrite Hdate; exact Hd | exact Hnew].
    + intros [= <-]. exists []. rewrite app_nil_r. split; [reflexivity | constructor].
Qed.

Section Range.

Variable end_date_obj : datetime.
Hypothesis end_valid : valid_datetime end_date_obj = true.
Hypothesis end_midnight : is_midnight end_date_obj = true.

(** With the end date before the last day of year 9999 and complete
    override entries, the loop appends one day per date up to the
    end date, in order. *)
Lemma build_days_range :
  toordinal end_date_obj < MAXORDINAL ->
  complete_activities activities ->
  forall (n fuel : nat) current_date acc,
    valid_datetime current_date = true ->
    is_midnight current_date = true ->
    toordinal current_date + Z.of_nat n = toordinal end_date_obj + 1 ->
    (n <= fuel)%nat ->
    exists new,
      build_days fuel activities end_date_obj current_date acc = Return (acc ++ new)
      /\ length new = n
      /\ forall (i : nat) d, new !! i = Some d ->
           valid_datetime (TravelDay.date d) = true
           /\ is_midnight (TravelDay.date d) = true
           /\ toordinal (TravelDay.date d) = toordinal current_date + Z.of_nat i.
Proof.
  intros Hmax Hwf. induction n as [|n IH]; intros fuel cur acc Hv Hm Hord Hfuel.
  - assert (Hle : datetime_le cur end_date_obj = false).
    { apply not_true_iff_false. rewrite datetime_le_toordinal by assumption. lia. }
    exists []. destruct fuel; cbn [build_days]; rewrite Hle, app_nil_r.
    all: split; [reflexivity|]; split; [reflexivity|]; intros i d Hi; destruct i; discriminate.
  - assert (Hle : datetime_le cur end_date_obj = true).
    { rewrite datetime_le_toordinal by assumption. lia. }
    destruct fuel as [|fuel]; [lia|]. cbn [build_days]. rewrite Hle.
    destruct (travel_day_complete cur Hwf) as (d & -> & Hdate). cbn [res_bind].
    destruct (add_one_day_spec cur Hv) as [Hnext _].
    destruct Hnext as (next & -> & Hnv & Hno & Hnm); [lia|]. cbn [res_bind].
    destruct (IH fuel next (acc ++ [d])) as (new & -> & Hlen & Hnew);
      [exact Hnv | congruence | lia | lia |].
    exists (d :: new). rewrite <- app_assoc. split; [reflexivity|].
    split; [cbn [length]; lia|].
    intros [|i] d' Hi; cbn in Hi.
    + injection Hi as <-. rewrite Hdate. repeat split; [assumption | assumption | lia].
    + destruct (Hnew i d' Hi) as (? & ? & ?). repeat split; [assumption | assumption | lia].
Qed.


End Range.

End Itinerary.

Lemma sub_days_midnight (a b : datetime) :
  is_midnight a = true -> is_midnight b = true ->
  sub_days a b = toordinal a - toordinal b.
Proof.
  rewrite !is_midnight_spec. intros (Ha1 & Ha2 & Ha3 & Ha4) (Hb1 & Hb2 & Hb3 & Hb4).
  unfold sub_days, seconds_of_day.
  rewrite Ha1, Ha2, Ha3, Ha4, Hb1, Hb2, Hb3, Hb4.
  Z.div_mod_to_equations. lia.
Qed.

Lemma datetime_lt_not_le (a b : datetime) :
  datetime_lt a b = true -> datetime_le b a = false.
Proof.
  unfold datetime_lt, datetime_le, datetime_compare.
  rewrite (lex_compare_antisym (datetime_key a) (datetime_key b)).
  destruct (lex_compare (datetime_key a) (datetime_key b)); cbn; congruence.
Qed.

Lemma datetime_lt_toordinal (a b : datetime) :
  valid_datetime a = true -> valid_datetime b = true ->
  is_midnight a = true -> is_midnight b = true ->
  datetime_lt a b = true <-> toordinal a < toordinal b.
Proof.
  intros Ha Hb Hma Hmb. unfold datetime_lt.
  rewrite (datetime_compare_toordinal a b Ha Hb Hma Hmb).
  destruct (Z.compare_spec (toordinal a) (toordinal b)); split; intros; try lia; try reflexivity; discriminate.
Qed.

Section ItineraryCall.

Variable activities : gmap string (gmap string string).

(** If the loop returns, it has appended one day per date up to the
    end date. *)
Lemma build_days_returned (end_date_obj : datetime) :
  valid_datetime end_date_obj = true -> is_midnight end_date_obj = true ->
  forall (fuel : nat) current_date acc days,
    valid_datetime current_date = true ->
    is_midnight current_date = true ->
    build_days fuel activities end_date_obj current_date acc = Return days ->
    exists new, days = acc ++ new
      /\ Z.of_nat (length new) = Z.max 0 (toordinal end_date_obj + 1 - toordinal current_date)
      /\ forall (i : nat) d, new !! i = Some d ->
           travel_day activities (TravelDay.date d) = Return d
           /\ valid_datetime (TravelDay.date d) = true
           /\ is_midnight (TravelDay.date d) = true
           /\ toordinal (TravelDay.date d) = toordinal current_date + Z.of_nat i.
Proof.
  intros Hev Hem. induction fuel as [|fuel IH]; intros cur acc days Hv Hm; cbn [build_days].
  all: destruct (datetime_le cur end_date_obj) eqn:Hle.
  all: try discriminate.
  1, 3: intros [= <-]; exists []; rewrite app_nil_r; split; [reflexivity|];
    apply not_true_iff_false in Hle; rewrite datetime_le_toordinal in Hle by assumption;
    split; [cbn [length]; lia | intros i d Hi; destruct i; discriminate].
  rewrite datetime_le_toordinal in Hle by assumption.
  destruct (travel_day_outcome activities cur) as [(d & Hd & Hdate) | (slot & _ & Hr)];
    rewrite ?Hd, ?Hr; cbn [res_bind]; [|discriminate].
  pose proof (toordinal_range cur Hv) as Hr.
  destruct (add_one_day_spec cur Hv) as [Hnext Hlast].
  destruct (Z.eq_dec (toordinal cur) MAXORDINAL) as [Hmax | Hnmax];
    [rewrite (Hlast Hmax); discriminate|].
  destruct Hnext as (next & -> & Hnv & Hno & Hnm); [lia|]. cbn [res_bind].
  intros Hrec. apply IH in Hrec as (new & -> & Hlen & Hnew); [|exact Hnv | congruence].
  exists (d :: new). rewrite <- app_assoc. split; [reflexivity|].
  split; [cbn [length]; lia|].
  intros [|i] d' Hi; cbn in Hi.
  - injection Hi as <-. rewrite Hdate. repeat split; [exact Hd | assumption | assumption | lia].
  - destruct (Hnew i d' Hi) as (? & ? & ? & ?).
    repeat split; [assumption | assumption | assumption | lia].
Qed.

Variables (fuel : nat) (destination start_date end_date : string).
Variables (hotel_info flight_info : gmap string string).
Variable s : PersonalAIAgent.

Let outcome := create_travel_itinerary fuel destination start_date end_date
              activities hotel_info flight_info s.

Let stored (itinerary : TravelItinerary.t) : PersonalAIAgent :=
  mk_agent (user_name s) (tasks s) (reminders s) (travel_itineraries s ++ [itinerary]).

Lemma create_travel_itinerary_parsed (start_date_obj end_date_obj : datetime) :
  strptime start_date "%Y-%m-%d" = Return start_date_obj ->
  strptime end_date "%Y-%m-%d" = Return end_date_obj ->
  outcome =
    match build_days fuel activities end_date_obj start_date_obj [] with
    | Return days =>
        let itinerary :=
          TravelItinerary.mk destination start_date_obj end_date_obj days
            hotel_info flight_info in
        (Return itinerary, stored itinerary)
    | Raise e => (Raise e, s)
    | OutOfFuel => (OutOfFuel, s)
    end.
Proof.
  intros Hs He. unfold outcome, create_travel_itinerary, bind, lift.
  rewrite Hs, He. destruct (build_days _ _ _ _ _); reflexivity.
Qed.

Lemma create_travel_itinerary_returned (itinerary : TravelItinerary.t) (s' : PersonalAIAgent) :
  outcome = (Return itinerary, s') ->
  strptime start_date "%Y-%m-%d" = Return (TravelItinerary.start_date itinerary)
  /\ strptime end_date "%Y-%m-%d" = Return (TravelItinerary.end_date itinerary)
  /\ build_days fuel activities (TravelItinerary.end_date itinerary)
       (TravelItinerary.start_date itinerary) [] = Return (TravelItinerary.days itinerary)
  /\ s' = stored itinerary.
Proof.
  unfold outcome, create_travel_itinerary, bind, lift.
  destruct (strptime start_date _) as [sd| |]; try discriminate.
  destruct (strptime end_date _) as [ed| |]; try discriminate.
  destruct (build_days _ _ _ _ _) as [days| |] eqn:Hb; try discriminate.
  cbn. intros [= <- <-]. cbn. auto.
Qed.

(** A failed call leaves the agent as it was. *)
Lemma create_travel_itinerary_failed :
  (forall itinerary, fst outcome <> Return itinerary) -> snd outcome = s.
Proof.
  unfold outcome, create_travel_itinerary, bind, lift.
  destruct (strptime start_date _) as [sd| |]; try reflexivity.
  destruct (strptime end_date _) as [ed| |]; try reflexivity.
  destruct (build_days _ _ _ _ _) as [days| |] eqn:Hb; try reflexivity.
  cbn. intros H. now destruct (H _ eq_refl).
Qed.

End ItineraryCall.

(** From a parsed date text: the date is valid and at midnight. *)
Ltac parsed_date H Hv Hm :=
  pose proof (strptime_valid _ _ _ H) as Hv;
  pose proof (strptime_date_midnight _ _ H) as Hm.

Section ItineraryClaims.

Variable activities : gmap string (gmap string string).
Variables (destination start_date end_date : string).
Variables (hotel_info flight_info : gmap string string).
Variable s : PersonalAIAgent.

(** X14: For a start date not after an end date that lies before
    9999-12-31, and override entries that all have their three slots,
    [create_travel_itinerary] returns and stores an itinerary with
    [(E - S).days + 1] days, the i-th of which is the midnight of the
    date [i] days after the start; the days are in increasing order. *)
Lemma itinerary_days_range (fuel : nat) (start_date_obj end_date_obj : datetime) :
  strptime start_date "%Y-%m-%d" = Return start_date_obj ->
  strptime end_date "%Y-%m-%d" = Return end_date_obj ->
  datetime_le start_date_obj end_date_obj = true ->
  toordinal end_date_obj < MAXORDINAL ->
  complete_activities activities ->
  (Z.to_nat (sub_days end_date_obj start_date_obj + 1) <= fuel)%nat ->
  exists days,
    let itinerary :=
      TravelItinerary.mk destination start_date_obj end_date_obj days
        hotel_info flight_info in
    create_travel_itinerary fuel destination start_date end_date activities
      hotel_info flight_info s
    = (Return itinerary,
       mk_agent (user_name s) (tasks s) (reminders s)
         (travel_itineraries s ++ [itinerary]))
    /\ Z.of_nat (length days) = sub_days end_date_obj start_date_obj + 1
    /\ (forall (i : nat) d, days !! i = Some d ->
          valid_datetime (TravelDay.date d) = true
          /\ is_midnight (TravelDay.date d) = true
          /\ sub_days (TravelDay.date d) start_date_obj = Z.of_nat i)
    /\ (forall (i j : nat) di dj, (i < j)%nat ->
          days !! i = Some di -> days !! j = Some dj ->
          datetime_lt (TravelDay.date di) (TravelDay.date dj) = true).
Proof.
  intros Hs He Hle Hmax Hwf Hfuel.
  parsed_date Hs Hsv Hsm. parsed_date He Hev Hem.
  rewrite sub_days_midnight in * by assumption.
  rewrite datetime_le_toordinal in Hle by assumption.
  destruct (build_days_range activities end_date_obj Hev Hem Hmax Hwf
              (Z.to_nat (toordinal end_date_obj - toordinal start_date_obj + 1))
              fuel start_date_obj [] Hsv Hsm ltac:(lia) Hfuel)
    as (days & Hrun & Hlen & Hdays).
  exists days. cbv zeta.
  rewrite (create_travel_itinerary_parsed activities fuel destination start_date
             end_date hotel_info flight_info s _ _ Hs He), Hrun.
  cbn [app]. split; [reflexivity|]. split; [lia|]. split.
  - intros i d Hi. destruct (Hdays i d Hi) as (Hv & Hm & Ho).
    rewrite sub_days_midnight by assumption. repeat split; [assumption | assumption | lia].
  - intros i j di dj Hij Hi Hj.
    destruct (Hdays i di Hi) as (Hvi & Hmi & Hoi).
    destruct (Hdays j dj Hj) as (Hvj & Hmj & Hoj).
    rewrite datetime_lt_toordinal by assumption. lia.
Qed.



(** C7: when the end date is strictly before the start date the call
    does not fail, whatever the step budget: it returns an itinerary
    with no days and appends it to the stored itineraries. *)
Theorem end_before_start_empty (fuel : nat) (start_date_obj end_date_obj : datetime) :
  strptime start_date "%Y-%m-%d" = Return start_date_obj ->
  strptime end_date "%Y-%m-%d" = Return end_date_obj ->
  datetime_lt end_date_obj start_date_obj = true ->
  let itinerary :=
    TravelItinerary.mk destination start_date_obj end_date_obj []
      hotel_info flight_info in
  create_travel_itinerary fuel destination start_date end_date activities
    hotel_info flight_info s
  = (Return itinerary,
     mk_agent (user_name s) (tasks s) (reminders s)
       (travel_itineraries s ++ [itinerary])).
Proof.
  intros Hs He Hlt. cbv zeta.
  rewrite (create_travel_itinerary_parsed activities fuel destination start_date
             end_date hotel_info flight_info s _ _ Hs He).
  apply datetime_lt_not_le in Hlt.
  destruct fuel; cbn [build_days]; rewrite Hlt; reflexivity.
Qed.

End ItineraryClaims.

(** C4: an itinerary that ends on 9999-12-31 is not built: after the
    last day is appended the loop steps to the next day, which
    [datetime] cannot represent, and the call raises [OverflowError]. *)
Theorem itinerary_to_last_day_overflows (fuel : nat) :
  create_travel_itinerary (S fuel) "Paris" "9999-12-31" "9999-12-31" ∅ ∅ ∅ (init "John")
  = (Raise OverflowError, init "John").
Proof. reflexivity. Qed.



Lemma itinerary_days_range_witness :
  exists days,
    fst (create_travel_itinerary 5 "New York" "2025-03-15" "2025-03-19" demo_activities ∅ ∅
           (init "John"))
    = Return (TravelItinerary.mk "New York" (mk_datetime 2025 3 15 0 0 0 0)
                (mk_datetime 2025 3 19 0 0 0 0) days ∅ ∅)
    /\ length days = 5%nat.
Proof.
  destruct (itinerary_days_range demo_activities "New York" "2025-03-15" "2025-03-19" ∅ ∅
              (init "John") 5 (mk_datetime 2025 3 15 0 0 0 0) (mk_datetime 2025 3 19 0 0 0 0))
    as (days & Hcall & Hlen & _).
  - reflexivity.
  - reflexivity.
  - reflexivity.
  - vm_compute. reflexivity.
  - intros key entry Hk. unfold demo_activities in Hk.
    apply lookup_singleton_Some in Hk as [_ <-].
    unfold complete_entry, required_slots. repeat constructor; vm_compute; eauto.
  - vm_compute. lia.
  - exists days. cbv zeta in Hcall. rewrite Hcall. split; [reflexivity|].
    change (sub_days _ _ + 1) with 5 in Hlen. lia.
Defined.

Section Store.

Variables (title description due_date priority : string).
Variable reminder_times : option (list string).
Variable s : PersonalAIAgent.

(** What [create_task_with_reminders] does to the task list. *)
Lemma create_task_tasks :
  match create_task_with_reminders title description due_date priority
          reminder_times s with
  | (Return t, s') =>
      tasks s' = tasks s ++ [t] /\ Task.id t = task_name (length (tasks s) + 1)
  | (_, s') => tasks s' = tasks s
  end.
Proof.
  pose proof (create_task_outcome title description due_date priority reminder_times s)
    as H. cbv zeta in H.
  destruct (strptime due_date _) as [d| |]; try (rewrite H; reflexivity).
  destruct H as (rs & H & _).
  destruct (fst (add_reminders _ _ _ _ _)); try (rewrite H; reflexivity).
  destruct H as [H _].
  destruct (TaskPriority_getitem _); rewrite H; try reflexivity.
  split; reflexivity.
Qed.

(** A bad due date is found before anything is appended. *)
Lemma create_task_bad_due_date :
  strptime due_date "%Y-%m-%d %H:%M" = Raise ValueError ->
  create_task_with_reminders title description due_date priority reminder_times s
  = (Raise ValueError, s).
Proof.
  intros Hd.
  pose proof (create_task_outcome title description due_date priority reminder_times s)
    as H. now rewrite Hd in H.
Qed.

(** C2, as amended: when the due date and the reminder times parse, a
    priority name that equals the name of a member of [TaskPriority]
    up to the case of its letters gives the task that member as
    priority, and a name of ASCII characters that equals no member's
    name up to case makes the call raise [KeyError] (the
    InvalidPriorityError of the specification). *)
Theorem priority_resolved_ignoring_case (due_date_obj : datetime) :
  strptime due_date "%Y-%m-%d %H:%M" = Return due_date_obj ->
  Forall (fun t => exists d, strptime t "%Y-%m-%d %H:%M" = Return d)
    (default [] reminder_times) ->
  (forall p, eq_ignore_case priority (TaskPriority_name p) = true ->
     exists task s',
       create_task_with_reminders title description due_date priority reminder_times s
       = (Return task, s')
       /\ Task.priority task = p)
  /\ (is_ascii priority = true ->
     (forall p, eq_ignore_case priority (TaskPriority_name p) = false) ->
     exists s',
       create_task_with_reminders title description due_date priority reminder_times s
       = (Raise (KeyError (upper priority)), s')).
Proof.
  intros Hd Htimes.
  pose proof (create_task_outcome title description due_date priority reminder_times s)
    as H. cbv zeta in H. rewrite Hd in H. destruct H as (rs & H & _).
  destruct (add_reminders_outcome
              ("task_" +:+ str_of_nat (length (tasks s) + 1))
              (reminder_message title due_date) (default [] reminder_times) [] s)
    as (rs' & _ & Hloop).
  destruct (fst (add_reminders _ _ _ _ _)) as [l | e |]; [| | destruct Hloop].
  2: { exfalso. destruct Hloop as [_ Hex].
       apply Exists_exists in Hex as (t & Hin & Hfail).
       rewrite Forall_forall in Htimes. destruct (Htimes t) as [d Hok].
       - first [exact Hin | now apply list_elem_of_In | now apply list_elem_of_In in Hin].
       - congruence. }
  destruct H as [H _]. split.
  - intros p Hp. apply eq_ignore_case_upper in Hp.
    rewrite upper_TaskPriority_name in Hp.
    rewrite Hp, TaskPriority_getitem_name in H.
    eexists _, _. split; [exact H | reflexivity].
  - intros _ Hnone.
    destruct (TaskPriority_getitem_outcome (upper priority)) as [(p & Hp & _) | [_ Hraise]].
    + specialize (Hnone p).
      assert (eq_ignore_case priority (TaskPriority_name p) = true) as Ht.
      { apply eq_ignore_case_upper. now rewrite upper_TaskPriority_name. }
      congruence.
    + rewrite Hraise in H. eauto.
Qed.

End Store.

(** C1: a call of [create_task_with_reminders] with a reminder time and
    a priority name that is no member of [TaskPriority] raises
    [KeyError], and the reminder it had added by then stays in the
    agent's reminder list. *)
Theorem failed_create_task_keeps_reminder :
  create_task_with_reminders "Quarterly Review" "Prepare the review"
    "2025-02-15 14:00" "URGENT" (Some ["2025-02-14 10:00"]) (init "John Doe")
  = (Raise (KeyError "URGENT"),
     mk_agent "John Doe" []
       [Reminder.mk "task_1" (mk_datetime 2025 2 14 10 0 0 0) false
          "Reminder: Quarterly Review is due 2025-02-15 14:00"]
       []).
Proof. vm_compute. reflexivity. Qed.

(** The same happens when a later reminder time does not parse. *)
Lemma failed_reminder_time_keeps_earlier :
  create_task_with_reminders "Quarterly Review" "Prepare the review"
    "2025-02-15 14:00" "HIGH" (Some ["2025-02-14 10:00"; "tomorrow"]) (init "John Doe")
  = (Raise ValueError,
     mk_agent "John Doe" []
       [Reminder.mk "task_1" (mk_datetime 2025 2 14 10 0 0 0) false
          "Reminder: Quarterly Review is due 2025-02-15 14:00"]
       []).
Proof. vm_compute. reflexivity. Qed.

(** C2, as stated, fails when the due date does not parse: the name
    "urgent" matches no member of [TaskPriority], and the call raises
    [ValueError], not [KeyError]: the due date is parsed before the
    priority is looked up. *)
Lemma unknown_priority_after_bad_due_date :
  (forall p, eq_ignore_case "urgent" (TaskPriority_name p) = false)
  /\ create_task_with_reminders "Quarterly Review" "Prepare the review"
       "tomorrow" "urgent" None (init "John Doe")
     = (Raise ValueError, init "John Doe").
Proof. split; [intros []; reflexivity | vm_compute; reflexivity]. Qed.

Lemma priority_resolved_ignoring_case_witness :
  (forall name, In name ["HIGH"; "high"; "High"] ->
     exists task s',
       create_task_with_reminders "Quarterly Review" "Prepare the review"
         "2025-02-15 14:00" name (Some ["2025-02-14 10:00"]) (init "John Doe")
       = (Return task, s')
       /\ Task.priority task = HIGH)
  /\ exists s',
       create_task_with_reminders "Quarterly Review" "Prepare the review"
         "2025-02-15 14:00" "urgent" (Some ["2025-02-14 10:00"]) (init "John Doe")
       = (Raise (KeyError "URGENT"), s').
Proof.
  assert (Htimes : Forall (fun t => exists d, strptime t "%Y-%m-%d %H:%M" = Return d)
                     (default [] (Some ["2025-02-14 10:00"]))).
  { repeat constructor. eexists. vm_compute. reflexivity. }
  split.
  - intros name Hin.
    apply (priority_resolved_ignoring_case "Quarterly Review" "Prepare the review"
             "2025-02-15 14:00" name (Some ["2025-02-14 10:00"]) (init "John Doe")
             (mk_datetime 2025 2 15 14 0 0 0)); [reflexivity | exact Htimes |].
    cbn [In] in Hin. destruct Hin as [<- | [<- | [<- | []]]]; reflexivity.
  - apply (priority_resolved_ignoring_case "Quarterly Review" "Prepare the review"
             "2025-02-15 14:00" "urgent" (Some ["2025-02-14 10:00"]) (init "John Doe")
             (mk_datetime 2025 2 15 14 0 0 0)); [reflexivity | exact Htimes | reflexivity |].
    intros []; reflexivity.
Defined.

Lemma map_fmap {A B : Type} (f : A -> B) (l : list A) : map f l = f <$> l.
Proof. induction l as [|a l IH]; [reflexivity|]. cbn. now rewrite IH. Qed.

Lemma add_reminder_tasks (task_id reminder_time message : string) (s : PersonalAIAgent) :
  tasks (snd (add_reminder task_id reminder_time message s)) = tasks s.
Proof.
  destruct (strptime_outcome reminder_time "%Y-%m-%d %H:%M") as [[d Hd] | Hd].
  - now rewrite (add_reminder_parsed _ _ _ d s Hd).
  - now rewrite (add_reminder_failed _ _ _ s Hd).
Qed.

Lemma create_travel_itinerary_tasks (fuel : nat) (destination start_date end_date : string)
    (activities : gmap string (gmap string string))
    (hotel_info flight_info : gmap string string) (s : PersonalAIAgent) :
  tasks (snd (create_travel_itinerary fuel destination start_date end_date activities
                hotel_info flight_info s)) = tasks s.
Proof.
  unfold create_travel_itinerary, bind, lift.
  destruct (strptime start_date _); try reflexivity.
  destruct (strptime end_date _); try reflexivity.
  destruct (build_days _ _ _ _ _); reflexivity.
Qed.

Lemma run_call_tasks (c : call) (s : PersonalAIAgent) :
  is_removal c = false ->
  match run_call c s with
  | (Some t, s') =>
      tasks s' = tasks s ++ [t] /\ Task.id t = task_name (length (tasks s) + 1)
  | (None, s') => tasks s' = tasks s
  end.
Proof.
  destruct c as [title description due_date priority reminder_times
                | task_id reminder_time message
                | fuel destination start_date end_date activities hotel_info flight_info
                | now | i]; cbn [is_removal run_call]; intros Hc; try discriminate.
  - pose proof (create_task_tasks title description due_date priority reminder_times s) as H.
    destruct (create_task_with_reminders _ _ _ _ _ _) as [[t | e |] s']; exact H.
  - apply add_reminder_tasks.
  - apply create_travel_itinerary_tasks.
  - reflexivity.
Qed.

(** Without removals the task list only grows, by the tasks created,
    and each gets the name of its position in the list. *)
Lemma run_tasks (cs : list call) :
  forall s,
    Forall (fun c => is_removal c = false) cs ->
    tasks (snd (run cs s)) = tasks s ++ fst (run cs s)
    /\ forall (n : nat) t, fst (run cs s) !! n = Some t ->
         Task.id t = task_name (length (tasks s) + n + 1).
Proof.
  induction cs as [|c cs IH]; intros s Hcs; cbn [run].
  - cbn. rewrite app_nil_r. split; [reflexivity | intros n t Hn; destruct n; discriminate].
  - apply Forall_cons in Hcs as [Hc Hcs].
    pose proof (run_call_tasks c s Hc) as Hcall.
    destruct (run_call c s) as [created s'].
    specialize (IH s' Hcs).
    destruct (run cs s') as [rest s'']. cbn [fst snd] in *.
    destruct IH as [Htasks Hids].
    destruct created as [t|].
    + destruct Hcall as [Hs' Hid]. rewrite Hs' in *.
      rewrite Htasks, <- app_assoc. split; [reflexivity|].
      intros [|n] t' Hn; cbn in Hn.
      * injection Hn as <-. rewrite Hid. f_equal. lia.
      * rewrite (Hids n t' Hn). rewrite length_app. cbn [length]. f_equal. lia.
    + rewrite Hcall in *. split; [exact Htasks | exact Hids].
Qed.

(** C3, amended: in any sequence of calls that removes no task, run on
    a new agent, the n-th task created has identifier "task_n", so the
    identifiers increase and are pairwise distinct. *)
Theorem task_ids_in_creation_order (cs : list call) (user : string) :
  Forall (fun c => is_removal c = false) cs ->
  (forall (n : nat) t, fst (run cs (init user)) !! n = Some t ->
     Task.id t = "task_" +:+ str_of_nat (S n))
  /\ NoDup (map Task.id (fst (run cs (init user)))).
Proof.
  intros Hcs. destruct (run_tasks cs (init user) Hcs) as [_ Hids].
  cbn [init tasks length] in Hids.
  assert (Hnth : forall (n : nat) t, fst (run cs (init user)) !! n = Some t ->
                   Task.id t = "task_" +:+ str_of_nat (S n)).
  { intros n t Hn. rewrite (Hids n t Hn). unfold task_name. do 2 f_equal. lia. }
  split; [exact Hnth|].
  rewrite map_fmap.
  apply NoDup_alt. intros i j x Hi Hj.
  apply list_lookup_fmap_Some in Hi as (ti & -> & Hti).
  apply list_lookup_fmap_Some in Hj as (tj & Heq & Htj).
  rewrite (Hnth i ti Hti), (Hnth j tj Htj) in Heq.
  apply task_id_inj in Heq. lia.
Qed.

(** C3 as stated fails once a task is removed: two tasks are created,
    the first is deleted from the list, and the third task created gets
    "task_2", the identifier of a task that is still in the list. *)
Lemma task_id_reused_after_removal :
  let c := CreateTask "Plan" "Plan the week" "2025-02-15 14:00" "HIGH" None in
  let created := fst (run [c; c; DelTask 0; c] (init "John Doe")) in
  map Task.id created = ["task_1"; "task_2"; "task_2"]
  /\ ~ (forall (n : nat) t, created !! n = Some t ->
          Task.id t = "task_" +:+ str_of_nat (S n))
  /\ ~ NoDup (map Task.id created).
Proof.
  cbv zeta.
  set (created := fst (run _ _)).
  assert (Hids : map Task.id created = ["task_1"; "task_2"; "task_2"])
    by (vm_compute; reflexivity).
  split; [exact Hids|]. split.
  - intros H.
    assert (Hc : exists t, created !! 2%nat = Some t /\ Task.id t = "task_2").
    { vm_compute. eexists. split; reflexivity. }
    destruct Hc as (t & Ht & Hid). specialize (H 2%nat t Ht).
    rewrite Hid in H. vm_compute in H. discriminate.
  - rewrite Hids. intros Hnd.
    inversion Hnd as [|? ? _ Hnd']. inversion Hnd' as [|? ? Hnotin _].
    apply Hnotin. constructor.
Qed.

Lemma task_ids_in_creation_order_witness :
  let c := CreateTask "Plan" "Plan the week" "2025-02-15 14:00" "HIGH" None in
  NoDup (map Task.id (fst (run [c; AddReminder "task_1" "2025-02-14 10:00" "call"; c]
                             (init "John Doe")))).
Proof.
  cbv zeta.
  apply (task_ids_in_creation_order
           [CreateTask "Plan" "Plan the week" "2025-02-15 14:00" "HIGH" None;
            AddReminder "task_1" "2025-02-14 10:00" "call";
            CreateTask "Plan" "Plan the week" "2025-02-15 14:00" "HIGH" None]
           "John Doe").
  repeat constructor.
Defined.

(** ** The reminder query *)

Lemma find_task_first (tasks : list Task.t) (task_id : string) (t : Task.t) :
  find_task tasks task_id = Some t -> first_with_id tasks task_id t.
Proof.
  unfold find_task, first_with_id.
  induction tasks as [|u tasks IH]; [discriminate|].
  rewrite filter_cons. destruct (decide (Task.id u = task_id)) as [Hu | Hu].
  - cbn. intros [= <-]. exists [], tasks. repeat split; [exact Hu | constructor].
  - intros H. destruct (IH H) as (before & after & -> & Hid & Hbefore).
    exists (u :: before), after. repeat split; [exact Hid | now constructor].
Qed.

Lemma first_find_task (tasks : list Task.t) (task_id : string) (t : Task.t) :
  first_with_id tasks task_id t -> find_task tasks task_id = Some t.
Proof.
  unfold find_task, first_with_id. intros (before & after & -> & Hid & Hbefore).
  induction Hbefore as [|u before Hu _ IH]; cbn [app]; rewrite filter_cons.
  - destruct (decide (Task.id t = task_id)); [reflexivity | contradiction].
  - destruct (decide (Task.id u = task_id)); [contradiction | exact IH].
Qed.

Section Selection.

Variables (now : datetime) (tasks : list Task.t).

Lemma collect_upcoming_selection (rs : list Reminder.t) :
  forall acc,
    collect_upcoming now tasks rs acc
    = acc ++ map upcoming_record (selection now tasks rs).
Proof.
  induction rs as [|r rs IH]; intros acc; cbn [collect_upcoming selection].
  - now rewrite app_nil_r.
  - destruct (negb _ && _); [|apply IH].
    destruct (find_task tasks (Reminder.task_id r)) as [t|]; [|apply IH].
    rewrite IH, <- app_assoc. reflexivity.
Qed.

Lemma selection_sublist (rs : list Reminder.t) :
  sublist (map fst (selection now tasks rs)) rs.
Proof.
  induction rs as [|r rs IH]; cbn [selection]; [constructor|].
  destruct (negb _ && _); [|now constructor].
  destruct (find_task tasks (Reminder.task_id r)); [|now constructor].
  cbn. now constructor.
Qed.

Lemma selection_upcoming (rs : list Reminder.t) :
  Forall (fun p =>
            Reminder.notification_sent (fst p) = false
            /\ datetime_gt (Reminder.reminder_time (fst p)) now = true
            /\ first_with_id tasks (Reminder.task_id (fst p)) (snd p))
    (selection now tasks rs).
Proof.
  induction rs as [|r rs IH]; cbn [selection]; [constructor|].
  destruct (negb _ && _) eqn:Hc; [|exact IH].
  destruct (find_task tasks (Reminder.task_id r)) as [t|] eqn:Ht; [|exact IH].
  constructor; [|exact IH]. cbn [fst snd].
  apply andb_true_iff in Hc as [Hsent Hgt]. apply negb_true_iff in Hsent.
  repeat split; [exact Hsent | exact Hgt | now apply find_task_first].
Qed.

(** Every reminder that is unsent, later than [now] and has a task is
    selected. *)
Lemma selection_complete (rs : list Reminder.t) (r : Reminder.t) (t : Task.t) :
  In r rs ->
  Reminder.notification_sent r = false ->
  datetime_gt (Reminder.reminder_time r) now = true ->
  find_task tasks (Reminder.task_id r) = Some t ->
  In (r, t) (selection now tasks rs).
Proof.
  intros Hin Hsent Hgt Ht.
  induction rs as [|r' rs IH]; [destruct Hin|]. cbn [selection].
  destruct Hin as [-> | Hin].
  - rewrite Hsent, Hgt, Ht. cbn. now left.
  - destruct (negb _ && _); [|now apply IH].
    destruct (find_task tasks (Reminder.task_id r')); [right|]; now apply IH.
Qed.

End Selection.

Section StableSort.

Context {A : Type} (key : A -> datetime).

Let le (a b : A) : Prop := datetime_le (key a) (key b) = true.

Lemma datetime_lt_le (a b : datetime) : datetime_lt a b = true -> datetime_le a b = true.
Proof. unfold datetime_lt, datetime_le. destruct (datetime_compare a b); congruence. Qed.

Lemma datetime_not_lt_le (a b : datetime) : datetime_lt a b = false -> datetime_le b a = true.
Proof.
  unfold datetime_lt, datetime_le, datetime_compare.
  rewrite (lex_compare_antisym (datetime_key a) (datetime_key b)).
  destruct (lex_compare _ _); cbn; congruence.
Qed.

Lemma insert_by_hd (x y : A) (l : list A) :
  le y x -> HdRel le y l -> HdRel le y (insert_by key x l).
Proof.
  intros Hyx Hl. destruct l as [|z l]; cbn [insert_by]; [now constructor|].
  destruct (datetime_lt (key z) (key x)); constructor; [|exact Hyx].
  now inversion Hl.
Qed.

Lemma insert_by_sorted (x : A) (l : list A) :
  Sorted le l -> Sorted le (insert_by key x l).
Proof.
  induction 1 as [|y l Hs IH Hhd]; cbn [insert_by]; [repeat constructor|].
  destruct (datetime_lt (key y) (key x)) eqn:Hlt.
  - constructor; [exact IH|]. apply insert_by_hd; [|exact Hhd].
    now apply datetime_lt_le.
  - constructor; [now constructor|]. constructor. now apply datetime_not_lt_le.
Qed.

Lemma sorted_sorted (l : list A) : Sorted le (sorted key l).
Proof.
  induction l as [|x l IH]; cbn [sorted]; [constructor | now apply insert_by_sorted].
Qed.

Lemma insert_by_perm (x : A) (l : list A) : Permutation (insert_by key x l) (x :: l).
Proof.
  induction l as [|y l IH]; cbn [insert_by]; [reflexivity|].
  destruct (datetime_lt (key y) (key x)); [|reflexivity].
  rewrite IH. apply perm_swap.
Qed.

Lemma sorted_perm (l : list A) : Permutation (sorted key l) l.
Proof.
  induction l as [|x l IH]; cbn [sorted]; [reflexivity|].
  rewrite insert_by_perm. now constructor.
Qed.

Lemma lex_compare_refl (a : list Z) : lex_compare a a = Eq.
Proof. induction a as [|x a IH]; cbn [lex_compare]; [|rewrite Z.compare_refl]; auto. Qed.

Lemma datetime_eqb_key (a b : datetime) :
  datetime_eqb a b = true -> datetime_key a = datetime_key b.
Proof.
  unfold datetime_eqb, datetime_compare.
  destruct (lex_compare _ _) eqn:Hc; try discriminate.
  intros _. now apply lex_compare_eq in Hc.
Qed.

(** Insertion keeps the elements that tie on the key in the order
    "new element first". *)
Lemma insert_by_stable (tau : datetime) (x : A) (l : list A) :
  List.filter (fun a => datetime_eqb (key a) tau) (insert_by key x l)
  = List.filter (fun a => datetime_eqb (key a) tau) (x :: l).
Proof.
  induction l as [|y l IH]; cbn [insert_by]; [reflexivity|].
  destruct (datetime_lt (key y) (key x)) eqn:Hlt; [|reflexivity].
  cbn [List.filter] in *. rewrite IH.
  destruct (datetime_eqb (key x) tau) eqn:Hx, (datetime_eqb (key y) tau) eqn:Hy;
    try reflexivity.
  exfalso. apply datetime_eqb_key in Hx, Hy.
  unfold datetime_lt, datetime_compare in Hlt.
  rewrite Hy, <- Hx, lex_compare_refl in Hlt. discriminate.
Qed.

Lemma sorted_stable (tau : datetime) (l : list A) :
  List.filter (fun a => datetime_eqb (key a) tau) (sorted key l)
  = List.filter (fun a => datetime_eqb (key a) tau) l.
Proof.
  induction l as [|x l IH]; cbn [sorted]; [reflexivity|].
  rewrite insert_by_stable. cbn [List.filter]. now rewrite IH.
Qed.

End StableSort.

(** C8: [get_upcoming_reminders] returns; its records are those of a
    selection of the reminders, taken in insertion order, each unsent,
    strictly later than [now], and paired with the first task whose
    identifier is the reminder's; the records are in non-decreasing
    order of time, and records with the same time keep the order of
    their reminders.  Reminders with no such task are left out, and
    no other reminder is. *)
Theorem upcoming_reminders_selected_and_sorted (now : datetime) (s : PersonalAIAgent) :
  exists (selected : list (Reminder.t * Task.t)) (result : list Upcoming.t),
    fst (get_upcoming_reminders now s) = Return result
    /\ sublist (map fst selected) (reminders s)
    /\ Forall (fun p =>
                 Reminder.notification_sent (fst p) = false
                 /\ datetime_gt (Reminder.reminder_time (fst p)) now = true
                 /\ first_with_id (tasks s) (Reminder.task_id (fst p)) (snd p))
         selected
    /\ (forall r t,
          In r (reminders s) ->
          Reminder.notification_sent r = false ->
          datetime_gt (Reminder.reminder_time r) now = true ->
          first_with_id (tasks s) (Reminder.task_id r) t ->
          In (r, t) selected)
    /\ Permutation result (map upcoming_record selected)
    /\ Sorted (fun a b => datetime_le (Upcoming.time a) (Upcoming.time b) = true) result
    /\ forall tau,
         List.filter (fun u => datetime_eqb (Upcoming.time u) tau) result
         = List.filter (fun u => datetime_eqb (Upcoming.time u) tau)
             (map upcoming_record selected).
Proof.
  exists (selection now (tasks s) (reminders s)), (sorted Upcoming.time
            (map upcoming_record (selection now (tasks s) (reminders s)))).
  split.
  { unfold get_upcoming_reminders, bind, get, ret. cbn [fst].
    now rewrite collect_upcoming_selection. }
  split; [apply selection_sublist|].
  split; [apply selection_upcoming|].
  split.
  { intros r t Hin Hsent Hgt Hfirst.
    apply selection_complete; auto using first_find_task. }
  split; [apply sorted_perm|].
  split; [apply sorted_sorted|].
  intros tau. apply sorted_stable.
Qed.

(** C10: [get_upcoming_reminders] returns and leaves the agent, with
    its tasks, its reminders and their flags, and its itineraries, as
    it was. *)
Theorem get_upcoming_reminders_pure (now : datetime) (s : PersonalAIAgent) :
  snd (get_upcoming_reminders now s) = s
  /\ exists result, fst (get_upcoming_reminders now s) = Return result.
Proof. split; [reflexivity | eexists; reflexivity]. Qed.



Lemma end_before_start_empty_witness :
  create_travel_itinerary 0 "New York" "2025-03-19" "2025-03-15" demo_activities ∅ ∅
    (init "John Doe")
  = (Return (TravelItinerary.mk "New York" (march 19) (march 15) [] ∅ ∅),
     mk_agent "John Doe" [] []
       [TravelItinerary.mk "New York" (march 19) (march 15) [] ∅ ∅]).
Proof.
  apply (end_before_start_empty demo_activities "New York" "2025-03-19" "2025-03-15"
           ∅ ∅ (init "John Doe") 0 (march 19) (march 15)).
  - vm_compute; reflexivity.
  - vm_compute; reflexivity.
  - reflexivity.
Defined.

Lemma strptime_strftime_date_witness :
  strptime (strftime (mk_datetime 2025 3 15 8 30 0 0) "%Y-%m-%d") "%Y-%m-%d"
  = Return (march 15).
Proof.
  apply (strptime_strftime_date (mk_datetime 2025 3 15 8 30 0 0)).
  - reflexivity.
  - cbn. lia.
Defined.

(** The scenario of [main]: a task with two reminders, queried at the
    midnight before the first. *)
Example upcoming_after_create :
  let s := snd (create_task_with_reminders "Quarterly Review Presentation"
                  "Prepare and deliver Q1 review presentation" "2025-02-15 14:00" "HIGH"
                  (Some ["2025-02-15 09:00"; "2025-02-14 10:00"]) (init "John Doe")) in
  fst (get_upcoming_reminders (mk_datetime 2025 2 14 0 0 0 0) s)
  = Return
      [Upcoming.mk (mk_datetime 2025 2 14 10 0 0 0) "Quarterly Review Presentation"
         "Reminder: Quarterly Review Presentation is due 2025-02-15 14:00";
       Upcoming.mk (mk_datetime 2025 2 15 9 0 0 0) "Quarterly Review Presentation"
         "Reminder: Quarterly Review Presentation is due 2025-02-15 14:00"].
Proof. vm_compute. reflexivity. Qed.

(** ** Instants and date keys *)

Lemma compile_instant_format :
  compile_format false "%Y-%m-%d %H:%M"
  = Some [Directive dir_Y; Literal "-"; Directive dir_m; Literal "-"; Directive dir_d;
          Whitespace; Directive dir_H; Literal ":"; Directive dir_M].
Proof. reflexivity. Qed.

Lemma strftime_instant (d : datetime) :
  strftime d "%Y-%m-%d %H:%M"
  = year_text (year d) +:+ String "-" (pad2 (month d) +:+ String "-" (pad2 (day d)
      +:+ String " " (pad2 (hour d) +:+ String ":" (pad2 (minute d) +:+ "")))).
Proof. reflexivity. Qed.

(** The first match of a sequence of items starts with the first match
    of its first item when the rest of the items match what follows. *)
Lemma match_items_head (it : fmt_item) (its : list fmt_item) (s r r' : string)
    (v g : list (directive * Z)) (others others' : list (list (directive * Z) * string)) :
  match_item it s = (v, r) :: others ->
  match_items its r = (g, r') :: others' ->
  exists rest, match_items (it :: its) s = (v ++ g, r') :: rest.
Proof.
  intros Hit Hits. cbn [match_items]. rewrite Hit. cbn [flat_map].
  rewrite Hits. cbn [map app]. eexists. reflexivity.
Qed.

(** A zero-padded two-digit value is the first text its directive
    matches, whatever follows. *)
Lemma match_pad2 (dir : directive) (v : Z) (rest : string) :
  match dir with
  | dir_Y => False
  | dir_m => 1 <= v <= 12
  | dir_d => 1 <= v <= 31
  | dir_H => 0 <= v <= 23
  | dir_M => 0 <= v <= 59
  end ->
  exists others, match_item (Directive dir) (pad2 v +:+ rest) = ([(dir, v)], rest) :: others.
Proof.
  intros Hv.
  assert (Hn : exists n : nat, v = Z.of_nat n /\ (n < 60)%nat).
  { exists (Z.to_nat v). destruct dir; try contradiction; lia. }
  destruct Hn as (n & -> & Hn).
  destruct dir; try contradiction;
    do 60 (destruct n as [|n];
           [first [ vm_compute; eexists; reflexivity | exfalso; lia ] |]);
    exfalso; lia.
Qed.

Lemma is_space_digit_of (k : Z) : 0 <= k <= 9 -> is_space (digit_of k) = false.
Proof.
  intros Hk.
  assert (Hn : exists n : nat, k = Z.of_nat n /\ (n < 10)%nat)
    by (exists (Z.to_nat k); lia).
  destruct Hn as (n & -> & Hn).
  do 10 (destruct n as [|n]; [reflexivity|]). lia.
Qed.

(** A single blank before a digit is all that [\s+] can match. *)
Lemma match_blank (v : Z) (rest : string) :
  0 <= v <= 99 ->
  match_item Whitespace (String " " (pad2 v +:+ rest)) = [([], pad2 v +:+ rest)].
Proof.
  intros Hv. unfold match_item, pad2. rewrite !append_cons.
  cbn [re.spaces]. change (is_space " ") with true. cbn match.
  rewrite is_space_digit_of by (Z.div_mod_to_equations; lia). reflexivity.
Qed.

(** The first match of the instant format on a printed instant of the
    year 1000 or later. *)
Lemma match_printed_instant (d : datetime) :
  valid_datetime d = true ->
  1000 <= year d ->
  exists others,
    match_items
      [Directive dir_Y; Literal "-"; Directive dir_m; Literal "-"; Directive dir_d;
       Whitespace; Directive dir_H; Literal ":"; Directive dir_M]
      (strftime d "%Y-%m-%d %H:%M")
    = ([(dir_Y, year d); (dir_m, month d); (dir_d, day d); (dir_H, hour d);
        (dir_M, minute d)], "") :: others.
Proof.
  intros Hv Hk. pose proof (valid_datetime_date d Hv) as (Hy & Hm & Hd).
  pose proof (days_in_month_bounds (year d) (month d)) as Hdim.
  unfold valid_datetime in Hv. apply andb_true_iff in Hv as [_ Ht].
  apply check_time_fields_spec in Ht as (Hh & Hmi & _).
  rewrite strftime_instant, year_text_pad4 by lia.
  destruct (match_pad2 dir_M (minute d) "" Hmi) as [o9 H9].
  assert (H8 : match_item (Literal ":") (String ":" (pad2 (minute d) +:+ ""))
               = [([], pad2 (minute d) +:+ "")]) by reflexivity.
  destruct (match_pad2 dir_H (hour d) (String ":" (pad2 (minute d) +:+ "")) Hh) as [o7 H7].
  pose proof (match_blank (hour d) (String ":" (pad2 (minute d) +:+ "")) ltac:(lia)) as H6.
  destruct (match_pad2 dir_d (day d)
              (String " " (pad2 (hour d) +:+ String ":" (pad2 (minute d) +:+ "")))
              ltac:(cbn; lia)) as [o5 H5].
  set (t5 := pad2 (day d) +:+ _) in *.
  assert (H4 : match_item (Literal "-") (String "-" t5) = [([], t5)]) by reflexivity.
  destruct (match_pad2 dir_m (month d) (String "-" t5) Hm) as [o3 H3].
  set (t3 := pad2 (month d) +:+ _) in *.
  assert (H2 : match_item (Literal "-") (String "-" t3) = [([], t3)]) by reflexivity.
  pose proof (match_year (year d) (String "-" t3) ltac:(lia)) as H1.
  assert (H10 : match_items [] "" = [([], "")]) by reflexivity.
  destruct (match_items_head _ _ _ _ _ _ _ _ _ H9 H10) as [? G9].
  destruct (match_items_head _ _ _ _ _ _ _ _ _ H8 G9) as [? G8].
  destruct (match_items_head _ _ _ _ _ _ _ _ _ H7 G8) as [? G7].
  destruct (match_items_head _ _ _ _ _ _ _ _ _ H6 G7) as [? G6].
  destruct (match_items_head _ _ _ _ _ _ _ _ _ H5 G6) as [? G5].
  destruct (match_items_head _ _ _ _ _ _ _ _ _ H4 G5) as [? G4].
  destruct (match_items_head _ _ _ _ _ _ _ _ _ H3 G4) as [? G3].
  destruct (match_items_head _ _ _ _ _ _ _ _ _ H2 G3) as [? G2].
  destruct (match_items_head _ _ _ _ _ _ _ _ _ H1 G2) as [? G1].
  eexists. exact G1.
Qed.

(** X1: An instant of the year 1000 or later, printed with
    "%Y-%m-%d %H:%M", the format [print_daily_schedule] prints reminder
    times with, and parsed back with the same format, as [add_reminder]
    parses, is the same instant with its seconds and microseconds
    dropped. *)
Theorem strptime_strftime_instant (d : datetime) :
  valid_datetime d = true ->
  1000 <= year d ->
  strptime (strftime d "%Y-%m-%d %H:%M") "%Y-%m-%d %H:%M"
  = Return (mk_datetime (year d) (month d) (day d) (hour d) (minute d) 0 0).
Proof.
  intros Hv Hk. destruct (match_printed_instant d Hv Hk) as [others Hmatch].
  unfold strptime. rewrite compile_instant_format, Hmatch.
  cbn [group directive_eqb]. unfold new_datetime.
  unfold valid_datetime in Hv. apply andb_true_iff in Hv as [Hd Ht].
  rewrite Hd. apply check_time_fields_spec in Ht as (Hh & Hmi & _).
  assert (Hc : check_time_fields (hour d) (minute d) 0 0 = true)
    by (apply check_time_fields_spec; lia).
  rewrite Hc. reflexivity.
Qed.

Lemma strptime_strftime_instant_witness :
  strptime (strftime (mk_datetime 2025 2 14 10 0 42 7) "%Y-%m-%d %H:%M") "%Y-%m-%d %H:%M"
  = Return (mk_datetime 2025 2 14 10 0 0 0).
Proof.
  apply (strptime_strftime_instant (mk_datetime 2025 2 14 10 0 42 7)).
  - reflexivity.
  - cbn. lia.
Defined.

(** Before the year 1000 the printed instant has a short year and does
    not parse back. *)
Example strptime_strftime_instant_year_999 :
  strptime (strftime (mk_datetime 999 3 15 8 30 0 0) "%Y-%m-%d %H:%M") "%Y-%m-%d %H:%M"
  = Raise ValueError.
Proof. vm_compute. reflexivity. Qed.

Lemma digit_of_inj (a b : Z) :
  0 <= a <= 9 -> 0 <= b <= 9 -> digit_of a = digit_of b -> a = b.
Proof.
  intros Ha Hb H.
  destruct (digit_of_spec a Ha) as [_ Va]. destruct (digit_of_spec b Hb) as [_ Vb].
  congruence.
Qed.

Lemma four_digits (y : Z) :
  0 <= y <= 9999 ->
  y = ((y / 1000 mod 10 * 10 + y / 100 mod 10) * 10 + y / 10 mod 10) * 10 + y mod 10.
Proof.
  intros Hy.
  replace (y / 1000) with (y / 10 / 10 / 10) by (rewrite !Z.div_div by lia; reflexivity).
  replace (y / 100) with (y / 10 / 10) by (rewrite !Z.div_div by lia; reflexivity).
  Z.div_mod_to_equations. lia.
Qed.

Lemma two_digits (v : Z) : 0 <= v <= 99 -> v = v / 10 mod 10 * 10 + v mod 10.
Proof. intros Hv. Z.div_mod_to_equations. lia. Qed.

Lemma mod10_range (x : Z) : 0 <= x mod 10 <= 9.
Proof. pose proof (Z.mod_pos_bound x 10). lia. Qed.

Lemma digit_of_not_dash (k : Z) : 0 <= k <= 9 -> digit_of k <> "-"%char.
Proof.
  intros Hk E. destruct (digit_of_spec k Hk) as [Hd _].
  rewrite E in Hd. discriminate.
Qed.

Ltac digit_range := first [apply mod10_range | lia].

Ltac not_dash :=
  match goal with
  | E : digit_of ?k = "-"%char |- _ => apply (digit_of_not_dash k); [|exact E]
  | E : "-"%char = digit_of ?k |- _ => apply (digit_of_not_dash k); [|symmetry; exact E]
  end; digit_range.

(** The digits of a year, closed by a dash, determine the year and
    what follows the dash. *)
Lemma year_digits_inj (ya yb : Z) (ra rb : string) :
  1 <= ya <= 9999 -> 1 <= yb <= 9999 ->
  year_digits ya +:+ String "-" ra = year_digits yb +:+ String "-" rb ->
  ya = yb /\ ra = rb.
Proof.
  intros Ha Hb. unfold year_digits, pad4, pad2.
  pose proof (four_digits ya ltac:(lia)) as Fa.
  pose proof (four_digits yb ltac:(lia)) as Fb.
  destruct (Z.ltb_spec ya 10), (Z.ltb_spec ya 100), (Z.ltb_spec ya 1000); try lia;
    destruct (Z.ltb_spec yb 10), (Z.ltb_spec yb 100), (Z.ltb_spec yb 1000); try lia;
    rewrite ?append_cons, ?append_nil; intros E; injection E; clear E; intros;
    try (exfalso; not_dash);
    repeat match goal with
           | E : digit_of ?a = digit_of ?b |- _ =>
               apply digit_of_inj in E; [| digit_range | digit_range]
           end;
    (split; [|assumption]).
  - assumption.
  - rewrite Fa, Fb. rewrite !(Z.div_small _ 1000), !(Z.div_small _ 100) by lia.
    cbn [Z.modulo]. congruence.
  - rewrite Fa, Fb. rewrite !(Z.div_small _ 1000) by lia. congruence.
  - rewrite Fa, Fb. congruence.
Qed.

(** Two dates that print the same "%Y-%m-%d" text have the same year,
    month and day. *)
Lemma strftime_date_inj (a b : datetime) :
  valid_datetime a = true -> valid_datetime b = true ->
  strftime a "%Y-%m-%d" = strftime b "%Y-%m-%d" ->
  year a = year b /\ month a = month b /\ day a = day b.
Proof.
  intros Ha Hb. rewrite !strftime_date.
  apply valid_datetime_date in Ha as (Hya & Hma & Hda).
  apply valid_datetime_date in Hb as (Hyb & Hmb & Hdb).
  pose proof (days_in_month_bounds (year a) (month a)).
  pose proof (days_in_month_bounds (year b) (month b)).
  rewrite !year_text_digits by lia.
  intros E. apply year_digits_inj in E as [Hy E]; [|lia|lia].
  split; [exact Hy|]. revert E.
  unfold pad2. rewrite !append_cons, !append_nil.
  intros [= H1 H2 H3 H4].
  apply digit_of_inj in H1, H2, H3, H4; try apply mod10_range.
  rewrite (two_digits (month a)), (two_digits (month b)) by lia.
  rewrite (two_digits (day a)), (two_digits (day b)) by lia.
  rewrite H1, H2, H3, H4. auto.
Qed.

Lemma same_date_spec (a b : datetime) :
  same_date a b = true <-> year a = year b /\ month a = month b /\ day a = day b.
Proof.
  unfold same_date. rewrite !andb_true_iff, !Z.eqb_eq. tauto.
Qed.

(** X2: The key under which [create_travel_itinerary] looks a date up
    identifies the date: two dates have the same "%Y-%m-%d" text exactly
    when they are the same calendar date. *)
Theorem date_key_identifies_date (a b : datetime) :
  valid_datetime a = true -> valid_datetime b = true ->
  strftime a "%Y-%m-%d" = strftime b "%Y-%m-%d" <-> same_date a b = true.
Proof.
  intros Ha Hb. rewrite same_date_spec. split.
  - now apply strftime_date_inj.
  - intros (Hy & Hm & Hd). rewrite !strftime_date. now rewrite Hy, Hm, Hd.
Qed.

Lemma date_key_identifies_date_witness :
  strftime (mk_datetime 2025 3 15 8 30 0 0) "%Y-%m-%d"
  = strftime (mk_datetime 2025 3 15 0 0 0 0) "%Y-%m-%d"
  <-> same_date (mk_datetime 2025 3 15 8 30 0 0) (mk_datetime 2025 3 15 0 0 0 0) = true.
Proof.
  apply (date_key_identifies_date (mk_datetime 2025 3 15 8 30 0 0)
           (mk_datetime 2025 3 15 0 0 0 0)); reflexivity.
Defined.

(** ** Reminders added and queried *)

Lemma selection_app (now : datetime) (tasks : list Task.t) (rs1 rs2 : list Reminder.t) :
  selection now tasks (rs1 ++ rs2) = selection now tasks rs1 ++ selection now tasks rs2.
Proof.
  induction rs1 as [|r rs1 IH]; cbn [app selection]; [reflexivity|].
  destruct (negb _ && _); [|exact IH].
  destruct (find_task tasks (Reminder.task_id r)); [|exact IH].
  cbn [app]. now rewrite IH.
Qed.

Lemma find_task_none (tasks : list Task.t) (task_id : string) :
  Forall (fun t => Task.id t <> task_id) tasks -> find_task tasks task_id = None.
Proof.
  unfold find_task. induction 1 as [|t tasks Ht _ IH]; [reflexivity|].
  rewrite filter_cons. destruct (decide (Task.id t = task_id)); [contradiction | exact IH].
Qed.

Lemma upcoming_result (now : datetime) (s : PersonalAIAgent) :
  fst (get_upcoming_reminders now s)
  = Return (sorted Upcoming.time
              (map upcoming_record (selection now (tasks s) (reminders s)))).
Proof.
  unfold get_upcoming_reminders, bind, get, ret. cbn [fst].
  now rewrite collect_upcoming_selection.
Qed.

(** A reminder that is unsent, later than [now] and whose task is found
    has its record in the result. *)
Lemma upcoming_contains (now : datetime) (s : PersonalAIAgent) (r : Reminder.t) (t : Task.t) :
  In r (reminders s) ->
  Reminder.notification_sent r = false ->
  datetime_gt (Reminder.reminder_time r) now = true ->
  first_with_id (tasks s) (Reminder.task_id r) t ->
  exists result,
    fst (get_upcoming_reminders now s) = Return result
    /\ In (Upcoming.mk (Reminder.reminder_time r) (Task.title t) (Reminder.message r)) result.
Proof.
  intros Hin Hsent Hgt Hfirst. eexists. split; [apply upcoming_result|].
  apply (Permutation_in _ (Permutation_sym (sorted_perm Upcoming.time _))).
  apply (in_map upcoming_record _ (r, t)).
  apply selection_complete; auto using first_find_task.
Qed.

Section AddReminder.

Variables (task_id reminder_time message : string).
Variable s : PersonalAIAgent.

(** X3: [add_reminder] either raises [ValueError], because the time text
    does not parse, and leaves the agent as it was, or returns an
    unsent reminder with the identifier and the message it was given
    and appends it as the last reminder; it does not look the task
    identifier up. *)
Theorem add_reminder_appends_or_fails :
  (exists d,
      strptime reminder_time "%Y-%m-%d %H:%M" = Return d
      /\ add_reminder task_id reminder_time message s
         = (Return (Reminder.mk task_id d false message),
            mk_agent (user_name s) (tasks s)
              (reminders s ++ [Reminder.mk task_id d false message])
              (travel_itineraries s)))
  \/ (strptime reminder_time "%Y-%m-%d %H:%M" = Raise ValueError
      /\ add_reminder task_id reminder_time message s = (Raise ValueError, s)).
Proof.
  destruct (strptime_outcome reminder_time "%Y-%m-%d %H:%M") as [[d Hd] | Hd].
  - left. exists d. split; [exact Hd|]. now rewrite (add_reminder_parsed _ _ _ d s Hd).
  - right. split; [exact Hd|]. now apply add_reminder_failed.
Qed.

(** X4: A reminder added for an identifier that no task has does not
    change what [get_upcoming_reminders] returns. *)
Theorem dangling_reminder_not_upcoming (now : datetime) :
  Forall (fun t => Task.id t <> task_id) (tasks s) ->
  fst (get_upcoming_reminders now (snd (add_reminder task_id reminder_time message s)))
  = fst (get_upcoming_reminders now s).
Proof.
  intros Hnone.
  destruct (strptime_outcome reminder_time "%Y-%m-%d %H:%M") as [[d Hd] | Hd].
  - rewrite (add_reminder_parsed _ _ _ d s Hd). cbn [snd].
    rewrite !upcoming_result. unfold with_reminders. cbn [tasks reminders].
    rewrite selection_app. cbn [selection Reminder.task_id].
    rewrite (find_task_none _ _ Hnone).
    destruct (negb _ && _); now rewrite app_nil_r.
  - now rewrite (add_reminder_failed _ _ _ s Hd).
Qed.

(** X5: A reminder added for an existing task, with a time later than
    [now], is in what [get_upcoming_reminders] returns, under the
    title of the first task with that identifier. *)
Theorem added_reminder_is_upcoming (now d : datetime) (t : Task.t) :
  strptime reminder_time "%Y-%m-%d %H:%M" = Return d ->
  datetime_gt d now = true ->
  first_with_id (tasks s) task_id t ->
  exists result,
    fst (get_upcoming_reminders now (snd (add_reminder task_id reminder_time message s)))
    = Return result
    /\ In (Upcoming.mk d (Task.title t) message) result.
Proof.
  intros Hd Hgt Hfirst. rewrite (add_reminder_parsed _ _ _ d s Hd). cbn [snd].
  apply (upcoming_contains now (with_reminders s [Reminder.mk task_id d false message])
           (Reminder.mk task_id d false message) t).
  - cbn [with_reminders reminders]. apply in_or_app. right. now left.
  - reflexivity.
  - exact Hgt.
  - exact Hfirst.
Qed.

End AddReminder.

(** ** Tasks created *)

(** The loop over the reminder times appends, for the times it parsed,
    reminders that carry the task identifier and the message. *)
Lemma add_reminders_shape (task_id message : string) (reminder_times : list string) :
  forall acc s,
    exists ds,
      snd (add_reminders task_id message reminder_times acc s)
      = with_reminders s (map (new_reminder task_id message) ds)
      /\ match fst (add_reminders task_id message reminder_times acc s) with
         | Return l =>
             l = acc ++ map (new_reminder task_id message) ds
             /\ Forall2 (fun t d => strptime t "%Y-%m-%d %H:%M" = Return d) reminder_times ds
         | Raise e => e = ValueError
         | OutOfFuel => False
         end.
Proof.
  induction reminder_times as [|t times IH]; intros acc s.
  - exists []. cbn. rewrite with_reminders_nil, app_nil_r. repeat constructor.
  - rewrite add_reminders_cons.
    destruct (strptime_outcome t "%Y-%m-%d %H:%M") as [[d Hd] | Hd].
    + rewrite (add_reminder_parsed _ _ _ d s Hd).
      fold (new_reminder task_id message d).
      destruct (IH (acc ++ [new_reminder task_id message d])
                  (with_reminders s [new_reminder task_id message d])) as (ds & Hs & Hr).
      exists (d :: ds). rewrite Hs, with_reminders_app. split; [reflexivity|].
      destruct (fst (add_reminders _ _ _ _ _)) as [l | e |]; [| exact Hr | exact Hr].
      destruct Hr as [-> Hall]. rewrite <- app_assoc. split; [reflexivity|].
      constructor; [exact Hd | exact Hall].
    + rewrite (add_reminder_failed _ _ _ s Hd). exists []. cbn.
      rewrite with_reminders_nil. split; reflexivity.
Qed.

Lemma with_reminders_inj (s : PersonalAIAgent) (a b : list Reminder.t) :
  with_reminders s a = with_reminders s b -> a = b.
Proof. unfold with_reminders. intros [= H]. now apply app_inv_head in H. Qed.

Section CreateTaskShape.

Variables (title description due_date priority : string).
Variable reminder_times : option (list string).
Variable s : PersonalAIAgent.

Let outcome := create_task_with_reminders title description due_date priority
                 reminder_times s.

Let task_id : string := "task_" +:+ str_of_nat (length (tasks s) + 1).

Let message : string := "Reminder: " +:+ title +:+ " is due " +:+ due_date.

(** Every outcome of [create_task_with_reminders], with the reminders
    it has appended by then. *)
Lemma create_task_shape :
  exists ds,
    let rs := map (new_reminder task_id message) ds in
    match fst outcome with
    | Return task =>
        exists due_date_obj p,
          strptime due_date "%Y-%m-%d %H:%M" = Return due_date_obj
          /\ TaskPriority_getitem (upper priority) = Return p
          /\ Forall2 (fun t d => strptime t "%Y-%m-%d %H:%M" = Return d)
               (default [] reminder_times) ds
          /\ task = Task.mk task_id title description due_date_obj p TODO rs
          /\ snd outcome = with_task (with_reminders s rs) task
    | Raise e =>
        (e = ValueError \/ e = KeyError (upper priority))
        /\ snd outcome = with_reminders s rs
    | OutOfFuel => False
    end.
Proof.
  pose proof (create_task_outcome title description due_date priority reminder_times s)
    as H. cbv zeta in H. fold outcome in H.
  destruct (strptime_outcome due_date "%Y-%m-%d %H:%M") as [[d Hd] | Hd];
    rewrite Hd in H.
  2: { exists []. cbv zeta. rewrite H. cbn. rewrite with_reminders_nil. auto. }
  destruct H as (rs & H & Hs).
  fold task_id in H, Hs. unfold reminder_message in H, Hs. fold message in H, Hs.
  destruct (add_reminders_shape task_id message (default [] reminder_times) [] s)
    as (ds & Hs' & Hr).
  rewrite Hs in Hs'. apply with_reminders_inj in Hs'. subst rs.
  exists ds. cbv zeta.
  destruct (fst (add_reminders _ _ _ _ _)) as [l | e |]; [| | destruct Hr].
  - destruct Hr as [-> Hall]. destruct H as [H _]. cbn [app] in H.
    destruct (TaskPriority_getitem (upper priority)) as [p | e |] eqn:Hp;
      rewrite H; cbn [fst snd].
    + exists d, p. repeat split; auto.
    + auto.
    + auto.
  - rewrite H. cbn [fst snd]. auto.
Qed.

End CreateTaskShape.

Section CreateTask.

Variables (title description due_date priority : string).
Variable reminder_times : option (list string).
Variable s : PersonalAIAgent.

(** X6: A task that [create_task_with_reminders] returns has the next
    identifier, the title and description given, the parsed due date,
    status To Do, and one unsent reminder per reminder time, in
    order, each with the task's identifier and a message that quotes
    the due-date text as given; the agent has the task appended to
    its tasks and these reminders to its reminders. *)
Theorem created_task_and_reminders (task : Task.t) (s' : PersonalAIAgent) :
  create_task_with_reminders title description due_date priority reminder_times s
  = (Return task, s') ->
  Task.id task = "task_" +:+ str_of_nat (length (tasks s) + 1)
  /\ Task.title task = title
  /\ Task.description task = description
  /\ strptime due_date "%Y-%m-%d %H:%M" = Return (Task.due_date task)
  /\ Task.status task = TODO
  /\ Forall2 (fun t r =>
                strptime t "%Y-%m-%d %H:%M" = Return (Reminder.reminder_time r)
                /\ Reminder.task_id r = Task.id task
                /\ Reminder.message r = "Reminder: " +:+ title +:+ " is due " +:+ due_date
                /\ Reminder.notification_sent r = false)
       (default [] reminder_times) (Task.reminders task)
  /\ s' = mk_agent (user_name s) (tasks s ++ [task])
            (reminders s ++ Task.reminders task) (travel_itineraries s).
Proof.
  intros Hcall.
  destruct (create_task_shape title description due_date priority reminder_times s)
    as (ds & H). cbv zeta in H. rewrite Hcall in H. cbn [fst snd] in H.
  destruct H as (d & p & Hd & _ & Hall & -> & ->). cbn.
  repeat split; try assumption.
  clear Hcall. induction Hall as [|t d' times ds Ht _ IH]; cbn [map]; constructor.
  - cbn. auto.
  - exact IH.
Qed.

(** X7: A call of [create_task_with_reminders] that does not return raises
    [ValueError] or [KeyError] on the upper-cased priority name; it
    leaves the tasks and the itineraries as they were and the earlier
    reminders in place, with any it has added behind them. *)
Theorem failed_create_task_frame (r : res Task.t) (s' : PersonalAIAgent) :
  create_task_with_reminders title description due_date priority reminder_times s
  = (r, s') ->
  (forall task, r <> Return task) ->
  (r = Raise ValueError \/ r = Raise (KeyError (upper priority)))
  /\ user_name s' = user_name s
  /\ tasks s' = tasks s
  /\ travel_itineraries s' = travel_itineraries s
  /\ exists rs, reminders s' = reminders s ++ rs.
Proof.
  intros Hcall Hfail.
  destruct (create_task_shape title description due_date priority reminder_times s)
    as (ds & H). cbv zeta in H. rewrite Hcall in H. cbn [fst snd] in H.
  destruct r as [task | e |]; [now destruct (Hfail task) | | destruct H].
  destruct H as [He ->]. cbn. split; [destruct He as [-> | ->]; auto|].
  repeat split. eauto.
Qed.

(** X8: The reminders a failed call has left behind carry the identifier
    that the next task created will receive. *)
Theorem leftover_reminders_join_next_task (e : exn) (s' s'' : PersonalAIAgent)
    (title' description' due_date' priority' : string)
    (reminder_times' : option (list string)) (task : Task.t) (rs : list Reminder.t) :
  create_task_with_reminders title description due_date priority reminder_times s
  = (Raise e, s') ->
  reminders s' = reminders s ++ rs ->
  create_task_with_reminders title' description' due_date' priority' reminder_times' s'
  = (Return task, s'') ->
  Forall (fun r => Reminder.task_id r = Task.id task) rs.
Proof.
  intros Hfail Hrs Hnext.
  destruct (create_task_shape title description due_date priority reminder_times s)
    as (ds & H). cbv zeta in H. rewrite Hfail in H. cbn [fst snd] in H.
  destruct H as [_ ->]. cbn [with_reminders reminders] in Hrs.
  apply app_inv_head in Hrs. subst rs.
  destruct (create_task_shape title' description' due_date' priority' reminder_times'
              (with_reminders s (map (new_reminder
                 ("task_" +:+ str_of_nat (length (tasks s) + 1))
                 ("Reminder: " +:+ title +:+ " is due " +:+ due_date)) ds)))
    as (ds' & H'). cbv zeta in H'. rewrite Hnext in H'. cbn [fst snd] in H'.
  destruct H' as (d & p & _ & _ & _ & -> & _). cbn [Task.id with_reminders tasks].
  apply Forall_forall. intros r Hin.
  apply list_elem_of_In, in_map_iff in Hin as (d' & <- & _). reflexivity.
Qed.

(** X9: After a task is created under an identifier that no earlier task
    has, each of its reminders later than [now] is in what
    [get_upcoming_reminders] returns, with the task's title. *)
Theorem created_reminders_are_upcoming (task : Task.t) (s' : PersonalAIAgent)
    (now : datetime) (r : Reminder.t) :
  create_task_with_reminders title description due_date priority reminder_times s
  = (Return task, s') ->
  Forall (fun t => Task.id t <> Task.id task) (tasks s) ->
  In r (Task.reminders task) ->
  datetime_gt (Reminder.reminder_time r) now = true ->
  exists result,
    fst (get_upcoming_reminders now s') = Return result
    /\ In (Upcoming.mk (Reminder.reminder_time r) title (Reminder.message r)) result.
Proof.
  intros Hcall Hfresh Hin Hgt.
  destruct (create_task_shape title description due_date priority reminder_times s)
    as (ds & H). cbv zeta in H. rewrite Hcall in H. cbn [fst snd] in H.
  destruct H as (d & p & _ & _ & _ & Htask & ->).
  assert (Htitle : Task.title task = title) by (rewrite Htask; reflexivity).
  assert (Hrs : Task.reminders task
                = map (new_reminder ("task_" +:+ str_of_nat (length (tasks s) + 1))
                         ("Reminder: " +:+ title +:+ " is due " +:+ due_date)) ds)
    by (rewrite Htask; reflexivity).
  assert (Hid : Reminder.task_id r = Task.id task).
  { rewrite Hrs in Hin. apply in_map_iff in Hin as (d' & <- & _).
    rewrite Htask. reflexivity. }
  assert (Hsent : Reminder.notification_sent r = false).
  { rewrite Hrs in Hin. apply in_map_iff in Hin as (d' & <- & _). reflexivity. }
  destruct (upcoming_contains now
              (with_task (with_reminders s (Task.reminders task)) task) r task)
    as (result & Hres & Hinres); try assumption.
  - cbn [with_task with_reminders reminders]. apply in_or_app. now right.
  - cbn [with_task with_reminders tasks]. rewrite Hid.
    exists (tasks s), []. repeat split. exact Hfresh.
  - exists result. rewrite <- Hrs. split; [exact Hres|].
    now rewrite Htitle in Hinres.
Qed.

End CreateTask.

(** ** More on the itinerary builder *)

Section BuildDays.

Variable end_date_obj : datetime.
Hypothesis end_valid : valid_datetime end_date_obj = true.
Hypothesis end_midnight : is_midnight end_date_obj = true.

(** The loop looks the override map up only under the keys of the
    dates it visits. *)
Lemma build_days_agree (activities1 activities2 : gmap string (gmap string string))
    (start_date_obj : datetime) :
  (forall x,
      valid_datetime x = true -> is_midnight x = true ->
      toordinal start_date_obj <= toordinal x <= toordinal end_date_obj ->
      activities1 !! strftime x "%Y-%m-%d" = activities2 !! strftime x "%Y-%m-%d") ->
  forall (fuel : nat) current_date acc,
    valid_datetime current_date = true ->
    is_midnight current_date = true ->
    toordinal start_date_obj <= toordinal current_date ->
    build_days fuel activities1 end_date_obj current_date acc
    = build_days fuel activities2 end_date_obj current_date acc.
Proof.
  intros Hagree. induction fuel as [|fuel IH]; intros cur acc Hv Hm Hs; cbn [build_days].
  - reflexivity.
  - destruct (datetime_le cur end_date_obj) eqn:Hle; [|reflexivity].
    rewrite datetime_le_toordinal in Hle by assumption.
    assert (Hday : travel_day activities1 cur = travel_day activities2 cur).
    { unfold travel_day, dict_get. rewrite (Hagree cur Hv Hm) by lia. reflexivity. }
    rewrite Hday. destruct (travel_day activities2 cur) as [d| |]; try reflexivity.
    cbn [res_bind].
    destruct (add_one_day_spec cur Hv) as [Hnext Hlast].
    pose proof (toordinal_range cur Hv) as Hr.
    destruct (Z.eq_dec (toordinal cur) MAXORDINAL) as [Hmax | Hnmax];
      [rewrite (Hlast Hmax); reflexivity|].
    destruct Hnext as (next & -> & Hnv & Hno & Hnm); [lia|]. cbn [res_bind].
    apply IH; [exact Hnv | congruence | lia].
Qed.

(** When the end date is 9999-12-31, the loop appends a day for each
    date and then fails to step past the last one. *)
Lemma build_days_overflow (activities : gmap string (gmap string string)) :
  toordinal end_date_obj = MAXORDINAL ->
  complete_activities activities ->
  forall (n fuel : nat) current_date acc,
    valid_datetime current_date = true ->
    is_midnight current_date = true ->
    toordinal current_date + Z.of_nat n = toordinal end_date_obj ->
    (n < fuel)%nat ->
    build_days fuel activities end_date_obj current_date acc = Raise OverflowError.
Proof.
  intros Hmax Hwf. induction n as [|n IH]; intros fuel cur acc Hv Hm Hord Hfuel.
  all: assert (Hle : datetime_le cur end_date_obj = true)
      by (rewrite datetime_le_toordinal by assumption; lia).
  all: destruct fuel as [|fuel]; [lia|]; cbn [build_days]; rewrite Hle.
  all: destruct (travel_day_complete activities cur Hwf) as (d & -> & _); cbn [res_bind].
  all: destruct (add_one_day_spec cur Hv) as [Hnext Hlast].
  - rewrite Hlast by lia. reflexivity.
  - destruct Hnext as (next & -> & Hnv & Hno & Hnm); [lia|]. cbn [res_bind].
    apply IH; [exact Hnv | congruence | lia | lia].
Qed.

End BuildDays.

Section ItineraryExtras.

Variables (destination start_date end_date : string).
Variables (hotel_info flight_info : gmap string string).
Variable s : PersonalAIAgent.

(** X10: [create_travel_itinerary] either returns an itinerary, which is
    then the one new element, at the end, of the stored itineraries,
    or does not return and leaves the agent as it was; the tasks and
    the reminders are never touched. *)
Theorem create_travel_itinerary_all_or_nothing (fuel : nat)
    (activities : gmap string (gmap string string)) :
  match fst (create_travel_itinerary fuel destination start_date end_date activities
               hotel_info flight_info s) with
  | Return itinerary =>
      snd (create_travel_itinerary fuel destination start_date end_date activities
             hotel_info flight_info s)
      = mk_agent (user_name s) (tasks s) (reminders s)
          (travel_itineraries s ++ [itinerary])
      /\ TravelItinerary.destination itinerary = destination
      /\ TravelItinerary.hotel_info itinerary = hotel_info
      /\ TravelItinerary.flight_info itinerary = flight_info
      /\ strptime start_date "%Y-%m-%d" = Return (TravelItinerary.start_date itinerary)
      /\ strptime end_date "%Y-%m-%d" = Return (TravelItinerary.end_date itinerary)
  | _ =>
      snd (create_travel_itinerary fuel destination start_date end_date activities
             hotel_info flight_info s) = s
  end.
Proof.
  unfold create_travel_itinerary, bind, lift.
  destruct (strptime start_date _) as [sd| |]; try reflexivity.
  destruct (strptime end_date _) as [ed| |]; try reflexivity.
  destruct (build_days _ _ _ _ _) as [days| |]; try reflexivity.
  cbn. repeat split.
Qed.

(** X11: In the itinerary a call returns, a date of the range that has an
    entry in the override map under the key the code prints for it,
    its [strftime] text for "%Y-%m-%d", has its day, at the index of
    its offset from the start date, with the entry's morning,
    afternoon and evening texts and the entry's notes, if it has
    any. *)
Theorem override_entry_used (fuel : nat) (activities : gmap string (gmap string string))
    (itinerary : TravelItinerary.t) (s' : PersonalAIAgent)
    (x : datetime) (entry : gmap string string) :
  create_travel_itinerary fuel destination start_date end_date activities
    hotel_info flight_info s = (Return itinerary, s') ->
  valid_datetime x = true -> is_midnight x = true ->
  datetime_le (TravelItinerary.start_date itinerary) x = true ->
  datetime_le x (TravelItinerary.end_date itinerary) = true ->
  activities !! strftime x "%Y-%m-%d" = Some entry ->
  exists morning afternoon evening,
    entry !! "morning" = Some morning
    /\ entry !! "afternoon" = Some afternoon
    /\ entry !! "evening" = Some evening
    /\ TravelItinerary.days itinerary
         !! Z.to_nat (sub_days x (TravelItinerary.start_date itinerary))
       = Some (TravelDay.mk x morning afternoon evening (entry !! "notes")).
Proof.
  intros Hcall Hxv Hxm Hsx Hxe Hentry.
  apply create_travel_itinerary_returned in Hcall as (Hs & He & Hrun & _).
  parsed_date Hs Hsv Hsm. parsed_date He Hev Hem.
  apply build_days_returned in Hrun as (days & Hdays & Hlen & Hnew); try assumption.
  cbn [app] in Hdays. rewrite Hdays. clear Hdays.
  rewrite datetime_le_toordinal in Hsx, Hxe by assumption.
  rewrite sub_days_midnight by assumption.
  set (i := Z.to_nat (toordinal x - toordinal (TravelItinerary.start_date itinerary))).
  destruct (days !! i) as [d|] eqn:Hi; [|apply lookup_ge_None in Hi; lia].
  destruct (Hnew i d Hi) as (Hd & Hdv & Hdm & Hdo).
  assert (TravelDay.date d = x) as Hx by (apply toordinal_inj; auto; lia).
  rewrite Hx in Hd. unfold travel_day, getitem, dict_get in Hd. rewrite Hentry in Hd.
  destruct (entry !! "morning") as [m|]; [|discriminate].
  destruct (entry !! "afternoon") as [a|]; [|discriminate].
  destruct (entry !! "evening") as [e|]; [|discriminate].
  cbn [res_bind] in Hd. injection Hd as <-. eauto 10.
Qed.

(** X12: Only the entries under the keys the code prints for the dates
    from the start date to the end date, their [strftime] texts for
    "%Y-%m-%d", matter: two override maps that agree on these keys
    give the same outcome, whatever else they hold. *)
Theorem entries_outside_range_ignored (fuel : nat)
    (activities1 activities2 : gmap string (gmap string string))
    (start_date_obj end_date_obj : datetime) :
  strptime start_date "%Y-%m-%d" = Return start_date_obj ->
  strptime end_date "%Y-%m-%d" = Return end_date_obj ->
  (forall x,
      valid_datetime x = true -> is_midnight x = true ->
      datetime_le start_date_obj x = true -> datetime_le x end_date_obj = true ->
      activities1 !! strftime x "%Y-%m-%d" = activities2 !! strftime x "%Y-%m-%d") ->
  create_travel_itinerary fuel destination start_date end_date activities1
    hotel_info flight_info s
  = create_travel_itinerary fuel destination start_date end_date activities2
      hotel_info flight_info s.
Proof.
  intros Hs He Hagree.
  parsed_date Hs Hsv Hsm. parsed_date He Hev Hem.
  rewrite !(create_travel_itinerary_parsed _ fuel destination start_date end_date
              hotel_info flight_info s _ _ Hs He).
  rewrite (build_days_agree end_date_obj Hev Hem activities1 activities2 start_date_obj);
    [reflexivity | | assumption | assumption | lia].
  intros x Hxv Hxm Hx. apply Hagree; try assumption.
  all: rewrite datetime_le_toordinal by assumption; lia.
Qed.

(** X13: An itinerary whose end date is 9999-12-31 is never built: with a
    start date not after it and complete override entries the call
    raises [OverflowError] and stores nothing. *)
Theorem itinerary_to_year_end_overflows (fuel : nat)
    (activities : gmap string (gmap string string)) (start_date_obj : datetime) :
  strptime start_date "%Y-%m-%d" = Return start_date_obj ->
  strptime end_date "%Y-%m-%d" = Return (mk_datetime 9999 12 31 0 0 0 0) ->
  complete_activities activities ->
  (Z.to_nat (sub_days (mk_datetime 9999 12 31 0 0 0 0) start_date_obj) < fuel)%nat ->
  create_travel_itinerary fuel destination start_date end_date activities
    hotel_info flight_info s
  = (Raise OverflowError, s).
Proof.
  intros Hs He Hwf Hfuel.
  parsed_date Hs Hsv Hsm. parsed_date He Hev Hem.
  rewrite sub_days_midnight in Hfuel by assumption.
  pose proof (toordinal_range start_date_obj Hsv) as Hr.
  change (toordinal (mk_datetime 9999 12 31 0 0 0 0)) with MAXORDINAL in Hfuel.
  rewrite (create_travel_itinerary_parsed _ fuel destination start_date end_date
             hotel_info flight_info s _ _ Hs He).
  rewrite (build_days_overflow (mk_datetime 9999 12 31 0 0 0 0) Hev Hem activities
             eq_refl Hwf (Z.to_nat (MAXORDINAL - toordinal start_date_obj)) fuel
             start_date_obj [] Hsv Hsm);
    [reflexivity | | exact Hfuel].
  change (toordinal (mk_datetime 9999 12 31 0 0 0 0)) with MAXORDINAL. lia.
Qed.

End ItineraryExtras.

(** ** The itinerary formatter *)

(** X15: [format_travel_itinerary] raises [KeyError] on the first of the keys
    departure_time, arrival_time, flight_number (of the flight
    information) and name, address, confirmation (of the hotel
    information) that is missing, and returns a text when none is,
    whatever the days are; it leaves the agent as it was. *)
Theorem format_travel_itinerary_missing_key (itinerary : TravelItinerary.t)
    (s : PersonalAIAgent) :
  match first_missing (required_info itinerary) with
  | Some key => format_travel_itinerary itinerary s = (Raise (KeyError key), s)
  | None => exists text, format_travel_itinerary itinerary s = (Return text, s)
  end.
Proof.
  unfold format_travel_itinerary, lift, itinerary_lines, required_info, getitem.
  cbv zeta. cbn [first_missing].
  destruct (TravelItinerary.flight_info itinerary !! "departure_time"); [|reflexivity].
  destruct (TravelItinerary.flight_info itinerary !! "arrival_time"); [|reflexivity].
  destruct (TravelItinerary.flight_info itinerary !! "flight_number"); [|reflexivity].
  destruct (TravelItinerary.hotel_info itinerary !! "name"); [|reflexivity].
  destruct (TravelItinerary.hotel_info itinerary !! "address"); [|reflexivity].
  destruct (TravelItinerary.hotel_info itinerary !! "confirmation"); [|reflexivity].
  cbn [res_bind]. eexists. reflexivity.
Qed.

Lemma day_lines_length (start_date : datetime) (day : TravelDay.t) :
  length (day_lines start_date day) = (4 + if has_notes day then 1 else 0)%nat.
Proof.
  unfold day_lines, notes_lines, has_notes. rewrite length_app.
  destruct (TravelDay.notes day) as [[|c text]|]; reflexivity.
Qed.

Lemma flat_map_day_lines_length (start_date : datetime) (days : list TravelDay.t) :
  length (flat_map (day_lines start_date) days)
  = (4 * length days + length (List.filter has_notes days))%nat.
Proof.
  induction days as [|d days IH]; [reflexivity|].
  cbn [flat_map List.filter]. rewrite length_app, day_lines_length, IH.
  destruct (has_notes d); cbn [length]; lia.
Qed.

(** X16: The text [format_travel_itinerary] returns is made of eleven lines
    for the heading, the flight and the hotel, four lines per day, and
    one more line for each day whose notes are a text that is not
    empty: a day with no notes or with empty notes gets no Notes line. *)
Theorem itinerary_line_count (itinerary : TravelItinerary.t) (lines : list string) :
  itinerary_lines itinerary = Return lines ->
  length lines
  = (11 + 4 * length (TravelItinerary.days itinerary)
     + length (List.filter has_notes (TravelItinerary.days itinerary)))%nat.
Proof.
  unfold itinerary_lines, getitem. cbv zeta.
  destruct (TravelItinerary.flight_info itinerary !! "departure_time"); [|discriminate].
  destruct (TravelItinerary.flight_info itinerary !! "arrival_time"); [|discriminate].
  destruct (TravelItinerary.flight_info itinerary !! "flight_number"); [|discriminate].
  destruct (TravelItinerary.hotel_info itinerary !! "name"); [|discriminate].
  destruct (TravelItinerary.hotel_info itinerary !! "address"); [|discriminate].
  destruct (TravelItinerary.hotel_info itinerary !! "confirmation"); [|discriminate].
  cbn [res_bind]. intros [= <-].
  cbn [app length]. rewrite flat_map_day_lines_length. lia.
Qed.

Lemma weekday_next (a b : datetime) (i : Z) :
  toordinal b = toordinal a + i -> weekday b = (weekday a + i) mod 7.
Proof.
  unfold weekday. intros ->.
  rewrite Zplus_mod_idemp_l. f_equal. lia.
Qed.

(** X17: In an itinerary that [create_travel_itinerary] returns, the i-th
    day (from zero) is printed under the heading "Day i+1", and its
    weekday is the weekday of the start date moved on by [i] days. *)
Theorem created_days_numbered (fuel : nat) (destination start_date end_date : string)
    (activities : gmap string (gmap string string))
    (hotel_info flight_info : gmap string string) (s s' : PersonalAIAgent)
    (itinerary : TravelItinerary.t) (i : nat) (day : TravelDay.t) :
  create_travel_itinerary fuel destination start_date end_date activities
    hotel_info flight_info s = (Return itinerary, s') ->
  TravelItinerary.days itinerary !! i = Some day ->
  head (day_lines (TravelItinerary.start_date itinerary) day)
  = Some (nl +:+ "Day " +:+ str_of_Z (Z.of_nat i + 1) +:+ ": "
          +:+ strftime_names (TravelDay.date day) "%A, %B %d")
  /\ weekday (TravelDay.date day)
     = (weekday (TravelItinerary.start_date itinerary) + Z.of_nat i) mod 7.
Proof.
  intros Hcall Hi.
  apply create_travel_itinerary_returned in Hcall as (Hs & He & Hrun & _).
  parsed_date Hs Hsv Hsm. parsed_date He Hev Hem.
  apply build_days_returned in Hrun as (days & Hdays & _ & Hnew); try assumption.
  cbn [app] in Hdays. rewrite Hdays in Hi.
  destruct (Hnew i day Hi) as (_ & Hdv & Hdm & Hdo).
  split.
  - unfold day_lines. cbn [app head].
    rewrite sub_days_midnight by assumption.
    replace (toordinal (TravelDay.date day)
             - toordinal (TravelItinerary.start_date itinerary) + 1)
      with (Z.of_nat i + 1) by lia.
    reflexivity.
  - now apply weekday_next.
Qed.

(** ** The email templates *)

Lemma format_scan_tokens (kwargs : gmap string string) (s : string) :
  forall st out,
    format_scan kwargs st out s = render_tokens kwargs out (format_tokens st s).
Proof.
  induction s as [|c s IH]; intros st out; cbn [format_scan format_tokens].
  - destruct st; reflexivity.
  - destruct st as [| | name |].
    + destruct (is_char "{" c); [apply IH|].
      destruct (is_char "}" c); [apply IH|]. cbn [render_tokens]. apply IH.
    + destruct (is_char "{" c); [cbn [render_tokens]; apply IH|].
      destruct (is_char "}" c); [reflexivity|].
      destruct (is_name_char c); [apply IH | reflexivity].
    + destruct (is_char "}" c).
      * destruct (all_digits name); [reflexivity|]. cbn [render_tokens].
        destruct (kwargs !! name); [apply IH | reflexivity].
      * destruct (is_name_char c); [apply IH | reflexivity].
    + destruct (is_char "}" c); [cbn [render_tokens]; apply IH | reflexivity].
Qed.

(** Plain tokens render when every field has an argument. *)
Lemma render_plain_present (kwargs : gmap string string) (tokens : list format_token) :
  plain_tokens tokens = true ->
  Forall (fun name => is_Some (kwargs !! name)) (token_fields tokens) ->
  forall out, exists text, render_tokens kwargs out tokens = Some (Return text).
Proof.
  induction tokens as [|t tokens IH]; intros Hplain Hall out; cbn [render_tokens].
  - eauto.
  - destruct t as [c | name | e |]; cbn [plain_tokens token_fields] in *; try discriminate.
    + apply IH; assumption.
    + apply Forall_cons in Hall as [[v Hv] Hall]. rewrite Hv. apply IH; assumption.
Qed.

(** Plain tokens with a field that has no argument raise [KeyError]. *)
Lemma render_plain_missing (kwargs : gmap string string) (tokens : list format_token)
    (name : string) :
  plain_tokens tokens = true ->
  In name (token_fields tokens) ->
  kwargs !! name = None ->
  forall out, exists key, render_tokens kwargs out tokens = Some (Raise (KeyError key)).
Proof.
  induction tokens as [|t tokens IH]; intros Hplain Hin Hnone out; cbn [render_tokens].
  - destruct Hin.
  - destruct t as [c | name' | e |]; cbn [plain_tokens token_fields] in *; try discriminate.
    + apply IH; assumption.
    + destruct (kwargs !! name') as [v|] eqn:Hv; [|eauto].
      destruct Hin as [-> | Hin]; [congruence|]. apply IH; assumption.
Qed.

Lemma get_email_templates_cases (name : string) (template : EmailTemplate.t) :
  get_email_templates !! name = Some template ->
  template = EmailTemplate.mk "Follow-up on Our {meeting_type} Meeting"
               meeting_followup_content
               ["meeting_type"; "recipient_name"; "meeting_time"; "topics_discussed";
                "action_items"; "next_steps"; "sender_name"]
  \/ template = EmailTemplate.mk "Project Update: {project_name}"
                  project_update_content
                  ["project_name"; "recipient_name"; "project_status"; "achievements";
                   "next_steps"; "timeline"; "sender_name"].
Proof.
  unfold get_email_templates. intros H.
  apply lookup_insert_Some in H as [[_ <-] | [_ H]]; [left; reflexivity|].
  apply lookup_singleton_Some in H as [_ <-]. right; reflexivity.
Qed.

(** The fields of a template's subject and content are plain keyword
    fields, and together they are the placeholders the template lists. *)
Lemma template_fields (name : string) (template : EmailTemplate.t) :
  get_email_templates !! name = Some template ->
  let subject := format_tokens InText (EmailTemplate.subject template) in
  let content := format_tokens InText (EmailTemplate.content template) in
  plain_tokens subject = true
  /\ plain_tokens content = true
  /\ (forall field,
        In field (token_fields subject ++ token_fields content)
        <-> In field (EmailTemplate.placeholders template)).
Proof.
  intros H. apply get_email_templates_cases in H as [-> | ->]; cbv zeta.
  all: split; [vm_compute; reflexivity|]; split; [vm_compute; reflexivity|].
  all: intros field.
  all: match goal with
       | |- In _ ?l <-> _ =>
           let l' := eval vm_compute in l in change l with l'
       end.
  all: cbn [EmailTemplate.placeholders In]; tauto.
Qed.

(** X18: For each of the two templates and any keyword arguments, formatting
    the subject and the content both return a text exactly when every
    placeholder the template lists has an argument; when one has none,
    one of the two raises [KeyError]. *)
Theorem template_formats_iff_placeholders (name : string) (template : EmailTemplate.t)
    (kwargs : gmap string string) :
  get_email_templates !! name = Some template ->
  ((exists subject content,
       str_format (EmailTemplate.subject template) kwargs = Some (Return subject)
       /\ str_format (EmailTemplate.content template) kwargs = Some (Return content))
   <-> Forall (fun p => is_Some (kwargs !! p)) (EmailTemplate.placeholders template))
  /\ (forall p,
        In p (EmailTemplate.placeholders template) -> kwargs !! p = None ->
        (exists key,
            str_format (EmailTemplate.subject template) kwargs = Some (Raise (KeyError key)))
        \/ (exists key,
            str_format (EmailTemplate.content template) kwargs = Some (Raise (KeyError key)))).
Proof.
  intros Htemplate.
  destruct (template_fields name template Htemplate) as (Hps & Hpc & Hfields).
  unfold str_format. rewrite !format_scan_tokens.
  set (ts := format_tokens InText (EmailTemplate.subject template)) in *.
  set (tc := format_tokens InText (EmailTemplate.content template)) in *.
  assert (Hmissing : forall p,
             In p (EmailTemplate.placeholders template) -> kwargs !! p = None ->
             (exists key, render_tokens kwargs "" ts = Some (Raise (KeyError key)))
             \/ (exists key, render_tokens kwargs "" tc = Some (Raise (KeyError key)))).
  { intros p Hp Hnone. apply Hfields, in_app_or in Hp as [Hp | Hp].
    - left. now apply (render_plain_missing kwargs ts p).
    - right. now apply (render_plain_missing kwargs tc p). }
  split; [split|exact Hmissing].
  - intros (subject & content & Hs & Hc).
    apply Forall_forall. intros p Hp. apply list_elem_of_In in Hp.
    destruct (kwargs !! p) as [v|] eqn:Hv; [eauto|].
    destruct (Hmissing p Hp Hv) as [[key Hk] | [key Hk]]; congruence.
  - intros Hall. rewrite Forall_forall in Hall.
    destruct (render_plain_present kwargs ts Hps) with (out := "") as [subject Hs].
    { apply Forall_forall. intros f Hf. apply Hall, list_elem_of_In, Hfields.
      apply in_or_app. left. now apply list_elem_of_In. }
    destruct (render_plain_present kwargs tc Hpc) with (out := "") as [content Hc].
    { apply Forall_forall. intros f Hf. apply Hall, list_elem_of_In, Hfields.
      apply in_or_app. right. now apply list_elem_of_In. }
    eauto.
Qed.

(** ** The daily schedule *)

(** X19: The tasks listed as due today are those whose due date prints, with
    "%Y-%m-%d", the date text of the schedule's heading, whatever their
    time of day. *)
Theorem today_tasks_by_date_text (today : datetime) (tasks : list Task.t) (task : Task.t) :
  valid_datetime today = true ->
  valid_datetime (Task.due_date task) = true ->
  In task (today_tasks today tasks)
  <-> In task tasks
      /\ strftime (Task.due_date task) "%Y-%m-%d" = strftime today "%Y-%m-%d".
Proof.
  intros Hv Hd. unfold today_tasks. rewrite filter_In, same_date_spec.
  split; intros [Hin H]; (split; [exact Hin|]).
  - destruct H as (Hy & Hm & Hday). rewrite !strftime_date. now rewrite Hy, Hm, Hday.
  - now apply strftime_date_inj.
Qed.

Lemma today_tasks_by_date_text_witness :
  let task := Task.mk "task_1" "Review" "Prepare" (mk_datetime 2025 2 15 14 0 0 0)
                HIGH TODO [] in
  In task (today_tasks (mk_datetime 2025 2 15 8 30 12 0) [task]).
Proof.
  cbv zeta.
  apply (today_tasks_by_date_text (mk_datetime 2025 2 15 8 30 12 0)); try reflexivity.
  split; [now left | reflexivity].
Defined.

Lemma same_date_today_tasks (today today' : datetime) (tasks : list Task.t) :
  same_date today today' = true -> today_tasks today tasks = today_tasks today' tasks.
Proof.
  intros H. apply same_date_spec in H as (Hy & Hm & Hd).
  unfold today_tasks, same_date. now rewrite Hy, Hm, Hd.
Qed.

(** X20: The heading and the task lines [print_daily_schedule] prints,
    down to the line "Upcoming Reminders:", depend on the clock only
    through its calendar date: run at two times of one day, with the
    clock read anew for the reminders each time, the method prints these
    lines alike; only the reminder lines after them can differ. *)
Theorem schedule_listing_depends_on_date_only (today now today' now' : datetime)
    (s : PersonalAIAgent) :
  same_date today today' = true ->
  let listing :=
    [nl +:+ "Today's Schedule (" +:+ strftime today "%Y-%m-%d" +:+ "):"]
    ++ match today_tasks today (tasks s) with
       | [] => ["No tasks scheduled for today"]
       | due => map task_line due
       end
    ++ [nl +:+ "Upcoming Reminders:"] in
  exists reminder_lines reminder_lines',
    print_daily_schedule today now s = (Return (listing ++ reminder_lines), s)
    /\ print_daily_schedule today' now' s = (Return (listing ++ reminder_lines'), s).
Proof.
  intros H. cbv zeta. unfold print_daily_schedule, bind, get, ret, get_upcoming_reminders.
  rewrite <- (same_date_today_tasks today today' (tasks s) H).
  apply same_date_spec in H as (Hy & Hm & Hd).
  rewrite (strftime_date today'), <- Hy, <- Hm, <- Hd, <- (strftime_date today).
  eexists _, _. split.
  - rewrite <- !app_assoc. reflexivity.
  - rewrite <- !app_assoc. reflexivity.
Qed.

Lemma schedule_listing_depends_on_date_only_witness :
  let listing :=
    [nl +:+ "Today's Schedule (2025-02-15):"; "- 14:00 - Quarterly Review (High)";
     nl +:+ "Upcoming Reminders:"] in
  exists reminder_lines reminder_lines',
    print_daily_schedule (mk_datetime 2025 2 15 8 30 0 0) (mk_datetime 2025 2 15 8 30 0 0)
      review_agent
    = (Return (listing ++ reminder_lines), review_agent)
    /\ print_daily_schedule (mk_datetime 2025 2 15 23 59 0 0)
         (mk_datetime 2025 2 15 23 59 0 0) review_agent
       = (Return (listing ++ reminder_lines'), review_agent).
Proof.
  cbv zeta.
  destruct (schedule_listing_depends_on_date_only
              (mk_datetime 2025 2 15 8 30 0 0) (mk_datetime 2025 2 15 8 30 0 0)
              (mk_datetime 2025 2 15 23 59 0 0) (mk_datetime 2025 2 15 23 59 0 0)
              review_agent)
    as (r & r' & H1 & H2); [reflexivity|].
  exists r, r'. split; [exact H1 | exact H2].
Defined.

(** The reminder lines of these two runs: the reminder of 10:00 is
    still to come at 08:30 and is past at 23:59. *)
Example schedule_morning_and_night :
  fst (print_daily_schedule (mk_datetime 2025 2 15 8 30 0 0) (mk_datetime 2025 2 15 8 30 0 0)
         review_agent)
  = Return [nl +:+ "Today's Schedule (2025-02-15):"; "- 14:00 - Quarterly Review (High)";
            nl +:+ "Upcoming Reminders:"; "- 2025-02-15 10:00 - Quarterly Review"]
  /\ fst (print_daily_schedule (mk_datetime 2025 2 15 23 59 0 0)
            (mk_datetime 2025 2 15 23 59 0 0) review_agent)
     = Return [nl +:+ "Today's Schedule (2025-02-15):"; "- 14:00 - Quarterly Review (High)";
               nl +:+ "Upcoming Reminders:"; "No upcoming reminders"].
Proof. split; vm_compute; reflexivity. Qed.

(** X21: A task just created whose due date falls on today's calendar date
    is printed in the schedule, as its zero-padded time, its title and
    the display value of its priority; the schedule leaves the agent as
    it was. *)
Theorem created_task_in_schedule (title description due_date priority : string)
    (reminder_times : option (list string)) (s s' : PersonalAIAgent) (task : Task.t)
    (today now : datetime) :
  create_task_with_reminders title description due_date priority reminder_times s
  = (Return task, s') ->
  same_date (Task.due_date task) today = true ->
  exists printed,
    print_daily_schedule today now s' = (Return printed, s')
    /\ In ("- " +:+ strftime (Task.due_date task) "%H:%M" +:+ " - " +:+ title
           +:+ " (" +:+ TaskPriority_value (Task.priority task) +:+ ")") printed.
Proof.
  intros Hcall Hdate.
  pose proof (create_task_tasks title description due_date priority reminder_times s) as Ht.
  pose proof (create_task_outcome title description due_date priority reminder_times s)
    as Ho.
  rewrite Hcall in Ht. destruct Ht as [Htasks _].
  assert (Htitle : Task.title task = title).
  { cbv zeta in Ho. destruct (strptime due_date _); rewrite Hcall in Ho; try discriminate.
    destruct Ho as (rs & Ho & _).
    destruct (fst (add_reminders _ _ _ _ _)); [|discriminate|discriminate].
    destruct Ho as [Ho _]. destruct (TaskPriority_getitem _); try discriminate.
    now injection Ho as -> _. }
  unfold print_daily_schedule, bind, get, ret, get_upcoming_reminders.
  eexists. split; [reflexivity|].
  apply in_or_app. right. apply in_or_app. left.
  assert (Hin : In task (today_tasks today (tasks s'))).
  { unfold today_tasks. apply filter_In. split; [|exact Hdate].
    rewrite Htasks. apply in_or_app. right. now left. }
  destruct (today_tasks today (tasks s')) as [|t0 due]; [destruct Hin|].
  rewrite <- Htitle. apply (in_map task_line _ task) in Hin. exact Hin.
Qed.

Lemma created_task_in_schedule_witness :
  exists printed,
    fst (print_daily_schedule (mk_datetime 2025 2 15 8 30 0 0) (mk_datetime 2025 2 15 8 30 0 0)
           (snd (create_task_with_reminders "Quarterly Review" "Prepare the review"
                   "2025-02-15 14:00" "high" None (init "John Doe"))))
    = Return printed
    /\ In "- 14:00 - Quarterly Review (High)" printed.
Proof.
  destruct (created_task_in_schedule "Quarterly Review" "Prepare the review"
              "2025-02-15 14:00" "high" None (init "John Doe")
              (snd (create_task_with_reminders "Quarterly Review" "Prepare the review"
                      "2025-02-15 14:00" "high" None (init "John Doe")))
              (Task.mk "task_1" "Quarterly Review" "Prepare the review"
                 (mk_datetime 2025 2 15 14 0 0 0) HIGH TODO [])
              (mk_datetime 2025 2 15 8 30 0 0) (mk_datetime 2025 2 15 8 30 0 0))
    as (printed & Hp & Hin).
  - vm_compute. reflexivity.
  - reflexivity.
  - exists printed. rewrite Hp. split; [reflexivity | exact Hin].
Defined.

(** ** The reminder query as time passes *)

Lemma lex_compare_le_lt_trans (a : list Z) :
  forall b c,
    lex_compare a b <> Gt -> lex_compare b c = Lt -> lex_compare a c = Lt.
Proof.
  induction a as [|x a IH]; intros [|y b] [|z c]; cbn [lex_compare];
    try congruence.
  destruct (Z.compare_spec x y), (Z.compare_spec y z), (Z.compare_spec x z);
    try congruence; try lia; intros Gab Gbc; try congruence.
  now apply (IH b c).
Qed.

Lemma lex_compare_lt_le_trans (a : list Z) :
  forall b c,
    lex_compare a b = Lt -> lex_compare b c <> Gt -> lex_compare a c = Lt.
Proof.
  induction a as [|x a IH]; intros [|y b] [|z c]; cbn [lex_compare];
    try congruence.
  destruct (Z.compare_spec x y), (Z.compare_spec y z), (Z.compare_spec x z);
    try congruence; try lia; intros Gab Gbc; try congruence.
  now apply (IH b c).
Qed.

Lemma datetime_gt_lt (a b : datetime) : datetime_gt a b = datetime_lt b a.
Proof.
  unfold datetime_gt, datetime_lt, datetime_compare.
  rewrite (lex_compare_antisym (datetime_key a) (datetime_key b)).
  destruct (lex_compare (datetime_key a) (datetime_key b)); reflexivity.
Qed.

Lemma datetime_lt_spec (a b : datetime) :
  datetime_lt a b = true <-> lex_compare (datetime_key a) (datetime_key b) = Lt.
Proof.
  unfold datetime_lt, datetime_compare.
  destruct (lex_compare _ _); split; congruence.
Qed.

Lemma datetime_le_spec (a b : datetime) :
  datetime_le a b = true <-> lex_compare (datetime_key a) (datetime_key b) <> Gt.
Proof.
  unfold datetime_le, datetime_compare.
  destruct (lex_compare _ _); split; congruence.
Qed.

Lemma datetime_le_lt_trans (a b c : datetime) :
  datetime_le a b = true -> datetime_lt b c = true -> datetime_lt a c = true.
Proof.
  rewrite datetime_le_spec, !datetime_lt_spec. apply lex_compare_le_lt_trans.
Qed.

Lemma datetime_lt_le_trans (a b c : datetime) :
  datetime_lt a b = true -> datetime_le b c = true -> datetime_lt a c = true.
Proof.
  rewrite datetime_le_spec, !datetime_lt_spec. apply lex_compare_lt_le_trans.
Qed.

Lemma datetime_le_trans (a b c : datetime) :
  datetime_le a b = true -> datetime_le b c = true -> datetime_le a c = true.
Proof.
  intros Hab Hbc. destruct (datetime_lt c a) eqn:Hca.
  - pose proof (datetime_lt_le_trans c a b Hca Hab) as Hcb.
    apply datetime_lt_not_le in Hcb. congruence.
  - now apply datetime_not_lt_le.
Qed.

Section StableSortFilter.

Context {A : Type} (key : A -> datetime) (P : A -> bool).

Let le (a b : A) : Prop := datetime_le (key a) (key b) = true.

Lemma insert_by_front (x : A) (l : list A) :
  match l with
  | [] => True
  | y :: _ => datetime_lt (key y) (key x) = false
  end ->
  insert_by key x l = x :: l.
Proof. destruct l as [|y l]; cbn [insert_by]; [reflexivity | now intros ->]. Qed.

Lemma filter_head_ge (x y : A) (l : list A) :
  datetime_lt (key y) (key x) = false ->
  Forall (le y) l ->
  match List.filter P (y :: l) with
  | [] => True
  | z :: _ => datetime_lt (key z) (key x) = false
  end.
Proof.
  intros Hyx Hl.
  assert (Hall : Forall (fun z => datetime_lt (key z) (key x) = false)
                   (List.filter P (y :: l))).
  { apply Forall_forall. intros z Hz.
    apply list_elem_of_In, filter_In in Hz as [[<- | Hz] _]; [exact Hyx|].
    rewrite Forall_forall in Hl. specialize (Hl z (proj2 (list_elem_of_In _ _) Hz)).
    destruct (datetime_lt (key z) (key x)) eqn:Hzx; [|reflexivity].
    pose proof (datetime_le_lt_trans _ _ _ Hl Hzx). congruence. }
  destruct (List.filter P (y :: l)); [exact I | now inversion Hall].
Qed.

(** Filtering commutes with an insertion into a sorted list. *)
Lemma filter_insert_by (x : A) (l : list A) :
  StronglySorted le l ->
  List.filter P (insert_by key x l)
  = if P x then insert_by key x (List.filter P l) else List.filter P l.
Proof.
  induction 1 as [|y l Hs IH Hy].
  - cbn. destruct (P x); reflexivity.
  - cbn [insert_by]. destruct (datetime_lt (key y) (key x)) eqn:Hyx.
    + cbn [List.filter]. rewrite IH.
      destruct (P x), (P y); cbn [insert_by]; rewrite ?Hyx; reflexivity.
    + pose proof (filter_head_ge x y l Hyx Hy) as Hhd.
      change (List.filter P (x :: y :: l))
        with (if P x then x :: List.filter P (y :: l) else List.filter P (y :: l)).
      destruct (P x); [|reflexivity].
      symmetry. apply insert_by_front. exact Hhd.
Qed.

Lemma sorted_strongly (l : list A) : StronglySorted le (sorted key l).
Proof.
  apply Sorted_StronglySorted.
  - intros a b c. apply datetime_le_trans.
  - apply sorted_sorted.
Qed.

(** A stable sort commutes with filtering. *)
Lemma filter_sorted (l : list A) :
  List.filter P (sorted key l) = sorted key (List.filter P l).
Proof.
  induction l as [|x l IH]; [reflexivity|].
  cbn [sorted List.filter]. rewrite filter_insert_by by apply sorted_strongly.
  rewrite IH. destruct (P x); reflexivity.
Qed.

(** In a sorted list, the elements of a set closed under going up are
    a suffix. *)
Lemma sorted_upper_suffix (l : list A) :
  (forall a b, le a b -> P a = true -> P b = true) ->
  StronglySorted le l ->
  l = List.filter (fun a => negb (P a)) l ++ List.filter P l.
Proof.
  intros Hup. induction 1 as [|x l Hs IH Hx]; [reflexivity|].
  cbn [List.filter]. destruct (P x) eqn:Hpx; cbn [negb app].
  - assert (Hall : forall z, In z l -> P z = true).
    { intros z Hz. rewrite Forall_forall in Hx.
      apply (Hup x z); [apply Hx; now apply list_elem_of_In | exact Hpx]. }
    assert (List.filter (fun a => negb (P a)) l = []) as ->.
    { clear IH Hs Hx. induction l as [|z l IHl]; [reflexivity|].
      cbn [List.filter]. rewrite (Hall z) by now left. cbn [negb].
      apply IHl. intros w Hw. apply Hall. now right. }
    assert (List.filter P l = l) as ->; [|reflexivity].
    clear IH Hs Hx. induction l as [|z l IHl]; [reflexivity|].
    cbn [List.filter]. rewrite (Hall z) by now left. f_equal.
    apply IHl. intros w Hw. apply Hall. now right.
  - f_equal. exact IH.
Qed.

End StableSortFilter.

Lemma selection_later (now now' : datetime) (tasks : list Task.t) (rs : list Reminder.t) :
  datetime_le now now' = true ->
  selection now' tasks rs
  = List.filter (fun p => datetime_gt (Reminder.reminder_time (fst p)) now')
      (selection now tasks rs).
Proof.
  intros Hle. induction rs as [|r rs IH]; [reflexivity|]. cbn [selection].
  destruct (datetime_gt (Reminder.reminder_time r) now') eqn:Hgt'.
  - assert (Hgt : datetime_gt (Reminder.reminder_time r) now = true).
    { rewrite datetime_gt_lt in *. now apply (datetime_le_lt_trans _ now'). }
    rewrite Hgt. destruct (negb _); cbn [andb]; [|exact IH].
    destruct (find_task tasks (Reminder.task_id r)); [|exact IH].
    cbn [List.filter fst]. rewrite Hgt'. now rewrite IH.
  - rewrite andb_false_r.
    destruct (negb _ && _); [|exact IH].
    destruct (find_task tasks (Reminder.task_id r)); [|exact IH].
    cbn [List.filter fst]. rewrite Hgt'. exact IH.
Qed.

Lemma map_filter_record (now' : datetime) (sel : list (Reminder.t * Task.t)) :
  map upcoming_record
    (List.filter (fun p => datetime_gt (Reminder.reminder_time (fst p)) now') sel)
  = List.filter (fun u => datetime_gt (Upcoming.time u) now') (map upcoming_record sel).
Proof.
  induction sel as [|p sel IH]; [reflexivity|]. cbn [List.filter map].
  change (Upcoming.time (upcoming_record p)) with (Reminder.reminder_time (fst p)).
  destruct (datetime_gt _ now'); cbn [map]; now rewrite IH.
Qed.

(** X22: As time passes, reminders only drop off the front of the list: for
    [now] not after [now'], what [get_upcoming_reminders] returns at
    [now] is what it returns at [now'] preceded by the records whose
    time is not later than [now']. *)
Theorem upcoming_later_is_suffix (now now' : datetime) (s : PersonalAIAgent) :
  datetime_le now now' = true ->
  exists dropped earlier later,
    fst (get_upcoming_reminders now s) = Return earlier
    /\ fst (get_upcoming_reminders now' s) = Return later
    /\ earlier = dropped ++ later
    /\ Forall (fun u => datetime_le (Upcoming.time u) now' = true) dropped.
Proof.
  intros Hle. rewrite !upcoming_result.
  set (l := map upcoming_record (selection now (tasks s) (reminders s))).
  set (P := fun u => datetime_gt (Upcoming.time u) now').
  exists (List.filter (fun u => negb (P u)) (sorted Upcoming.time l)),
    (sorted Upcoming.time l),
    (sorted Upcoming.time (map upcoming_record (selection now' (tasks s) (reminders s)))).
  split; [reflexivity|]. split; [reflexivity|]. split.
  - rewrite (selection_later now now') by exact Hle.
    rewrite map_filter_record. fold l. fold P.
    rewrite <- filter_sorted.
    apply (sorted_upper_suffix Upcoming.time P); [|apply sorted_strongly].
    intros a b Hab Ha. unfold P in *. rewrite datetime_gt_lt in *.
    now apply (datetime_lt_le_trans _ (Upcoming.time a)).
  - apply Forall_forall. intros u Hu.
    apply list_elem_of_In, filter_In in Hu as [_ Hu]. unfold P in Hu.
    apply negb_true_iff in Hu. rewrite datetime_gt_lt in Hu.
    now apply datetime_not_lt_le.
Qed.

(** ** The statements at concrete inputs *)

Lemma demo_call :
  create_task_with_reminders "Quarterly Review Presentation"
    "Prepare and deliver Q1 review presentation" "2025-02-15 14:00" "HIGH"
    (Some ["2025-02-14 10:00"; "2025-02-15 09:00"]) (init "John Doe")
  = (Return demo_task, demo_agent).
Proof. vm_compute. reflexivity. Qed.

Lemma dangling_reminder_not_upcoming_witness :
  fst (get_upcoming_reminders (mk_datetime 2025 2 14 0 0 0 0)
         (snd (add_reminder "task_7" "2025-02-16 09:00" "call back" demo_agent)))
  = fst (get_upcoming_reminders (mk_datetime 2025 2 14 0 0 0 0) demo_agent).
Proof.
  apply (dangling_reminder_not_upcoming "task_7" "2025-02-16 09:00" "call back" demo_agent
           (mk_datetime 2025 2 14 0 0 0 0)).
  repeat constructor. discriminate.
Defined.

Lemma added_reminder_is_upcoming_witness :
  exists result,
    fst (get_upcoming_reminders (mk_datetime 2025 2 14 0 0 0 0)
           (snd (add_reminder "task_1" "2025-02-16 09:00" "call back" demo_agent)))
    = Return result
    /\ In (Upcoming.mk (mk_datetime 2025 2 16 9 0 0 0) "Quarterly Review Presentation"
             "call back") result.
Proof.
  apply (added_reminder_is_upcoming "task_1" "2025-02-16 09:00" "call back" demo_agent
           (mk_datetime 2025 2 14 0 0 0 0) (mk_datetime 2025 2 16 9 0 0 0) demo_task).
  - vm_compute. reflexivity.
  - reflexivity.
  - exists [], []. repeat split. constructor.
Defined.

Lemma created_task_and_reminders_witness :
  Task.id demo_task = "task_1"
  /\ length (Task.reminders demo_task) = 2%nat
  /\ demo_agent = mk_agent "John Doe" [demo_task] (Task.reminders demo_task) [].
Proof.
  destruct (created_task_and_reminders "Quarterly Review Presentation"
              "Prepare and deliver Q1 review presentation" "2025-02-15 14:00" "HIGH"
              (Some ["2025-02-14 10:00"; "2025-02-15 09:00"]) (init "John Doe")
              demo_task demo_agent demo_call)
    as (Hid & _ & _ & _ & _ & Hrs & Hs).
  split; [exact Hid|]. split; [|exact Hs].
  apply Forall2_length in Hrs. rewrite <- Hrs. reflexivity.
Defined.

Lemma failed_create_task_frame_witness :
  tasks (snd (create_task_with_reminders "Quarterly Review" "Prepare the review"
                "2025-02-15 14:00" "URGENT" (Some ["2025-02-14 10:00"]) demo_agent))
  = tasks demo_agent.
Proof.
  destruct (failed_create_task_frame "Quarterly Review" "Prepare the review"
              "2025-02-15 14:00" "URGENT" (Some ["2025-02-14 10:00"]) demo_agent
              (Raise (KeyError "URGENT"))
              (snd (create_task_with_reminders "Quarterly Review" "Prepare the review"
                      "2025-02-15 14:00" "URGENT" (Some ["2025-02-14 10:00"]) demo_agent)))
    as (_ & _ & Ht & _).
  - vm_compute. reflexivity.
  - discriminate.
  - exact Ht.
Defined.

Lemma leftover_reminders_join_next_task_witness :
  Forall (fun r => Reminder.task_id r = "task_1")
    [Reminder.mk "task_1" (mk_datetime 2025 2 14 10 0 0 0) false
       "Reminder: Quarterly Review is due 2025-02-15 14:00"].
Proof.
  apply (leftover_reminders_join_next_task "Quarterly Review" "Prepare the review"
           "2025-02-15 14:00" "URGENT" (Some ["2025-02-14 10:00"]) (init "John Doe")
           (KeyError "URGENT")
           (mk_agent "John Doe" []
              [Reminder.mk "task_1" (mk_datetime 2025 2 14 10 0 0 0) false
                 "Reminder: Quarterly Review is due 2025-02-15 14:00"] [])
           (mk_agent "John Doe"
              [Task.mk "task_1" "Plan" "Plan the week" (mk_datetime 2025 3 1 9 0 0 0)
                 LOW TODO []]
              [Reminder.mk "task_1" (mk_datetime 2025 2 14 10 0 0 0) false
                 "Reminder: Quarterly Review is due 2025-02-15 14:00"] [])
           "Plan" "Plan the week" "2025-03-01 09:00" "low" None
           (Task.mk "task_1" "Plan" "Plan the week" (mk_datetime 2025 3 1 9 0 0 0)
              LOW TODO [])).
  - vm_compute. reflexivity.
  - reflexivity.
  - vm_compute. reflexivity.
Defined.

Lemma created_reminders_are_upcoming_witness :
  exists result,
    fst (get_upcoming_reminders (mk_datetime 2025 2 14 0 0 0 0) demo_agent) = Return result
    /\ In (Upcoming.mk (mk_datetime 2025 2 15 9 0 0 0) "Quarterly Review Presentation"
             "Reminder: Quarterly Review Presentation is due 2025-02-15 14:00") result.
Proof.
  apply (created_reminders_are_upcoming "Quarterly Review Presentation"
           "Prepare and deliver Q1 review presentation" "2025-02-15 14:00" "HIGH"
           (Some ["2025-02-14 10:00"; "2025-02-15 09:00"]) (init "John Doe")
           demo_task demo_agent (mk_datetime 2025 2 14 0 0 0 0)
           (demo_reminder (mk_datetime 2025 2 15 9 0 0 0)) demo_call).
  - constructor.
  - right. left. reflexivity.
  - reflexivity.
Defined.

Lemma override_entry_used_witness :
  exists morning afternoon evening,
    TravelItinerary.days demo_itinerary !! 0%nat
    = Some (TravelDay.mk (march 15) morning afternoon evening
              (Some "Hotel check-in after 3 PM")).
Proof.
  destruct (override_entry_used "New York" "2025-03-15" "2025-03-16" ∅ ∅ (init "John Doe")
              5 demo_activities demo_itinerary
              (mk_agent "John Doe" [] [] [demo_itinerary]) (march 15)
              {[ "morning" := "Arrive in New York and check into hotel";
                 "afternoon" := "Explore Times Square and surrounding area";
                 "evening" := "Broadway show: The Lion King";
                 "notes" := "Hotel check-in after 3 PM" ]})
    as (m & a & e & _ & _ & _ & Hday).
  - vm_compute. reflexivity.
  - reflexivity.
  - reflexivity.
  - reflexivity.
  - reflexivity.
  - vm_compute. reflexivity.
  - exists m, a, e. exact Hday.
Defined.

Lemma entries_outside_range_ignored_witness :
  create_travel_itinerary 5 "New York" "2025-03-17" "2025-03-19" broken_activities ∅ ∅
    (init "John Doe")
  = create_travel_itinerary 5 "New York" "2025-03-17" "2025-03-19" ∅ ∅ ∅ (init "John Doe").
Proof.
  apply (entries_outside_range_ignored "New York" "2025-03-17" "2025-03-19" ∅ ∅
           (init "John Doe") 5 broken_activities ∅ (march 17) (march 19)).
  - vm_compute. reflexivity.
  - vm_compute. reflexivity.
  - intros x Hxv Hxm Hlo Hhi.
    rewrite lookup_empty. unfold broken_activities.
    apply lookup_singleton_None. intros Hkey.
    assert (Hk : "2025-03-16" = strftime (march 16) "%Y-%m-%d") by reflexivity.
    rewrite Hk in Hkey.
    apply strftime_date_inj in Hkey as (Hy & Hm & Hd); [|reflexivity | exact Hxv].
    rewrite datetime_le_toordinal in Hlo by (try reflexivity; assumption).
    assert (x = march 16) as ->.
    { apply is_midnight_spec in Hxm as (? & ? & ? & ?).
      destruct x; cbn in *; subst; reflexivity. }
    change (toordinal (march 17)) with 739327 in Hlo.
    change (toordinal (march 16)) with 739326 in Hlo. lia.
Defined.

Lemma itinerary_to_year_end_overflows_witness :
  create_travel_itinerary 5 "Paris" "9999-12-29" "9999-12-31" demo_activities ∅ ∅
    (init "John Doe")
  = (Raise OverflowError, init "John Doe").
Proof.
  apply (itinerary_to_year_end_overflows "Paris" "9999-12-29" "9999-12-31" ∅ ∅
           (init "John Doe") 5 demo_activities (mk_datetime 9999 12 29 0 0 0 0)).
  - vm_compute. reflexivity.
  - vm_compute. reflexivity.
  - intros key entry Hk. unfold demo_activities in Hk.
    apply lookup_singleton_Some in Hk as [_ <-].
    unfold complete_entry, required_slots. repeat constructor; vm_compute; eauto.
  - vm_compute. lia.
Defined.

Lemma itinerary_line_count_witness :
  exists lines,
    itinerary_lines
      (TravelItinerary.mk "New York" (march 15) (march 16)
         (TravelItinerary.days demo_itinerary) demo_hotel_info demo_flight_info)
    = Return lines
    /\ length lines = 20%nat.
Proof.
  destruct (itinerary_lines
              (TravelItinerary.mk "New York" (march 15) (march 16)
                 (TravelItinerary.days demo_itinerary) demo_hotel_info demo_flight_info))
    as [lines | e |] eqn:Hlines; [| vm_compute in Hlines; discriminate
                                  | vm_compute in Hlines; discriminate].
  exists lines. split; [reflexivity|].
  rewrite (itinerary_line_count _ lines Hlines). reflexivity.
Defined.

Lemma created_days_numbered_witness :
  weekday (march 16) = (weekday (march 15) + 1) mod 7.
Proof.
  apply (created_days_numbered 5 "New York" "2025-03-15" "2025-03-16" demo_activities ∅ ∅
           (init "John Doe") (mk_agent "John Doe" [] [] [demo_itinerary]) demo_itinerary
           1 (TravelDay.mk (march 16) "Free time" "Free time" "Free time" None)).
  - vm_compute. reflexivity.
  - reflexivity.
Defined.

Lemma template_formats_iff_placeholders_witness :
  exists subject,
    str_format "Follow-up on Our {meeting_type} Meeting"
      {[ "meeting_type" := "Project Planning"; "recipient_name" := "Sarah Smith";
         "meeting_time" := "today";
         "topics_discussed" := "the Q1 marketing strategy and budget allocation";
         "action_items" := "prepare the revised budget proposal by next Friday";
         "next_steps" := "our follow-up meeting next week";
         "sender_name" := "John Doe" ]}
    = Some (Return subject).
Proof.
  destruct (template_formats_iff_placeholders "meeting_followup"
              (EmailTemplate.mk "Follow-up on Our {meeting_type} Meeting"
                 meeting_followup_content
                 ["meeting_type"; "recipient_name"; "meeting_time"; "topics_discussed";
                  "action_items"; "next_steps"; "sender_name"])
              {[ "meeting_type" := "Project Planning"; "recipient_name" := "Sarah Smith";
                 "meeting_time" := "today";
                 "topics_discussed" := "the Q1 marketing strategy and budget allocation";
                 "action_items" := "prepare the revised budget proposal by next Friday";
                 "next_steps" := "our follow-up meeting next week";
                 "sender_name" := "John Doe" ]})
    as [[_ Hall] _].
  - vm_compute. reflexivity.
  - destruct Hall as (subject & content & Hs & _).
    + repeat constructor; vm_compute; eauto.
    + exists subject. exact Hs.
Defined.

Lemma upcoming_later_is_suffix_witness :
  exists dropped earlier later,
    fst (get_upcoming_reminders (mk_datetime 2025 2 14 0 0 0 0) demo_agent) = Return earlier
    /\ fst (get_upcoming_reminders (mk_datetime 2025 2 15 0 0 0 0) demo_agent) = Return later
    /\ earlier = dropped ++ later
    /\ length dropped = 1%nat.
Proof.
  destruct (upcoming_later_is_suffix (mk_datetime 2025 2 14 0 0 0 0)
              (mk_datetime 2025 2 15 0 0 0 0) demo_agent)
    as (dropped & earlier & later & H1 & H2 & H3 & _).
  - reflexivity.
  - exists dropped, earlier, later. repeat split; try assumption.
    vm_compute in H1, H2. injection H1 as <-. injection H2 as <-.
    apply (f_equal (@length _)) in H3. rewrite length_app in H3. cbn in H3. lia.
Defined.
